(** * Quiz Master (app.py): a shallow embedding and its verified properties

    The application is a Streamlit front end over a SQLite file with six
    tables.  Every handler of app.py is embedded as a function from the
    database (and the submitted form fields) to the new database and the
    message the handler shows first.  Tables are lists of rows in rowid order;
    AUTOINCREMENT keys are drawn from a per-table counter, as SQLite's
    sqlite_sequence table does. *)

From Stdlib Require Import ZArith List String Ascii Bool Lia.
Import ListNotations.

Local Open Scope string_scope.
Local Open Scope Z_scope.

(** ** The Python built-ins the handlers rely on

    Text is a Rocq string; a character stands for the code point of the same
    number (U+0000 to U+00FF). *)

Module Py.

(** [str.isspace] on one code point below U+0100. *)
Definition isspace (c : ascii) : bool :=
  let n := nat_of_ascii c in
  ((9 <=? n) && (n <=? 13) || (28 <=? n) && (n <=? 32)
   || (n =? 133) || (n =? 160))%nat.

Fixpoint lstrip (s : string) : string :=
  match s with
  | String c r => if isspace c then lstrip r else s
  | EmptyString => EmptyString
  end.

Fixpoint rstrip (s : string) : string :=
  match s with
  | String c r =>
      match rstrip r with
      | EmptyString => if isspace c then EmptyString else String c EmptyString
      | r' => String c r'
      end
  | EmptyString => EmptyString
  end.

(** [s.strip()] *)
Definition strip (s : string) : string := rstrip (lstrip s).

(** Truth value of a text: [if s], [not s]. *)
Definition truthy (s : string) : bool := negb (s =? "")%string.

(** Truth value of a nullable column: [None] and the empty text are false. *)
Definition truthy_opt (o : option string) : bool :=
  match o with
  | Some s => truthy s
  | None => false
  end.

(** [c in s] for a one-character [c]. *)
Fixpoint contains (c : ascii) (s : string) : bool :=
  match s with
  | String d r => Ascii.eqb c d || contains c r
  | EmptyString => false
  end.

(** [s.split(sep)] for a one-character separator: always at least one part. *)
Fixpoint split (sep : ascii) (s : string) : list string :=
  match s with
  | EmptyString => [EmptyString]
  | String c r =>
      if Ascii.eqb c sep then EmptyString :: split sep r
      else match split sep r with
           | p :: ps => String c p :: ps
           | [] => [String c EmptyString]
           end
  end.

Definition isdigit (c : ascii) : bool :=
  let n := nat_of_ascii c in ((48 <=? n) && (n <=? 57))%nat.

Definition digit_value (c : ascii) : Z := Z.of_nat (nat_of_ascii c) - 48.

(** The digits of a decimal literal, single underscores allowed between
    digits.  [prev] tells whether the previous character was a digit. *)
Fixpoint int_digits (s : string) (acc : Z) (prev : bool) : option Z :=
  match s with
  | EmptyString => if prev then Some acc else None
  | String c r =>
      if isdigit c then int_digits r (10 * acc + digit_value c) true
      else if Ascii.eqb c "_" then
        (if prev then int_digits r acc false else None)
      else None
  end.

(** The interpreter's limit on the digits of a literal it converts (the
    default of [sys.get_int_max_str_digits()]). *)
Definition int_max_str_digits : Z := 4300.

Fixpoint count_digits (s : string) : Z :=
  match s with
  | String c r => (if isdigit c then 1 else 0) + count_digits r
  | EmptyString => 0
  end.

(** [int(s)] in base ten: surrounding white space, an optional sign, digits.
    [None] stands for ValueError. *)
Definition int (s : string) : option Z :=
  let t := strip s in
  if count_digits t >? int_max_str_digits then None
  else
    match t with
    | String "-" r => option_map Z.opp (int_digits r 0 false)
    | String "+" r => int_digits r 0 false
    | _ => int_digits t 0 false
    end.

(** [a, b = map(int, parts)]: exactly two parts, both integers; anything
    else raises. *)
Definition unpack2_int (parts : list string) : option (Z * Z) :=
  match parts with
  | [a; b] =>
      match int a, int b with
      | Some x, Some y => Some (x, y)
      | _, _ => None
      end
  | _ => None
  end.

End Py.

(** ** Rows of the six tables (init_db) *)

Module Users.
Record row : Type := mk
  { id : Z;
    username : string;
    password : string;
    full_name : option string;
    qualification : option string;
    dob : option string;
    role : option string;
    email : option string;
    last_login : option string }.
End Users.

Module Subjects.
Record row : Type := mk
  { id : Z;
    name : string;
    description : option string }.
End Subjects.

Module Chapters.
Record row : Type := mk
  { id : Z;
    subject_id : Z;
    name : string;
    description : option string }.
End Chapters.

Module Quizzes.
Record row : Type := mk
  { id : Z;
    chapter_id : Z;
    name : string;
    description : option string;
    date_of_quiz : option string;
    time_duration : option string;
    is_active : Z }.
End Quizzes.

Module Questions.
Record row : Type := mk
  { id : Z;
    quiz_id : Z;
    question_statement : string;
    option1 : string;
    option2 : string;
    option3 : option string;
    option4 : option string;
    correct_option : Z }.
End Questions.

Module Scores.
Record row : Type := mk
  { id : Z;
    quiz_id : Z;
    user_id : Z;
    time_stamp : string;
    total_scored : Z;
    total_questions : Z }.
End Scores.

(** The database file: the tables and the AUTOINCREMENT counters. *)
Record db : Type := mkdb
  { users : list Users.row;
    subjects : list Subjects.row;
    chapters : list Chapters.row;
    quizzes : list Quizzes.row;
    questions : list Questions.row;
    scores : list Scores.row;
    seq_users : Z;
    seq_subjects : Z;
    seq_chapters : Z;
    seq_quizzes : Z;
    seq_questions : Z;
    seq_scores : Z }.

(** What a handler shows for the request. *)
Inductive outcome : Type :=
| st_success (msg : string)
| st_error (msg : string)
| st_warning (msg : string)
| st_info (msg : string)
| st_form (radios : list (Z * list string))
| st_score (score total : Z)
| no_message
| raised (exc : string).


(** Streamlit session state: the keys 'username', 'role' and 'page'. *)
Record session : Type := mksession
  { ss_username : option string;
    ss_role : option string;
    ss_page : option string }.

(** ** Widgets

    A selectbox or radio always holds one of its options: the one the user
    picked, or its initial one when the submitted value is not on offer. *)

Definition mem (x : Z) (l : list Z) : bool := existsb (Z.eqb x) l.

Definition mem_str (x : string) (l : list string) : bool :=
  existsb (String.eqb x) l.

(** [st.selectbox(label, options)]: initial index 0; [None] without options. *)
Definition selectbox (options : list Z) (choice : Z) : option Z :=
  match options with
  | [] => None
  | first :: _ => Some (if mem choice options then choice else first)
  end.

(** [st.selectbox(label, options, index=options.index(current))]:
    [list.index] raises ValueError when [current] is not an option. *)
Definition selectbox_index (options : list Z) (current choice : Z)
  : option Z :=
  if mem current options
  then Some (if mem choice options then choice else current)
  else None.

(** [st.radio(label, options)] over texts, initial index 0. *)
Definition radio (options : list string) (choice : string) : option string :=
  match options with
  | [] => None
  | first :: _ => Some (if mem_str choice options then choice else first)
  end.

(** [st.radio(label, [1, 2, 3, 4], index=i)]: an index outside the list is
    refused by the widget. *)
Definition radio_1234 (index choice : Z) : option Z :=
  if (0 <=? index) && (index <? 4)
  then Some (if mem choice [1; 2; 3; 4] then choice else index + 1)
  else None.

(** Keys of [{id: name for id, name in rows}], in insertion order. *)
Fixpoint dict_keys (ids : list Z) (seen : list Z) : list Z :=
  match ids with
  | [] => []
  | k :: r => if mem k seen then dict_keys r seen
              else k :: dict_keys r (k :: seen)
  end.

(** ** SQL statements *)

(** [SELECT COUNT( * ) FROM t WHERE p] *)
Definition count {A : Type} (p : A -> bool) (t : list A) : Z :=
  Z.of_nat (List.length (filter p t)).

(** [DELETE FROM t WHERE p] *)
Definition delete {A : Type} (p : A -> bool) (t : list A) : list A :=
  filter (fun r => negb (p r)) t.

(** [UPDATE t SET ... WHERE p] *)
Definition update {A : Type} (p : A -> bool) (set : A -> A) (t : list A)
  : list A :=
  map (fun r => if p r then set r else r) t.

(** [SELECT ... FROM t WHERE p] followed by [fetchone()] *)
Definition fetchone {A : Type} (p : A -> bool) (t : list A) : option A :=
  find p t.

Definition with_users (d : db) (t : list Users.row) (sq : Z) : db :=
  mkdb t (subjects d) (chapters d) (quizzes d) (questions d) (scores d)
       sq (seq_subjects d) (seq_chapters d) (seq_quizzes d)
       (seq_questions d) (seq_scores d).

Definition with_subjects (d : db) (t : list Subjects.row) (sq : Z) : db :=
  mkdb (users d) t (chapters d) (quizzes d) (questions d) (scores d)
       (seq_users d) sq (seq_chapters d) (seq_quizzes d)
       (seq_questions d) (seq_scores d).

Definition with_chapters (d : db) (t : list Chapters.row) (sq : Z) : db :=
  mkdb (users d) (subjects d) t (quizzes d) (questions d) (scores d)
       (seq_users d) (seq_subjects d) sq (seq_quizzes d)
       (seq_questions d) (seq_scores d).

Definition with_quizzes (d : db) (t : list Quizzes.row) (sq : Z) : db :=
  mkdb (users d) (subjects d) (chapters d) t (questions d) (scores d)
       (seq_users d) (seq_subjects d) (seq_chapters d) sq
       (seq_questions d) (seq_scores d).

Definition with_questions (d : db) (t : list Questions.row) (sq : Z) : db :=
  mkdb (users d) (subjects d) (chapters d) (quizzes d) t (scores d)
       (seq_users d) (seq_subjects d) (seq_chapters d) (seq_quizzes d)
       sq (seq_scores d).

Definition with_scores (d : db) (t : list Scores.row) (sq : Z) : db :=
  mkdb (users d) (subjects d) (chapters d) (quizzes d) (questions d) t
       (seq_users d) (seq_subjects d) (seq_chapters d) (seq_quizzes d)
       (seq_questions d) sq.

(** [INSERT INTO users (username, password, full_name, role, email)]: the
    UNIQUE constraint on username raises IntegrityError ([None]); the other
    columns are NULL. *)
Definition insert_user (d : db) (username password : string)
    (full_name role email : option string) : option db :=
  if existsb (fun u => (Users.username u =? username)%string) (users d)
  then None
  else
    let id := seq_users d + 1 in
    Some (with_users d
            (users d ++ [Users.mk id username password full_name None None
                                  role email None])
            id).

(** ** init_db *)

Definition empty_db : db := mkdb [] [] [] [] [] [] 0 0 0 0 0 0.

(** [file] is the content of quiz_master.db, [None] when it does not exist.
    INSERT OR IGNORE skips the insert on a constraint violation. *)
Definition init_db (file : option db) : db :=
  match file with
  | Some d => d
  | None =>
      match insert_user empty_db "admin" "admin123" (Some "Admin User")
                        (Some "admin") None with
      | Some d => d
      | None => empty_db
      end
  end.

(** ** Helper functions *)

Definition get_current_user (ss : session) : option string := ss_username ss.

(** [WHERE username=?] with a parameter that may be None: NULL equals
    nothing. *)
Definition username_is (name : option string) (u : Users.row) : bool :=
  match name with
  | Some n => (Users.username u =? n)%string
  | None => false
  end.

Definition is_admin (d : db) (ss : session) : bool :=
  match ss_username ss with
  | None => false
  | Some n =>
      match fetchone (username_is (Some n)) (users d) with
      | Some u =>
          match Users.role u with
          | Some r => (r =? "admin")%string
          | None => false
          end
      | None => false
      end
  end.

(** [None] stands for the TypeError of [c.fetchone()[0]] on no row. *)
Definition get_user_id (d : db) (username : option string) : option Z :=
  option_map Users.id (fetchone (username_is username) (users d)).

Definition validate_login (d : db) (username password : string)
  : option string :=
  match fetchone (username_is (Some username)) (users d) with
  | Some u =>
      if (Users.password u =? password)%string then Users.role u else None
  | None => None
  end.

Definition set_last_login (now : string) (u : Users.row) : Users.row :=
  Users.mk (Users.id u) (Users.username u) (Users.password u)
           (Users.full_name u) (Users.qualification u) (Users.dob u)
           (Users.role u) (Users.email u) (Some now).

(** ** Authentication *)

(** The login form submitted; [now] is the formatted current time. *)
Definition login_page (d : db) (ss : session) (username password now : string)
  : db * session * outcome :=
  match validate_login d username password with
  | Some role =>
      if Py.truthy role then
        (with_users d
           (update (username_is (Some username)) (set_last_login now)
                   (users d))
           (seq_users d),
         mksession (Some username) (Some role) (Some "dashboard"),
         no_message)
      else (d, ss, st_error "Invalid credentials")
  | None => (d, ss, st_error "Invalid credentials")
  end.

(** The registration form submitted. *)
Definition register_page (d : db) (ss : session)
    (username password confirm_password full_name email : string)
  : db * session * outcome :=
  if negb (password =? confirm_password)%string
  then (d, ss, st_error "Passwords don't match!")
  else
    match insert_user d username password (Some full_name) (Some "user")
                      (Some email) with
    | Some d' =>
        (d', mksession (ss_username ss) (ss_role ss) (Some "login"),
         st_success "Registration successful! Please login.")
    | None => (d, ss, st_error "Username already exists!")
    end.

(** ** Admin pages

    A handler embeds the statements on the way from the top of its page
    function to the block of the submitted form or clicked button: the early
    returns, the selectboxes the block reads, and the block itself.  Date
    widgets hand over the text that strftime('%Y-%m-%d') makes of them. *)

Definition is_nil {A : Type} (l : list A) : bool :=
  match l with
  | [] => true
  | _ :: _ => false
  end.

(** *** manage_subjects *)

Definition manage_subjects_add (d : db) (name description : string)
  : db * outcome :=
  if negb (Py.truthy name) then (d, st_error "Subject name is required!")
  else
    let id := seq_subjects d + 1 in
    (with_subjects d
       (subjects d
        ++ [Subjects.mk id (Py.strip name) (Some (Py.strip description))])
       id,
     st_success "Subject added!").

Definition manage_subjects_update (d : db) (subject_choice : Z)
    (new_name new_desc : string) : db * outcome :=
  match selectbox (map Subjects.id (subjects d)) subject_choice with
  | None => (d, st_info "No subjects found. Add your first subject above.")
  | Some subject_id =>
      match fetchone (fun s => Subjects.id s =? subject_id) (subjects d) with
      | None => (d, no_message)
      | Some _ =>
          if negb (Py.truthy new_name)
          then (d, st_error "Subject name is required!")
          else
            (with_subjects d
               (update (fun s => Subjects.id s =? subject_id)
                       (fun s => Subjects.mk (Subjects.id s)
                                             (Py.strip new_name)
                                             (Some (Py.strip new_desc)))
                       (subjects d))
               (seq_subjects d),
             st_success "Subject updated!")
      end
  end.

Definition manage_subjects_delete (d : db) (subject_choice : Z)
  : db * outcome :=
  match selectbox (map Subjects.id (subjects d)) subject_choice with
  | None => (d, st_info "No subjects found. Add your first subject above.")
  | Some subject_id =>
      if count (fun c => Chapters.subject_id c =? subject_id) (chapters d) >? 0
      then (d, st_error "Cannot delete - subject has chapters!")
      else
        (with_subjects d
           (delete (fun s => Subjects.id s =? subject_id) (subjects d))
           (seq_subjects d),
         st_success "Subject deleted!")
  end.

(** *** manage_chapters *)

(** [SELECT id, name FROM subjects] as the keys of subject_options. *)
Definition subject_options (d : db) : list Z :=
  dict_keys (map Subjects.id (subjects d)) [].

(** [FROM chapters c JOIN subjects s ON c.subject_id = s.id] *)
Definition chapters_join_subjects (d : db) : list Chapters.row :=
  flat_map
    (fun c =>
       map (fun _ => c)
           (filter (fun s => Chapters.subject_id c =? Subjects.id s)
                   (subjects d)))
    (chapters d).

(** The ids listed under "All Chapters" for the selected subject. *)
Definition chapters_of_subject (d : db) (selected_subject : Z) : list Z :=
  map Chapters.id
      (filter (fun c => Chapters.subject_id c =? selected_subject)
              (chapters_join_subjects d)).

Definition manage_chapters_add (d : db) (subject_choice : Z)
    (name description : string) : db * outcome :=
  if is_nil (subjects d)
  then (d, st_warning "No subjects available. Please add subjects first.")
  else
    match selectbox (subject_options d) subject_choice with
    | None => (d, raised "IntegrityError")
    | Some subject_id =>
        if negb (Py.truthy name)
        then (d, st_error "Chapter name is required!")
        else
          let id := seq_chapters d + 1 in
          (with_chapters d
             (chapters d
              ++ [Chapters.mk id subject_id (Py.strip name)
                              (Some (Py.strip description))])
             id,
           st_success "Chapter added!")
    end.

Definition manage_chapters_update (d : db)
    (filter_choice chapter_choice subject_choice : Z)
    (new_name new_desc : string) : db * outcome :=
  if is_nil (subjects d)
  then (d, st_warning "No subjects available. Please add subjects first.")
  else
    match selectbox (subject_options d) filter_choice with
    | None => (d, raised "IntegrityError")
    | Some selected_subject =>
        match selectbox (chapters_of_subject d selected_subject)
                        chapter_choice with
        | None => (d, st_info "No chapters found for selected subject.")
        | Some chapter_id =>
            match fetchone (fun c => Chapters.id c =? chapter_id)
                           (chapters d) with
            | None => (d, no_message)
            | Some chapter =>
                match selectbox_index (subject_options d)
                                      (Chapters.subject_id chapter)
                                      subject_choice with
                | None => (d, raised "ValueError")
                | Some new_subject =>
                    if negb (Py.truthy new_name)
                    then (d, st_error "Chapter name is required!")
                    else
                      (with_chapters d
                         (update (fun c => Chapters.id c =? chapter_id)
                                 (fun c =>
                                    Chapters.mk (Chapters.id c) new_subject
                                                (Py.strip new_name)
                                                (Some (Py.strip new_desc)))
                                 (chapters d))
                         (seq_chapters d),
                       st_success "Chapter updated!")
                end
            end
        end
    end.

Definition manage_chapters_delete (d : db) (filter_choice chapter_choice : Z)
  : db * outcome :=
  if is_nil (subjects d)
  then (d, st_warning "No subjects available. Please add subjects first.")
  else
    match selectbox (subject_options d) filter_choice with
    | None => (d, raised "IntegrityError")
    | Some selected_subject =>
        match selectbox (chapters_of_subject d selected_subject)
                        chapter_choice with
        | None => (d, st_info "No chapters found for selected subject.")
        | Some chapter_id =>
            if count (fun q => Quizzes.chapter_id q =? chapter_id)
                     (quizzes d) >? 0
            then (d, st_error "Cannot delete - chapter has quizzes!")
            else
              (with_chapters d
                 (delete (fun c => Chapters.id c =? chapter_id) (chapters d))
                 (seq_chapters d),
               st_success "Chapter deleted!")
        end
    end.

(** *** manage_quizzes *)

(** Keys of chapter_options. *)
Definition chapter_options (d : db) : list Z :=
  dict_keys (map Chapters.id (chapters_join_subjects d)) [].

(** [FROM quizzes q JOIN chapters c ON q.chapter_id = c.id
     JOIN subjects s ON c.subject_id = s.id] *)
Definition quizzes_join (d : db) : list Quizzes.row :=
  flat_map
    (fun q =>
       map (fun _ => q)
           (filter (fun c => Quizzes.chapter_id q =? Chapters.id c)
                   (chapters_join_subjects d)))
    (quizzes d).

(** The ids listed under "All Quizzes" for the selected chapter. *)
Definition quizzes_of_chapter (d : db) (selected_chapter : Z) : list Z :=
  map Quizzes.id
      (filter (fun q => Quizzes.chapter_id q =? selected_chapter)
              (quizzes_join d)).

(** The check both quiz forms make before they write; [None] is the
    message-free way through. *)
Definition check_duration (name time_duration : string) : option outcome :=
  if negb (Py.truthy name) || negb (Py.truthy time_duration)
     || negb (Py.contains ":" time_duration)
  then Some (st_error "Please fill all required fields with valid data!")
  else
    match Py.unpack2_int (Py.split ":" time_duration) with
    | Some (hours, minutes) =>
        if (hours <? 0) || (minutes <? 0) || (minutes >=? 60)
        then Some (st_error "Invalid duration format! Use HH:MM")
        else None
    | None => Some (st_error "Invalid duration format! Use HH:MM")
    end.

Definition manage_quizzes_add (d : db) (chapter_choice : Z)
    (name description date_of_quiz time_duration : string) : db * outcome :=
  if is_nil (chapters_join_subjects d)
  then (d, st_warning "No chapters available. Please add chapters first.")
  else
    match selectbox (chapter_options d) chapter_choice with
    | None => (d, raised "IntegrityError")
    | Some chapter_id =>
        match check_duration name time_duration with
        | Some message => (d, message)
        | None =>
            let id := seq_quizzes d + 1 in
            (with_quizzes d
               (quizzes d
                ++ [Quizzes.mk id chapter_id (Py.strip name)
                               (Some (Py.strip description))
                               (Some date_of_quiz) (Some time_duration) 1])
               id,
             st_success "Quiz added!")
        end
    end.

Definition manage_quizzes_update (d : db)
    (filter_choice quiz_choice chapter_choice : Z)
    (new_name new_desc new_date new_duration : string) (is_active : bool)
  : db * outcome :=
  if is_nil (chapters_join_subjects d)
  then (d, st_warning "No chapters available. Please add chapters first.")
  else
    match selectbox (chapter_options d) filter_choice with
    | None => (d, raised "IntegrityError")
    | Some selected_chapter =>
        match selectbox (quizzes_of_chapter d selected_chapter)
                        quiz_choice with
        | None => (d, st_info "No quizzes found for selected chapter.")
        | Some quiz_id =>
            match fetchone (fun q => Quizzes.id q =? quiz_id) (quizzes d) with
            | None => (d, no_message)
            | Some quiz =>
                match selectbox_index (chapter_options d)
                                      (Quizzes.chapter_id quiz)
                                      chapter_choice with
                | None => (d, raised "ValueError")
                | Some new_chapter =>
                    match check_duration new_name new_duration with
                    | Some message => (d, message)
                    | None =>
                        (with_quizzes d
                           (update (fun q => Quizzes.id q =? quiz_id)
                                   (fun q =>
                                      Quizzes.mk (Quizzes.id q) new_chapter
                                                 (Py.strip new_name)
                                                 (Some (Py.strip new_desc))
                                                 (Some new_date)
                                                 (Some new_duration)
                                                 (Z.b2z is_active))
                                   (quizzes d))
                           (seq_quizzes d),
                         st_success "Quiz updated!")
                    end
                end
            end
        end
    end.

Definition manage_quizzes_delete (d : db) (filter_choice quiz_choice : Z)
  : db * outcome :=
  if is_nil (chapters_join_subjects d)
  then (d, st_warning "No chapters available. Please add chapters first.")
  else
    match selectbox (chapter_options d) filter_choice with
    | None => (d, raised "IntegrityError")
    | Some selected_chapter =>
        match selectbox (quizzes_of_chapter d selected_chapter)
                        quiz_choice with
        | None => (d, st_info "No quizzes found for selected chapter.")
        | Some quiz_id =>
            if count (fun q => Questions.quiz_id q =? quiz_id)
                     (questions d) >? 0
            then (d, st_error "Cannot delete - quiz has questions!")
            else
              (with_quizzes d
                 (delete (fun q => Quizzes.id q =? quiz_id) (quizzes d))
                 (seq_quizzes d),
               st_success "Quiz deleted!")
        end
    end.

(** *** manage_questions *)

(** The joined quizzes [WHERE q.is_active = 1]. *)
Definition active_quizzes (d : db) : list Quizzes.row :=
  filter (fun q => Quizzes.is_active q =? 1) (quizzes_join d).

(** Keys of quiz_options. *)
Definition quiz_options (d : db) : list Z :=
  dict_keys (map Quizzes.id (active_quizzes d)) [].

(** [SELECT ... FROM questions WHERE quiz_id=?] *)
Definition questions_of_quiz (d : db) (selected_quiz : Z)
  : list Questions.row :=
  filter (fun q => Questions.quiz_id q =? selected_quiz) (questions d).

(** [option3.strip() if option3 else None] *)
Definition strip_or_none (o : string) : option string :=
  if Py.truthy o then Some (Py.strip o) else None.

Definition manage_questions_add (d : db) (quiz_choice : Z)
    (question option1 option2 option3 option4 : string) (correct_choice : Z)
  : db * outcome :=
  if is_nil (active_quizzes d)
  then (d, st_warning
             "No active quizzes available. Please add quizzes first.")
  else
    match selectbox (quiz_options d) quiz_choice,
          radio_1234 0 correct_choice with
    | Some quiz_id, Some correct_option =>
        if negb (Py.truthy question) || negb (Py.truthy option1)
           || negb (Py.truthy option2)
        then (d, st_error "Please fill all required fields!")
        else
          let id := seq_questions d + 1 in
          (with_questions d
             (questions d
              ++ [Questions.mk id quiz_id (Py.strip question)
                               (Py.strip option1) (Py.strip option2)
                               (strip_or_none option3) (strip_or_none option4)
                               correct_option])
             id,
           st_success "Question added!")
    | _, _ => (d, raised "IntegrityError")
    end.

Definition manage_questions_update (d : db)
    (filter_choice question_choice quiz_choice : Z)
    (new_question new_option1 new_option2 new_option3 new_option4 : string)
    (correct_choice : Z) : db * outcome :=
  if is_nil (active_quizzes d)
  then (d, st_warning
             "No active quizzes available. Please add quizzes first.")
  else
    match selectbox (quiz_options d) filter_choice with
    | None => (d, raised "IntegrityError")
    | Some selected_quiz =>
        match selectbox (map Questions.id (questions_of_quiz d selected_quiz))
                        question_choice with
        | None => (d, st_info "No questions found for selected quiz.")
        | Some question_id =>
            match fetchone (fun q => Questions.id q =? question_id)
                           (questions d) with
            | None => (d, no_message)
            | Some question =>
                match selectbox_index (quiz_options d)
                                      (Questions.quiz_id question)
                                      quiz_choice,
                      radio_1234 (Questions.correct_option question - 1)
                                 correct_choice with
                | Some new_quiz, Some new_correct =>
                    if negb (Py.truthy new_question)
                       || negb (Py.truthy new_option1)
                       || negb (Py.truthy new_option2)
                    then (d, st_error "Please fill all required fields!")
                    else
                      (with_questions d
                         (update (fun q => Questions.id q =? question_id)
                                 (fun q =>
                                    Questions.mk (Questions.id q) new_quiz
                                      (Py.strip new_question)
                                      (Py.strip new_option1)
                                      (Py.strip new_option2)
                                      (strip_or_none new_option3)
                                      (strip_or_none new_option4)
                                      new_correct)
                                 (questions d))
                         (seq_questions d),
                       st_success "Question updated!")
                | None, _ => (d, raised "ValueError")
                | _, None => (d, raised "StreamlitAPIException")
                end
            end
        end
    end.

Definition manage_questions_delete (d : db)
    (filter_choice question_choice : Z) : db * outcome :=
  if is_nil (active_quizzes d)
  then (d, st_warning
             "No active quizzes available. Please add quizzes first.")
  else
    match selectbox (quiz_options d) filter_choice with
    | None => (d, raised "IntegrityError")
    | Some selected_quiz =>
        match selectbox (map Questions.id (questions_of_quiz d selected_quiz))
                        question_choice with
        | None => (d, st_info "No questions found for selected quiz.")
        | Some question_id =>
            (with_questions d
               (delete (fun q => Questions.id q =? question_id) (questions d))
               (seq_questions d),
             st_success "Question deleted!")
        end
    end.

(** *** manage_users *)

(** [st.selectbox("Role", ['user', 'admin'],
                  index=0 if user[6] == 'user' else 1)] *)
Definition role_selectbox (current : option string) (choice : string)
  : string :=
  if mem_str choice ["user"; "admin"] then choice
  else match current with
       | Some "user" => "user"
       | _ => "admin"
       end.

Definition manage_users_update (d : db) (user_choice : Z)
    (new_fullname new_qual new_dob new_email role_choice : string)
  : db * outcome :=
  match selectbox (map Users.id (users d)) user_choice with
  | None => (d, st_info "No users found.")
  | Some user_id =>
      match fetchone (fun u => Users.id u =? user_id) (users d) with
      | None => (d, no_message)
      | Some user =>
          let new_role := role_selectbox (Users.role user) role_choice in
          (with_users d
             (update (fun u => Users.id u =? user_id)
                     (fun u =>
                        Users.mk (Users.id u) (Users.username u)
                                 (Users.password u)
                                 (Some (Py.strip new_fullname))
                                 (Some (Py.strip new_qual))
                                 (Some new_dob)
                                 (Some new_role)
                                 (Some (Py.strip new_email))
                                 (Users.last_login u))
                     (users d))
             (seq_users d),
           st_success "User updated!")
      end
  end.

Definition role_is_admin (r : option string) : bool :=
  match r with
  | Some t => (t =? "admin")%string
  | None => false
  end.

Definition manage_users_delete (d : db) (user_choice : Z) : db * outcome :=
  match selectbox (map Users.id (users d)) user_choice with
  | None => (d, st_info "No users found.")
  | Some user_id =>
      match fetchone (fun u => Users.id u =? user_id) (users d) with
      | None => (d, raised "TypeError")
      | Some user =>
          if role_is_admin (Users.role user)
          then (d, st_error "Cannot delete admin user!")
          else if count (fun s => Scores.user_id s =? user_id) (scores d) >? 0
          then (d, st_error "Cannot delete - user has quiz attempts!")
          else
            (with_users d
               (delete (fun u => Users.id u =? user_id) (users d))
               (seq_users d),
             st_success "User deleted!")
      end
  end.

(** ** User pages *)

(** *** take_quiz *)

(** [if opt3: options.append(opt3)] *)
Definition append_if (opt : option string) : list string :=
  match opt with
  | Some o => if Py.truthy o then [o] else []
  | None => []
  end.

(** The options a question is rendered with. *)
Definition rendered_options (q : Questions.row) : list string :=
  [Questions.option1 q; Questions.option2 q]
  ++ append_if (Questions.option3 q) ++ append_if (Questions.option4 q).

(** [answers[q_id] = value] on a dict kept in insertion order. *)
Fixpoint dict_set (answers : list (Z * string)) (q_id : Z) (value : string)
  : list (Z * string) :=
  match answers with
  | [] => [(q_id, value)]
  | (k, v) :: rest =>
      if k =? q_id then (k, value) :: rest
      else (k, v) :: dict_set rest q_id value
  end.

(** The loop that renders the questions and collects the radios' values;
    [choices] gives, per question id, the option the user clicked. *)
Fixpoint collect_answers (questions : list Questions.row)
    (choices : Z -> string) (answers : list (Z * string))
  : option (list (Z * string)) :=
  match questions with
  | [] => Some answers
  | q :: rest =>
      match radio (rendered_options q) (choices (Questions.id q)) with
      | Some value =>
          collect_answers rest choices
                          (dict_set answers (Questions.id q) value)
      | None => None
      end
  end.

(** [opt and opt == user_answer] *)
Definition option_matches (opt : option string) (user_answer : string)
  : bool :=
  match opt with
  | Some o => Py.truthy o && (o =? user_answer)%string
  | None => false
  end.

(** [for i, opt in enumerate(options, i): ...; break], leaving
    selected_option at [None] when no slot matches. *)
Fixpoint selected_option_from (i : Z) (options : list (option string))
    (user_answer : string) : option Z :=
  match options with
  | [] => None
  | opt :: rest =>
      if option_matches opt user_answer then Some i
      else selected_option_from (i + 1) rest user_answer
  end.

(** The four slots of [SELECT option1, option2, option3, option4]. *)
Definition option_slots (q : Questions.row) : list (option string) :=
  [Some (Questions.option1 q); Some (Questions.option2 q);
   Questions.option3 q; Questions.option4 q].

Definition selected_option (q : Questions.row) (user_answer : string)
  : option Z :=
  selected_option_from 1 (option_slots q) user_answer.

(** [selected_option == correct_opt] *)
Definition is_correct (q : Questions.row) (user_answer : string) : bool :=
  match selected_option q user_answer with
  | Some i => i =? Questions.correct_option q
  | None => false
  end.

(** The scoring loop over [answers.items()]; [None] is the TypeError of
    [c.fetchone()[0]] when the question is gone. *)
Fixpoint calculate_score (d : db) (answers : list (Z * string)) (score : Z)
  : option Z :=
  match answers with
  | [] => Some score
  | (q_id, user_answer) :: rest =>
      match fetchone (fun q => Questions.id q =? q_id) (questions d) with
      | None => None
      | Some q =>
          calculate_score d rest
            (if is_correct q user_answer then score + 1 else score)
      end
  end.

(** The page "Take Quiz"; [submitted] tells whether the form was sent,
    [now] is the formatted current time. *)
Definition take_quiz (d : db) (ss : session) (quiz_choice : Z)
    (choices : Z -> string) (submitted : bool) (now : string)
  : db * outcome :=
  if is_nil (active_quizzes d)
  then (d, st_warning "No quizzes available at the moment.")
  else
    match selectbox (quiz_options d) quiz_choice with
    | None => (d, raised "TypeError")
    | Some selected_quiz =>
        match get_user_id d (get_current_user ss) with
        | None => (d, raised "TypeError")
        | Some user_id =>
            if count (fun s => (Scores.quiz_id s =? selected_quiz)
                               && (Scores.user_id s =? user_id))
                     (scores d) >? 0
            then (d, st_warning "You have already taken this quiz.")
            else
              match fetchone (fun q => Quizzes.id q =? selected_quiz)
                             (quizzes d) with
              | None => (d, raised "TypeError")
              | Some quiz =>
                  match Quizzes.time_duration quiz with
                  | None => (d, raised "AttributeError")
                  | Some duration =>
                      match Py.unpack2_int (Py.split ":" duration) with
                      | None => (d, raised "ValueError")
                      | Some _ =>
                          let questions := questions_of_quiz d selected_quiz in
                          if is_nil questions
                          then (d, st_warning "This quiz has no questions yet.")
                          else
                            match collect_answers questions choices [] with
                            | None => (d, raised "StreamlitAPIException")
                            | Some answers =>
                                if negb submitted
                                then (d, st_form
                                           (map (fun q =>
                                                   (Questions.id q,
                                                    rendered_options q))
                                                questions))
                                else
                                  match calculate_score d answers 0 with
                                  | None => (d, raised "TypeError")
                                  | Some score =>
                                      let total_questions :=
                                        Z.of_nat (List.length questions) in
                                      let id := seq_scores d + 1 in
                                      (with_scores d
                                         (scores d
                                          ++ [Scores.mk id selected_quiz
                                                user_id now score
                                                total_questions])
                                         id,
                                       st_score score total_questions)
                                  end
                            end
                      end
                  end
              end
        end
    end.

(** *** user_profile *)

Definition user_profile (d : db) (ss : session)
    (new_fullname new_qual new_dob new_email new_password
       confirm_password : string) : db * outcome :=
  let username := get_current_user ss in
  match fetchone (username_is username) (users d) with
  | None => (d, no_message)
  | Some _ =>
      if Py.truthy new_password
         && negb (new_password =? confirm_password)%string
      then (d, st_error "Passwords don't match!")
      else
        (with_users d
           (update (username_is username)
                   (fun u =>
                      Users.mk (Users.id u) (Users.username u)
                               (if Py.truthy new_password then new_password
                                else Users.password u)
                               (Some (Py.strip new_fullname))
                               (Some (Py.strip new_qual))
                               (Some new_dob)
                               (Users.role u)
                               (Some (Py.strip new_email))
                               (Users.last_login u))
                   (users d))
           (seq_users d),
         st_success "Profile updated!")
  end.

(** ** dashboard and main *)

(** What a user can submit: a form or a button of the page shown. *)
Inductive request : Type :=
| Login (username password now : string)
| RegisterNewUser
| Register (username password confirm_password full_name email : string)
| BackToLogin
| GoToAdminDashboard
| GoToUserDashboard
| Logout
| AddSubject (name description : string)
| UpdateSubject (subject_choice : Z) (new_name new_desc : string)
| DeleteSubject (subject_choice : Z)
| AddChapter (subject_choice : Z) (name description : string)
| UpdateChapter (filter_choice chapter_choice subject_choice : Z)
                (new_name new_desc : string)
| DeleteChapter (filter_choice chapter_choice : Z)
| AddQuiz (chapter_choice : Z)
          (name description date_of_quiz time_duration : string)
| UpdateQuiz (filter_choice quiz_choice chapter_choice : Z)
             (new_name new_desc new_date new_duration : string)
             (is_active : bool)
| DeleteQuiz (filter_choice quiz_choice : Z)
| AddQuestion (quiz_choice : Z)
              (question option1 option2 option3 option4 : string)
              (correct_choice : Z)
| UpdateQuestion (filter_choice question_choice quiz_choice : Z)
                 (new_question new_option1 new_option2 new_option3
                    new_option4 : string)
                 (correct_choice : Z)
| DeleteQuestion (filter_choice question_choice : Z)
| UpdateUser (user_choice : Z)
             (new_fullname new_qual new_dob new_email role_choice : string)
| DeleteUser (user_choice : Z)
| TakeQuiz (quiz_choice : Z) (choices : Z -> string) (submitted : bool)
           (now : string)
| UpdateProfile (new_fullname new_qual new_dob new_email new_password
                   confirm_password : string).

Definition goto (ss : session) (page : string) : session :=
  mksession (ss_username ss) (ss_role ss) (Some page).

Definition dashboard (d : db) (ss : session) (r : request)
  : db * session * outcome :=
  match r with
  | GoToAdminDashboard =>
      if is_admin d ss then (d, goto ss "admin_dashboard", no_message)
      else (d, ss, no_message)
  | GoToUserDashboard =>
      if is_admin d ss then (d, ss, no_message)
      else (d, goto ss "user_dashboard", no_message)
  | Logout => (d, mksession None None (Some "login"), no_message)
  | _ => (d, ss, no_message)
  end.

Definition keep (ss : session) (x : db * outcome) : db * session * outcome :=
  (fst x, ss, snd x).

Definition admin_dashboard (d : db) (ss : session) (r : request)
  : db * session * outcome :=
  match r with
  | AddSubject n de => keep ss (manage_subjects_add d n de)
  | UpdateSubject c n de => keep ss (manage_subjects_update d c n de)
  | DeleteSubject c => keep ss (manage_subjects_delete d c)
  | AddChapter c n de => keep ss (manage_chapters_add d c n de)
  | UpdateChapter f c s n de => keep ss (manage_chapters_update d f c s n de)
  | DeleteChapter f c => keep ss (manage_chapters_delete d f c)
  | AddQuiz c n de da du => keep ss (manage_quizzes_add d c n de da du)
  | UpdateQuiz f q c n de da du a =>
      keep ss (manage_quizzes_update d f q c n de da du a)
  | DeleteQuiz f q => keep ss (manage_quizzes_delete d f q)
  | AddQuestion q st o1 o2 o3 o4 c =>
      keep ss (manage_questions_add d q st o1 o2 o3 o4 c)
  | UpdateQuestion f qn q st o1 o2 o3 o4 c =>
      keep ss (manage_questions_update d f qn q st o1 o2 o3 o4 c)
  | DeleteQuestion f qn => keep ss (manage_questions_delete d f qn)
  | UpdateUser u fn q dob e r => keep ss (manage_users_update d u fn q dob e r)
  | DeleteUser u => keep ss (manage_users_delete d u)
  | _ => (d, ss, no_message)
  end.

Definition user_dashboard (d : db) (ss : session) (r : request)
  : db * session * outcome :=
  match r with
  | TakeQuiz q choices submitted now =>
      keep ss (take_quiz d ss q choices submitted now)
  | UpdateProfile fn q dob e pw cpw =>
      keep ss (user_profile d ss fn q dob e pw cpw)
  | _ => (d, ss, no_message)
  end.

(** One run of the script for one request of one session. *)
Definition main (d : db) (ss : session) (r : request)
  : db * session * outcome :=
  let page := match ss_page ss with
              | Some p => p
              | None => "login"
              end in
  let ss := goto ss page in
  if (page =? "login")%string then
    match r with
    | Login u p now => login_page d ss u p now
    | RegisterNewUser => (d, goto ss "register", no_message)
    | _ => (d, ss, no_message)
    end
  else if (page =? "register")%string then
    match r with
    | Register u p c f e => register_page d ss u p c f e
    | BackToLogin => (d, goto ss "login", no_message)
    | _ => (d, ss, no_message)
    end
  else if (page =? "dashboard")%string then dashboard d ss r
  else if (page =? "admin_dashboard")%string then admin_dashboard d ss r
  else if (page =? "user_dashboard")%string then user_dashboard d ss r
  else (d, ss, no_message).

(** A fresh browser session. *)
Definition new_session : session := mksession None None None.

(** The requests of one session, one after the other. *)
Fixpoint run (d : db) (ss : session) (rs : list request) : db * session :=
  match rs with
  | [] => (d, ss)
  | r :: rest =>
      let '(d', ss', _) := main d ss r in run d' ss' rest
  end.

(** The database states the application can be in: any number of sessions,
    each in any state, take turns, one request at a time. *)
Inductive reachable : db -> Prop :=
| reachable_init : reachable (init_db None)
| reachable_step (d : db) (ss : session) (r : request) :
    reachable d -> reachable (fst (fst (main d ss r))).

(** * Properties and sample runs *)

(** ** Properties the specification names *)

(** At most one Score row per (quiz, user) pair. *)
Definition one_score_per_pair (d : db) : Prop :=
  NoDup (map (fun s => (Scores.quiz_id s, Scores.user_id s)) (scores d)).

(** A Score row for the pair exists. *)
Definition has_score (d : db) (quiz_id user_id : Z) : Prop :=
  exists s, In s (scores d)
            /\ Scores.quiz_id s = quiz_id /\ Scores.user_id s = user_id.

(** The option slot that correct_option names holds text. *)
Definition names_populated_slot (q : Questions.row) : bool :=
  match Questions.correct_option q with
  | 1 => Py.truthy (Questions.option1 q)
  | 2 => Py.truthy (Questions.option2 q)
  | 3 => Py.truthy_opt (Questions.option3 q)
  | 4 => Py.truthy_opt (Questions.option4 q)
  | _ => false
  end.

(** The durations both quiz forms let through: two parts around one colon,
    each an integer literal, hours not negative, minutes from 0 to 59. *)
Definition valid_duration (time_duration : string) : Prop :=
  exists hh mm hours minutes,
    Py.split ":" time_duration = [hh; mm]
    /\ Py.int hh = Some hours /\ Py.int mm = Some minutes
    /\ 0 <= hours /\ 0 <= minutes < 60.

(** Slot [i] (counted from 1) holds the non-empty text [t]. *)
Definition slot_holds (q : Questions.row) (i : Z) (t : string) : Prop :=
  nth_error (option_slots q) (Z.to_nat (i - 1)) = Some (Some t)
  /\ 1 <= i /\ t <> "".

(** The value the radio of question [q] holds at submission. *)
Definition answer_of (choices : Z -> string) (q : Questions.row) : string :=
  match radio (rendered_options q) (choices (Questions.id q)) with
  | Some value => value
  | None => ""
  end.

(** The points of a submission: the questions whose radio value is matched
    to the slot that correct_option names. *)
Definition points (choices : Z -> string) (questions : list Questions.row)
  : Z :=
  count (fun q => is_correct q (answer_of choices q)) questions.

(** Everything but the users table is the same. *)
Definition same_but_users (d d' : db) : Prop :=
  subjects d' = subjects d /\ chapters d' = chapters d
  /\ quizzes d' = quizzes d /\ questions d' = questions d
  /\ scores d' = scores d.

(** The row [u'] is [u] after the admin's edit form: full name,
    qualification, date of birth, email and role replaced, the rest kept. *)
Definition admin_edited (new_fullname new_qual new_dob new_email : string)
    (u u' : Users.row) : Prop :=
  exists new_role,
    (new_role = "user" \/ new_role = "admin")
    /\ u' = Users.mk (Users.id u) (Users.username u) (Users.password u)
                     (Some (Py.strip new_fullname)) (Some (Py.strip new_qual))
                     (Some new_dob) (Some new_role)
                     (Some (Py.strip new_email)) (Users.last_login u).

(** The row [u'] is [u] after the profile form: full name, qualification,
    date of birth and email replaced, the password too when a new one was
    typed, the rest kept. *)
Definition profile_edited
    (new_fullname new_qual new_dob new_email new_password : string)
    (u u' : Users.row) : Prop :=
  u' = Users.mk (Users.id u) (Users.username u)
                (if Py.truthy new_password then new_password
                 else Users.password u)
                (Some (Py.strip new_fullname)) (Some (Py.strip new_qual))
                (Some new_dob) (Users.role u)
                (Some (Py.strip new_email)) (Users.last_login u).

(** ** Tables and what the forms keep true of them *)

(** The six tables, each with its counter. *)
Inductive table : Type :=
| T_users | T_subjects | T_chapters | T_quizzes | T_questions | T_scores.

(** Table [t] and its counter are the same in [d] and [d']. *)
Definition same_table (t : table) (d d' : db) : Prop :=
  match t with
  | T_users => users d' = users d /\ seq_users d' = seq_users d
  | T_subjects =>
      subjects d' = subjects d /\ seq_subjects d' = seq_subjects d
  | T_chapters =>
      chapters d' = chapters d /\ seq_chapters d' = seq_chapters d
  | T_quizzes => quizzes d' = quizzes d /\ seq_quizzes d' = seq_quizzes d
  | T_questions =>
      questions d' = questions d /\ seq_questions d' = seq_questions d
  | T_scores => scores d' = scores d /\ seq_scores d' = seq_scores d
  end.

(** From [d] to [d'] no table but [t] was written. *)
Definition writes_only (t : table) (d d' : db) : Prop :=
  forall t', t' <> t -> same_table t' d d'.

Definition is_table (t t' : table) : bool :=
  match t, t' with
  | T_users, T_users | T_subjects, T_subjects | T_chapters, T_chapters
  | T_quizzes, T_quizzes | T_questions, T_questions | T_scores, T_scores =>
      true
  | _, _ => false
  end.

(** The questions table as the schema and the forms keep it: ids are
    distinct and below the counter, correct_option is one of 1, 2, 3, 4. *)
Definition questions_ok (d : db) : Prop :=
  NoDup (map Questions.id (questions d))
  /\ forall q, In q (questions d) ->
               Questions.id q <= seq_questions d
               /\ 1 <= Questions.correct_option q <= 4.

(** The catalog as the forms keep it: every chapter has its subject, every
    quiz its chapter, and every quiz a duration that take_quiz can read. *)
Definition catalog_ok (d : db) : Prop :=
  (forall c, In c (chapters d) ->
             exists s, In s (subjects d)
                       /\ Subjects.id s = Chapters.subject_id c)
  /\ (forall q, In q (quizzes d) ->
                exists c, In c (chapters d)
                          /\ Chapters.id c = Quizzes.chapter_id q)
  /\ (forall q, In q (quizzes d) ->
                exists duration hours minutes,
                  Quizzes.time_duration q = Some duration
                  /\ Py.unpack2_int (Py.split ":" duration)
                     = Some (hours, minutes)).

Definition catalog_tables (t : table) : bool :=
  is_table T_subjects t || is_table T_chapters t || is_table T_quizzes t.

(** ** Sample runs *)

(** The seeded admin logs in and authors one subject, chapter and quiz. *)
Definition authoring : list request :=
  [Login "admin" "admin123" "2025-01-01 09:00:00";
   GoToAdminDashboard;
   AddSubject "Math" "";
   AddChapter 1 "Algebra" "";
   AddQuiz 1 "Quiz1" "" "2025-01-02" "00:10"].

(** The admin's session once the admin dashboard is open. *)
Definition an_admin : session :=
  mksession (Some "admin") (Some "admin") (Some "admin_dashboard").



Definition db_quiz : db := fst (run (init_db None) new_session authoring).

(** ... and the question of the end-to-end scenario. *)
Definition db_scenario : db :=
  fst (run db_quiz an_admin [AddQuestion 1 "2+2=?" "3" "4" "5" "6" 2]).

(** ... or a question with the options A, B, C, D, the third one correct. *)
Definition db_abcd : db :=
  fst (run db_quiz an_admin [AddQuestion 1 "Which?" "A" "B" "C" "D" 3]).

(** A new user registers, logs in and opens the user dashboard. *)
Definition signing_up : list request :=
  [RegisterNewUser;
   Register "bob" "secret" "secret" "Bob" "bob@example.org";
   Login "bob" "secret" "2025-01-02 10:00:00";
   GoToUserDashboard].

(** Bob's session once the user dashboard is open. *)
Definition bob : session :=
  mksession (Some "bob") (Some "user") (Some "user_dashboard").

(** Bob is signed up on the database with the A, B, C, D question. *)
Definition db_abcd_bob : db := fst (run db_abcd new_session signing_up).

(** Bob has taken Quiz1 of the scenario. *)
Definition db_taken : db :=
  fst (run (fst (run db_scenario new_session signing_up)) bob
           [TakeQuiz 1 (fun _ => "4") true "2025-01-02 10:05:00"]).

(** The admin then deletes the only question of Quiz1. *)
Definition db_emptied : db :=
  fst (run db_taken an_admin [DeleteQuestion 1 1]).

(** ** What every request keeps: keys, references, scores *)

(** The ways a request may change a table with primary key [id] and counter
    [sq]: not at all, by one insert under the next key, by an update that
    keeps every key, or by a delete. *)
Inductive table_step {A : Type} (id : A -> Z) (t : list A) (sq : Z)
  : list A -> Z -> Prop :=
| step_same : table_step id t sq t sq
| step_insert (r : A) :
    id r = sq + 1 -> table_step id t sq (t ++ [r]) (sq + 1)
| step_update (p : A -> bool) (set : A -> A) :
    (forall x, id (set x) = id x) -> table_step id t sq (update p set t) sq
| step_delete (p : A -> bool) : table_step id t sq (delete p t) sq.

Definition db_step (d d' : db) : Prop :=
  table_step Users.id (users d) (seq_users d) (users d') (seq_users d')
  /\ table_step Subjects.id (subjects d) (seq_subjects d)
                (subjects d') (seq_subjects d')
  /\ table_step Chapters.id (chapters d) (seq_chapters d)
                (chapters d') (seq_chapters d')
  /\ table_step Quizzes.id (quizzes d) (seq_quizzes d)
                (quizzes d') (seq_quizzes d')
  /\ table_step Questions.id (questions d) (seq_questions d)
                (questions d') (seq_questions d')
  /\ table_step Scores.id (scores d) (seq_scores d)
                (scores d') (seq_scores d').

(** PRIMARY KEY AUTOINCREMENT: the keys of a table are distinct, positive
    and not above its counter. *)
Definition keys_ok {A : Type} (id : A -> Z) (t : list A) (sq : Z) : Prop :=
  NoDup (map id t) /\ 0 <= sq /\ forall r, In r t -> 0 < id r <= sq.

Definition primary_keys_ok (d : db) : Prop :=
  keys_ok Users.id (users d) (seq_users d)
  /\ keys_ok Subjects.id (subjects d) (seq_subjects d)
  /\ keys_ok Chapters.id (chapters d) (seq_chapters d)
  /\ keys_ok Quizzes.id (quizzes d) (seq_quizzes d)
  /\ keys_ok Questions.id (questions d) (seq_questions d)
  /\ keys_ok Scores.id (scores d) (seq_scores d).

(** A relation between the database before and after that each handler
    establishes. *)
Definition related_by_handlers (R : db -> db -> Prop) : Prop :=
  (forall d ss u p now, R d (fst (fst (login_page d ss u p now))))
  /\ (forall d ss u p c f e, R d (fst (fst (register_page d ss u p c f e))))
  /\ (forall d n de, R d (fst (manage_subjects_add d n de)))
  /\ (forall d c n de, R d (fst (manage_subjects_update d c n de)))
  /\ (forall d c, R d (fst (manage_subjects_delete d c)))
  /\ (forall d c n de, R d (fst (manage_chapters_add d c n de)))
  /\ (forall d f c s n de, R d (fst (manage_chapters_update d f c s n de)))
  /\ (forall d f c, R d (fst (manage_chapters_delete d f c)))
  /\ (forall d c n de da du, R d (fst (manage_quizzes_add d c n de da du)))
  /\ (forall d f q c n de da du a,
         R d (fst (manage_quizzes_update d f q c n de da du a)))
  /\ (forall d f q, R d (fst (manage_quizzes_delete d f q)))
  /\ (forall d q st o1 o2 o3 o4 c,
         R d (fst (manage_questions_add d q st o1 o2 o3 o4 c)))
  /\ (forall d f n q st o1 o2 o3 o4 c,
         R d (fst (manage_questions_update d f n q st o1 o2 o3 o4 c)))
  /\ (forall d f n, R d (fst (manage_questions_delete d f n)))
  /\ (forall d u fn q dob e r,
         R d (fst (manage_users_update d u fn q dob e r)))
  /\ (forall d u, R d (fst (manage_users_delete d u)))
  /\ (forall d ss q ch sub now, R d (fst (take_quiz d ss q ch sub now)))
  /\ (forall d ss fn q dob e pw cpw,
         R d (fst (user_profile d ss fn q dob e pw cpw))).

(** What one request may do to the keys of a table: the counter does not
    go down, and a key that was not in the table is above the old
    counter. *)
Definition fresh_keys {A : Type} (id : A -> Z) (t : list A) (sq : Z)
    (t' : list A) (sq' : Z) : Prop :=
  sq <= sq'
  /\ forall r', In r' t' -> In (id r') (map id t) \/ sq < id r' <= sq'.

Definition db_fresh_keys (d d' : db) : Prop :=
  fresh_keys Users.id (users d) (seq_users d) (users d') (seq_users d')
  /\ fresh_keys Subjects.id (subjects d) (seq_subjects d)
                (subjects d') (seq_subjects d')
  /\ fresh_keys Chapters.id (chapters d) (seq_chapters d)
                (chapters d') (seq_chapters d')
  /\ fresh_keys Quizzes.id (quizzes d) (seq_quizzes d)
                (quizzes d') (seq_quizzes d')
  /\ fresh_keys Questions.id (questions d) (seq_questions d)
                (questions d') (seq_questions d')
  /\ fresh_keys Scores.id (scores d) (seq_scores d)
                (scores d') (seq_scores d').

(** UNIQUE(username), and the two roles the forms know. *)
Definition users_ok (d : db) : Prop :=
  NoDup (map Users.username (users d))
  /\ forall x, In x (users d) ->
               Users.role x = Some "user" \/ Users.role x = Some "admin".

(** A session of the user with this name, on whatever page. *)
Definition session_of (username : string) (ss : session) : Prop :=
  ss_username ss = Some username.

(** Every Score row counts at least one question and a score between 0 and
    the number of questions. *)
Definition scores_ok (d : db) : Prop :=
  forall s, In s (scores d) ->
            1 <= Scores.total_questions s
            /\ 0 <= Scores.total_scored s <= Scores.total_questions s.

(** Every Score row has its user, every question its quiz. *)
Definition refs_ok (d : db) : Prop :=
  (forall s, In s (scores d) ->
             exists u, In u (users d) /\ Users.id u = Scores.user_id s)
  /\ (forall n, In n (questions d) ->
                exists q, In q (quizzes d)
                          /\ Quizzes.id q = Questions.quiz_id n).

Definition refs_tables (t : table) : bool :=
  is_table T_users t || is_table T_quizzes t || is_table T_questions t
  || is_table T_scores t.

(** What identifies an account: id, username and role. *)
Definition account (u : Users.row) : Z * string * option string :=
  (Users.id u, Users.username u, Users.role u).

(** The page main shows for a session: 'login' when the key is not set. *)
Definition page_of (ss : session) : string :=
  match ss_page ss with
  | Some p => p
  | None => "login"
  end.

(** The catalog is as it was, and so are the accounts, but for at most one
    new account with the role "user". *)
Definition catalog_and_accounts_kept (d d' : db) : Prop :=
  same_table T_subjects d d' /\ same_table T_chapters d d'
  /\ same_table T_quizzes d d' /\ same_table T_questions d d'
  /\ (map account (users d') = map account (users d)
      \/ exists id username,
          map account (users d')
          = (map account (users d) ++ [(id, username, Some "user")])%list).

(** The run of the script ended in an uncaught exception. *)
Definition is_raised (o : outcome) : bool :=
  match o with
  | raised _ => true
  | _ => false
  end.

(** No row of users carries the session's username. *)
Definition user_row_gone (d : db) (ss : session) : Prop :=
  forall u, In u (users d) -> ss_username ss <> Some (Users.username u).

(** Every chapter has its subject, every quiz its chapter. *)
Definition parents_ok (d : db) : Prop :=
  (forall c, In c (chapters d) ->
             exists s, In s (subjects d)
                       /\ Subjects.id s = Chapters.subject_id c)
  /\ (forall q, In q (quizzes d) ->
                exists c, In c (chapters d)
                          /\ Chapters.id c = Quizzes.chapter_id q).

(** The run of the script ended in the uncaught exception [exc]. *)
Definition raises (exc : string) (o : outcome) : bool :=
  match o with
  | raised e => (e =? exc)%string
  | _ => false
  end.

(** Quiz1 with one question whose correct_option names the empty third
    slot, and Bob signed up. *)
Definition db_gap : db :=
  fst (run (fst (run db_quiz an_admin
                     [AddQuestion 1 "Which?" "A" "B" "" "" 3]))
           new_session signing_up).

(** * Lemmas *)

Local Open Scope list_scope.

(** ** The built-ins *)

Example int_examples :
  Py.int "00" = Some 0 /\ Py.int " 30 " = Some 30 /\ Py.int "-5" = Some (-5)
  /\ Py.int "1_0" = Some 10 /\ Py.int "" = None /\ Py.int "3x" = None
  /\ Py.int "- 1" = None /\ Py.int "_1" = None /\ Py.int "+7" = Some 7.
Proof. repeat split; reflexivity. Qed.

Example split_examples :
  Py.split ":" "00:30" = ["00"; "30"] /\ Py.split ":" "" = [""]
  /\ Py.split ":" "1:2:3" = ["1"; "2"; "3"] /\ Py.split ":" ":" = [""; ""].
Proof. repeat split; reflexivity. Qed.

Example strip_examples :
  Py.strip "  a b  " = "a b" /\ Py.strip " " = "" /\ Py.strip "" = "".
Proof. repeat split; reflexivity. Qed.

Example sample_sessions :
  snd (run (init_db None) new_session authoring) = an_admin
  /\ snd (run db_scenario new_session signing_up) = bob
  /\ map Scores.total_scored (scores db_taken) = [1]
  /\ map Scores.total_questions (scores db_taken) = [1].
Proof. repeat split; vm_compute; reflexivity. Qed.

Lemma truthy_true (s : string) : Py.truthy s = true <-> s <> "".
Proof.
  unfold Py.truthy. rewrite negb_true_iff.
  split; intro H.
  - intro E. subst s. discriminate.
  - apply String.eqb_neq. exact H.
Qed.

Lemma truthy_false (s : string) : Py.truthy s = false <-> s = "".
Proof.
  unfold Py.truthy. rewrite negb_false_iff. apply String.eqb_eq.
Qed.


Lemma split_without_sep (sep : ascii) (s : string) :
  Py.contains sep s = false -> Py.split sep s = [s].
Proof.
  induction s as [|c r IH]; simpl; intro H.
  - reflexivity.
  - apply orb_false_iff in H. destruct H as [Hc Hr].
    rewrite Ascii.eqb_sym in Hc. rewrite Hc, (IH Hr). reflexivity.
Qed.

(** ** Counting and selecting *)

Lemma count_pos {A : Type} (p : A -> bool) (t : list A) :
  (count p t >? 0) = true <-> exists x, In x t /\ p x = true.
Proof.
  unfold count. rewrite Z.gtb_ltb, Z.ltb_lt. split.
  - intro H. destruct (filter p t) as [|x l] eqn:E; [simpl in H; lia|].
    exists x. apply filter_In. rewrite E. left. reflexivity.
  - intros [x Hx]. apply filter_In in Hx.
    destruct (filter p t); [contradiction|simpl; lia].
Qed.

Lemma count_zero {A : Type} (p : A -> bool) (t : list A) :
  (count p t >? 0) = false <-> forall x, In x t -> p x = false.
Proof.
  split.
  - intros H x Hx. destruct (p x) eqn:E; [|reflexivity].
    assert (Hp : (count p t >? 0) = true) by (apply count_pos; eauto).
    congruence.
  - intro H. destruct (count p t >? 0) eqn:E; [|reflexivity].
    apply count_pos in E. destruct E as [x [Hx Hp]].
    rewrite (H x Hx) in Hp. discriminate.
Qed.

Lemma mem_In (x : Z) (l : list Z) : mem x l = true <-> In x l.
Proof.
  unfold mem. rewrite existsb_exists. split.
  - intros [y [Hy E]]. apply Z.eqb_eq in E. subst. exact Hy.
  - intro H. exists x. split; [exact H|apply Z.eqb_refl].
Qed.

Lemma mem_dict_keys (x : Z) (ids seen : list Z) :
  mem x (dict_keys ids seen) = mem x ids && negb (mem x seen).
Proof.
  revert seen. induction ids as [|k r IH]; intro seen; simpl.
  - reflexivity.
  - destruct (mem k seen) eqn:Ek.
    + rewrite IH. destruct (Z.eqb_spec x k) as [->|Hne]; simpl.
      * rewrite Ek. simpl. apply andb_false_r.
      * reflexivity.
    + simpl. rewrite IH. simpl.
      destruct (Z.eqb_spec x k) as [->|Hne]; simpl.
      * rewrite Ek. reflexivity.
      * reflexivity.
Qed.

Lemma In_dict_keys (x : Z) (ids : list Z) :
  In x (dict_keys ids []) <-> In x ids.
Proof.
  rewrite <- !mem_In, mem_dict_keys. simpl. rewrite andb_true_r. tauto.
Qed.

Lemma selectbox_In (options : list Z) (x : Z) :
  In x options -> selectbox options x = Some x.
Proof.
  intro H. unfold selectbox. destruct options as [|o l]; [contradiction|].
  apply mem_In in H. rewrite H. reflexivity.
Qed.

Lemma selectbox_Some (options : list Z) (choice x : Z) :
  selectbox options choice = Some x -> In x options.
Proof.
  unfold selectbox. destruct options as [|o l]; [discriminate|].
  destruct (mem choice (o :: l)) eqn:E; intro H; injection H as <-.
  - apply mem_In. exact E.
  - left. reflexivity.
Qed.

Lemma fetchone_Some {A : Type} (p : A -> bool) (t : list A) (r : A) :
  fetchone p t = Some r -> In r t /\ p r = true.
Proof. apply find_some. Qed.

Lemma fetchone_In {A : Type} (p : A -> bool) (t : list A) (r : A) :
  In r t -> p r = true -> exists r', fetchone p t = Some r'.
Proof.
  intros Hin Hp. unfold fetchone. destruct (find p t) eqn:E; [eauto|].
  rewrite (find_none _ _ E r Hin) in Hp. discriminate.
Qed.

Lemma delete_In {A : Type} (p : A -> bool) (t : list A) (r : A) :
  In r (delete p t) <-> In r t /\ p r = false.
Proof.
  unfold delete. rewrite filter_In, negb_true_iff. tauto.
Qed.

Lemma NoDup_map_delete {A : Type} (f : A -> Z) (p : A -> bool)
    (t : list A) :
  NoDup (map f t) -> NoDup (map f (delete p t)).
Proof.
  unfold delete. induction t as [|x l IH]; simpl; intro H.
  - constructor.
  - inversion H as [|y l' Hx Hl]; subst.
    destruct (negb (p x)); simpl.
    + constructor; [|exact (IH Hl)].
      intro Hin. apply Hx. apply in_map_iff in Hin.
      destruct Hin as (r & E & Hr). apply filter_In in Hr.
      apply in_map_iff. exists r. tauto.
    + exact (IH Hl).
Qed.

Lemma update_In {A : Type} (p : A -> bool) (set : A -> A) (t : list A)
    (r' : A) :
  In r' (update p set t) ->
  In r' t \/ exists r, In r t /\ p r = true /\ r' = set r.
Proof.
  unfold update. intro H. apply in_map_iff in H.
  destruct H as (r & E & Hr). destruct (p r) eqn:Ep.
  - right. exists r. auto.
  - left. subst. exact Hr.
Qed.

(** ** Subjects: the required name (manage_subjects) *)

Lemma manage_subjects_add_empty (d : db) (description : string) :
  manage_subjects_add d "" description
  = (d, st_error "Subject name is required!").
Proof. reflexivity. Qed.

Lemma manage_subjects_add_filled (d : db) (name description : string) :
  name <> "" ->
  manage_subjects_add d name description
  = (with_subjects d
       (subjects d
        ++ [Subjects.mk (seq_subjects d + 1) (Py.strip name)
                        (Some (Py.strip description))])
       (seq_subjects d + 1),
     st_success "Subject added!").
Proof.
  intro H. unfold manage_subjects_add.
  apply truthy_true in H. rewrite H. reflexivity.
Qed.

(** C9 (the code departs from the claim). A subject name made of white space
    only passes the required-name check, which looks at the text before it
    is trimmed: on every database the add form stores a subject whose name is
    empty and reports success, and the edit form likewise replaces the name
    "Math" by the empty text. *)
Theorem blank_subject_name_is_stored :
  (forall d description,
      manage_subjects_add d " " description
      = (with_subjects d
           (subjects d
            ++ [Subjects.mk (seq_subjects d + 1) ""
                            (Some (Py.strip description))])
           (seq_subjects d + 1),
         st_success "Subject added!"))
  /\ map Subjects.name (subjects db_quiz) = ["Math"]
  /\ snd (manage_subjects_update db_quiz 1 "   " "") 
     = st_success "Subject updated!"
  /\ map Subjects.name
         (subjects (fst (manage_subjects_update db_quiz 1 "   " ""))) = [""].
Proof.
  split; [|repeat split; reflexivity].
  intros d description. reflexivity.
Qed.

(** ** Quizzes: the duration check (manage_quizzes) *)

Lemma valid_duration_has_colon (time_duration : string) :
  valid_duration time_duration ->
  Py.truthy time_duration = true /\ Py.contains ":" time_duration = true.
Proof.
  intros (hh & mm & h & m & Hs & _).
  split.
  - apply truthy_true. intro E. subst. discriminate.
  - destruct (Py.contains ":" time_duration) eqn:E; [reflexivity|].
    rewrite (split_without_sep _ _ E) in Hs. discriminate.
Qed.

Lemma unpack2_int_Some (parts : list string) (x y : Z) :
  Py.unpack2_int parts = Some (x, y) <->
  exists a b, parts = [a; b] /\ Py.int a = Some x /\ Py.int b = Some y.
Proof.
  unfold Py.unpack2_int. split.
  - destruct parts as [|a [|b [|c l]]]; try discriminate.
    destruct (Py.int a) eqn:Ea; [|discriminate].
    destruct (Py.int b) eqn:Eb; [|discriminate].
    intro H. injection H as <- <-. eauto.
  - intros (a & b & -> & Ha & Hb). rewrite Ha, Hb. reflexivity.
Qed.

Lemma check_duration_None (name time_duration : string) :
  check_duration name time_duration = None
  <-> name <> "" /\ valid_duration time_duration.
Proof.
  unfold check_duration. split.
  - destruct (Py.truthy name) eqn:En; [|discriminate].
    destruct (Py.truthy time_duration) eqn:Ed; [|discriminate].
    destruct (Py.contains ":" time_duration) eqn:Ec; [|discriminate].
    simpl.
    destruct (Py.unpack2_int (Py.split ":" time_duration))
      as [[h m]|] eqn:Eu; [|discriminate].
    destruct ((h <? 0) || (m <? 0) || (m >=? 60)) eqn:Eb; [discriminate|].
    intros _. split; [apply truthy_true; exact En|].
    apply unpack2_int_Some in Eu. destruct Eu as (a & b & Hs & Ha & Hb).
    exists a, b, h, m.
    apply orb_false_iff in Eb. destruct Eb as [Eb Hm60].
    apply orb_false_iff in Eb. destruct Eb as [Hh Hm].
    apply Z.ltb_ge in Hh. apply Z.ltb_ge in Hm.
    rewrite Z.geb_leb in Hm60. apply Z.leb_gt in Hm60.
    repeat split; assumption.
  - intros [Hn Hv].
    destruct (valid_duration_has_colon _ Hv) as [Ed Ec].
    apply truthy_true in Hn. rewrite Hn, Ed, Ec. simpl.
    destruct Hv as (hh & mm & h & m & Hs & Hh & Hm & Hh0 & Hm0 & Hm60).
    assert (Eu : Py.unpack2_int (Py.split ":" time_duration) = Some (h, m))
      by (apply unpack2_int_Some; eauto).
    rewrite Eu.
    assert (E1 : (h <? 0) = false) by (apply Z.ltb_ge; lia).
    assert (E2 : (m <? 0) = false) by (apply Z.ltb_ge; lia).
    assert (E3 : (m >=? 60) = false)
      by (rewrite Z.geb_leb; apply Z.leb_gt; lia).
    rewrite E1, E2, E3. reflexivity.
Qed.

Lemma check_duration_error (name time_duration : string) (o : outcome) :
  check_duration name time_duration = Some o -> exists msg, o = st_error msg.
Proof.
  unfold check_duration.
  destruct (negb (Py.truthy name) || negb (Py.truthy time_duration)
            || negb (Py.contains ":" time_duration)).
  - intro H. injection H as <-. eauto.
  - destruct (Py.unpack2_int (Py.split ":" time_duration)) as [[h m]|].
    + destruct ((h <? 0) || (m <? 0) || (m >=? 60)); [|discriminate].
      intro H. injection H as <-. eauto.
    + intro H. injection H as <-. eauto.
Qed.










(** ** Registration (register_page) *)

Lemma insert_user_taken
    (d : db) (username password : string)
    (full_name role email : option string) :
  (exists u, In u (users d) /\ Users.username u = username) ->
  insert_user d username password full_name role email = None.
Proof.
  intros (u & Hin & Hu). unfold insert_user.
  assert (E : existsb (fun u0 => (Users.username u0 =? username)%string)
                      (users d) = true).
  { apply existsb_exists. exists u. split; [exact Hin|].
    apply String.eqb_eq. exact Hu. }
  rewrite E. reflexivity.
Qed.

Lemma insert_user_free
    (d : db) (username password : string)
    (full_name role email : option string) :
  (forall u, In u (users d) -> Users.username u <> username) ->
  insert_user d username password full_name role email
  = Some (with_users d
            (users d
             ++ [Users.mk (seq_users d + 1) username password full_name
                          None None role email None])
            (seq_users d + 1)).
Proof.
  intro H. unfold insert_user.
  assert (E : existsb (fun u0 => (Users.username u0 =? username)%string)
                      (users d) = false).
  { destruct (existsb _ (users d)) eqn:E; [|reflexivity].
    apply existsb_exists in E. destruct E as (u & Hin & Hu).
    apply String.eqb_eq in Hu. elim (H u Hin Hu). }
  rewrite E. reflexivity.
Qed.

(** C8. Registration shows "Passwords don't match!" when the two passwords
    differ and "Username already exists!" when a row already has the
    username; in both cases the database and the session are returned as
    they were, so no row is written or modified.  Otherwise exactly one row
    is appended to users, with the submitted username, password, full name
    and email, the role "user", and every other table untouched. *)
Theorem registration :
  forall (d : db) (ss : session)
         (username password confirm_password full_name email : string),
    (password <> confirm_password ->
     register_page d ss username password confirm_password full_name email
     = (d, ss, st_error "Passwords don't match!"))
    /\ (password = confirm_password ->
        (exists u, In u (users d) /\ Users.username u = username) ->
        register_page d ss username password confirm_password full_name email
        = (d, ss, st_error "Username already exists!"))
    /\ (password = confirm_password ->
        (forall u, In u (users d) -> Users.username u <> username) ->
        register_page d ss username password confirm_password full_name email
        = (with_users d
             (users d
              ++ [Users.mk (seq_users d + 1) username password
                           (Some full_name) None None (Some "user")
                           (Some email) None])
             (seq_users d + 1),
           goto ss "login",
           st_success "Registration successful! Please login.")).
Proof.
  intros d ss username password confirm_password full_name email.
  unfold register_page. repeat split.
  - intro H. apply String.eqb_neq in H. rewrite H. reflexivity.
  - intros -> H. rewrite String.eqb_refl. simpl.
    rewrite (insert_user_taken _ _ _ _ _ _ H). reflexivity.
  - intros -> H. rewrite String.eqb_refl. simpl.
    rewrite (insert_user_free _ _ _ _ _ _ H). reflexivity.
Qed.

(** Registering "admin" again on the fresh database, and registering "bob". *)
Lemma registration_witness :
  register_page (init_db None) new_session "admin" "x" "x" "Eve" "e@x.org"
  = (init_db None, new_session, st_error "Username already exists!")
  /\ register_page (init_db None) new_session "bob" "x" "y" "Bob" "b@x.org"
     = (init_db None, new_session, st_error "Passwords don't match!")
  /\ map Users.role
         (users (fst (fst (register_page (init_db None) new_session "bob"
                                         "x" "x" "Bob" "b@x.org"))))
     = [Some "admin"; Some "user"].
Proof.
  destruct (registration (init_db None) new_session "admin" "x" "x" "Eve"
                         "e@x.org") as (_ & Htaken & _).
  destruct (registration (init_db None) new_session "bob" "x" "y" "Bob"
                         "b@x.org") as (Hdiff & _ & _).
  destruct (registration (init_db None) new_session "bob" "x" "x" "Bob"
                         "b@x.org") as (_ & _ & Hfree).
  split; [|split].
  - apply Htaken; [reflexivity|].
    exists (Users.mk 1 "admin" "admin123" (Some "Admin User") None None
                     (Some "admin") None None).
    split; [left; reflexivity|reflexivity].
  - apply Hdiff. discriminate.
  - rewrite Hfree; [reflexivity|reflexivity|].
    intros u [<-|[]]. discriminate.
Defined.

(** ** Users: what the two edit forms leave alone *)

Lemma Forall2_update {A : Type} (R : A -> A -> Prop) (p : A -> bool)
    (set : A -> A) (t : list A) :
  (forall r, In r t -> p r = false -> R r r) ->
  (forall r, In r t -> p r = true -> R r (set r)) ->
  Forall2 R t (update p set t).
Proof.
  induction t as [|x l IH]; intros Hkeep Hset; simpl.
  - constructor.
  - constructor.
    + destruct (p x) eqn:E.
      * apply Hset; [left; reflexivity|exact E].
      * apply Hkeep; [left; reflexivity|exact E].
    + apply IH; intros r Hr; [apply Hkeep|apply Hset]; right; exact Hr.
Qed.

Lemma map_update {A B : Type} (f : A -> B) (p : A -> bool) (set : A -> A)
    (t : list A) :
  (forall r, f (set r) = f r) -> map f (update p set t) = map f t.
Proof.
  intro H. unfold update. rewrite map_map. apply map_ext.
  intro r. destruct (p r); [apply H|reflexivity].
Qed.

Lemma role_selectbox_cases (current : option string) (choice : string) :
  role_selectbox current choice = "user"
  \/ role_selectbox current choice = "admin".
Proof.
  unfold role_selectbox. simpl.
  destruct (choice =? "user")%string eqn:E1; simpl.
  - apply String.eqb_eq in E1. left. exact E1.
  - destruct (choice =? "admin")%string eqn:E2; simpl.
    + apply String.eqb_eq in E2. right. exact E2.
    + destruct current as [r|]; [|right; reflexivity].
      destruct (String.eqb_spec r "user") as [->|Hne]; [left; reflexivity|].
      right.
      destruct r as [|c1 r]; [reflexivity|].
      repeat match goal with
             | |- context [match ?x with _ => _ end] => destruct x
             end; try reflexivity; congruence.
Qed.

Lemma manage_users_update_cases
    (d : db) (c : Z) (fn q dob e rc : string) :
  fst (manage_users_update d c fn q dob e rc) = d
  \/ exists user_id new_role,
      selectbox (map Users.id (users d)) c = Some user_id
      /\ (new_role = "user" \/ new_role = "admin")
      /\ fst (manage_users_update d c fn q dob e rc)
         = with_users d
             (update (fun u => Users.id u =? user_id)
                     (fun u =>
                        Users.mk (Users.id u) (Users.username u)
                                 (Users.password u) (Some (Py.strip fn))
                                 (Some (Py.strip q)) (Some dob)
                                 (Some new_role) (Some (Py.strip e))
                                 (Users.last_login u))
                     (users d))
             (seq_users d).
Proof.
  unfold manage_users_update.
  destruct (selectbox (map Users.id (users d)) c) as [user_id|];
    [|left; reflexivity].
  destruct (fetchone (fun u => Users.id u =? user_id) (users d)) as [user|];
    [|left; reflexivity].
  right. exists user_id, (role_selectbox (Users.role user) rc).
  split; [reflexivity|]. split; [apply role_selectbox_cases|reflexivity].
Qed.

Lemma user_profile_cases
    (d : db) (ss : session) (fn q dob e pw cpw : string) :
  fst (user_profile d ss fn q dob e pw cpw) = d
  \/ ((pw = "" \/ pw = cpw)
      /\ fst (user_profile d ss fn q dob e pw cpw)
         = with_users d
             (update (username_is (get_current_user ss))
                     (fun u =>
                        Users.mk (Users.id u) (Users.username u)
                                 (if Py.truthy pw then pw
                                  else Users.password u)
                                 (Some (Py.strip fn)) (Some (Py.strip q))
                                 (Some dob) (Users.role u)
                                 (Some (Py.strip e)) (Users.last_login u))
                     (users d))
             (seq_users d)).
Proof.
  unfold user_profile.
  destruct (fetchone (username_is (get_current_user ss)) (users d));
    [|left; reflexivity].
  destruct (Py.truthy pw) eqn:Et; simpl.
  - destruct (String.eqb_spec pw cpw) as [->|Hne]; simpl.
    + right. split; [right; reflexivity|reflexivity].
    + left. reflexivity.
  - right. apply truthy_false in Et. split; [left; exact Et|reflexivity].
Qed.

Lemma user_profile_keeps_password
    (d : db) (ss : session) (fn q dob e cpw : string) :
  map Users.password (users (fst (user_profile d ss fn q dob e "" cpw)))
  = map Users.password (users d).
Proof.
  destruct (user_profile_cases d ss fn q dob e "" cpw) as [->|(_ & ->)].
  - reflexivity.
  - simpl. apply map_update. reflexivity.
Qed.

Lemma Forall2_refl_eq {A : Type} (R : A -> A -> Prop) (t : list A) :
  (forall r, R r r) -> Forall2 R t t.
Proof. intro H. induction t; constructor; auto. Qed.

(** C10. The admin's edit form and the profile form rewrite users row by
    row: every row comes out either as it was, or with full name,
    qualification, date of birth, email and (admin form) role replaced, or
    (profile form) with those four and, only when a new password was typed
    and confirmed, the password replaced.  The ids and usernames of the
    table are the same before and after, the admin form keeps every
    password, the profile form keeps every role and, with the new
    password left empty, every password; no other table changes. *)
Theorem user_updates_frame :
  forall (d : db) (ss : session) (user_choice : Z)
         (new_fullname new_qual new_dob new_email role_choice
            new_password confirm_password : string),
    (Forall2 (fun u u' =>
                u' = u
                \/ admin_edited new_fullname new_qual new_dob new_email u u')
             (users d)
             (users (fst (manage_users_update d user_choice new_fullname
                            new_qual new_dob new_email role_choice)))
     /\ map Users.id
            (users (fst (manage_users_update d user_choice new_fullname
                           new_qual new_dob new_email role_choice)))
        = map Users.id (users d)
     /\ map Users.username
            (users (fst (manage_users_update d user_choice new_fullname
                           new_qual new_dob new_email role_choice)))
        = map Users.username (users d)
     /\ map Users.password
            (users (fst (manage_users_update d user_choice new_fullname
                           new_qual new_dob new_email role_choice)))
        = map Users.password (users d)
     /\ same_but_users d
          (fst (manage_users_update d user_choice new_fullname new_qual
                  new_dob new_email role_choice)))
    /\ (Forall2 (fun u u' =>
                   u' = u
                   \/ (get_current_user ss = Some (Users.username u)
                       /\ (new_password = ""
                           \/ new_password = confirm_password)
                       /\ profile_edited new_fullname new_qual new_dob
                                         new_email new_password u u'))
                (users d)
                (users (fst (user_profile d ss new_fullname new_qual new_dob
                               new_email new_password confirm_password)))
        /\ map Users.id
               (users (fst (user_profile d ss new_fullname new_qual new_dob
                              new_email new_password confirm_password)))
           = map Users.id (users d)
        /\ map Users.username
               (users (fst (user_profile d ss new_fullname new_qual new_dob
                              new_email new_password confirm_password)))
           = map Users.username (users d)
        /\ map Users.role
               (users (fst (user_profile d ss new_fullname new_qual new_dob
                              new_email new_password confirm_password)))
           = map Users.role (users d)
        /\ map Users.password
               (users (fst (user_profile d ss new_fullname new_qual new_dob
                              new_email "" confirm_password)))
           = map Users.password (users d)
        /\ same_but_users d
             (fst (user_profile d ss new_fullname new_qual new_dob
                     new_email new_password confirm_password))).
Proof.
  intros d ss c fn q dob e rc pw cpw. split.
  - destruct (manage_users_update_cases d c fn q dob e rc)
      as [->|(user_id & role & _ & Hrole & ->)].
    + repeat split; try reflexivity.
      apply Forall2_refl_eq. intro r. left. reflexivity.
    + simpl. repeat split; try (apply map_update; reflexivity).
      apply Forall2_update.
      * intros r _ _. left. reflexivity.
      * intros r _ _. right. exists role. split; [exact Hrole|reflexivity].
  - destruct (user_profile_cases d ss fn q dob e pw cpw)
      as [->|(Hpw & ->)].
    + repeat split; try reflexivity.
      * apply Forall2_refl_eq. intro r. left. reflexivity.
      * apply user_profile_keeps_password.
    + simpl. repeat split; try (apply map_update; reflexivity).
      * apply Forall2_update.
        -- intros r _ _. left. reflexivity.
        -- intros r _ Hr. right. split; [|split; [exact Hpw|reflexivity]].
           unfold username_is in Hr.
           destruct (get_current_user ss) as [n|]; [|discriminate].
           apply String.eqb_eq in Hr. rewrite Hr. reflexivity.
      * apply user_profile_keeps_password.
Qed.

(** ** Users: deletion (manage_users) *)


Lemma selected_user (d : db) (user : Users.row) :
  In user (users d) ->
  selectbox (map Users.id (users d)) (Users.id user) = Some (Users.id user).
Proof. intro H. apply selectbox_In. apply in_map. exact H. Qed.




(** ** Deleting from the catalog (manage_subjects, manage_chapters,
       manage_quizzes) *)

Lemma is_nil_false_In {A : Type} (x : A) (l : list A) :
  In x l -> is_nil l = false.
Proof. destruct l; [contradiction|reflexivity]. Qed.

Lemma chapters_join_subjects_In (d : db) (c : Chapters.row) :
  In c (chapters_join_subjects d)
  <-> In c (chapters d)
      /\ exists s, In s (subjects d) /\ Subjects.id s = Chapters.subject_id c.
Proof.
  unfold chapters_join_subjects. rewrite in_flat_map. split.
  - intros (c' & Hc' & Hm). apply in_map_iff in Hm.
    destruct Hm as (s & <- & Hs). apply filter_In in Hs.
    destruct Hs as [Hs E]. apply Z.eqb_eq in E.
    split; [exact Hc'|]. exists s. split; [exact Hs|symmetry; exact E].
  - intros (Hc & s & Hs & E). exists c. split; [exact Hc|].
    apply in_map_iff. exists s. split; [reflexivity|].
    apply filter_In. split; [exact Hs|]. apply Z.eqb_eq. symmetry. exact E.
Qed.

Lemma quizzes_join_In (d : db) (q : Quizzes.row) :
  In q (quizzes_join d)
  <-> In q (quizzes d)
      /\ exists c, In c (chapters_join_subjects d)
                   /\ Chapters.id c = Quizzes.chapter_id q.
Proof.
  unfold quizzes_join. rewrite in_flat_map. split.
  - intros (q' & Hq' & Hm). apply in_map_iff in Hm.
    destruct Hm as (c & <- & Hc). apply filter_In in Hc.
    destruct Hc as [Hc E]. apply Z.eqb_eq in E.
    split; [exact Hq'|]. exists c. split; [exact Hc|symmetry; exact E].
  - intros (Hq & c & Hc & E). exists q. split; [exact Hq|].
    apply in_map_iff. exists c. split; [reflexivity|].
    apply filter_In. split; [exact Hc|]. apply Z.eqb_eq. symmetry. exact E.
Qed.



Lemma select_chapter (d : db) (c : Chapters.row) :
  In c (chapters_join_subjects d) ->
  is_nil (chapters_join_subjects d) = false
  /\ selectbox (chapter_options d) (Chapters.id c) = Some (Chapters.id c).
Proof.
  intro H. split; [exact (is_nil_false_In _ _ H)|].
  apply selectbox_In. apply In_dict_keys. apply in_map. exact H.
Qed.

Lemma select_quiz_of_chapter (d : db) (q : Quizzes.row) :
  In q (quizzes_join d) ->
  selectbox (quizzes_of_chapter d (Quizzes.chapter_id q)) (Quizzes.id q)
  = Some (Quizzes.id q).
Proof.
  intro H. apply selectbox_In. unfold quizzes_of_chapter.
  apply in_map. apply filter_In. split; [exact H|apply Z.eqb_refl].
Qed.

Lemma count_children {A : Type} (key : A -> Z) (id : Z) (t : list A) :
  ((exists r, In r t /\ key r = id) ->
   (count (fun r => key r =? id) t >? 0) = true)
  /\ ((forall r, In r t -> key r <> id) ->
      (count (fun r => key r =? id) t >? 0) = false).
Proof.
  split.
  - intros (r & Hr & E). apply count_pos. exists r.
    split; [exact Hr|apply Z.eqb_eq; exact E].
  - intro H. apply count_zero. intros r Hr. apply Z.eqb_neq. exact (H r Hr).
Qed.



Lemma manage_quizzes_delete_selected (d : db) (q : Quizzes.row) :
  In q (quizzes_join d) ->
  manage_quizzes_delete d (Quizzes.chapter_id q) (Quizzes.id q)
  = if count (fun r => Questions.quiz_id r =? Quizzes.id q) (questions d)
       >? 0
    then (d, st_error "Cannot delete - quiz has questions!")
    else (with_quizzes d
            (delete (fun r => Quizzes.id r =? Quizzes.id q) (quizzes d))
            (seq_quizzes d),
          st_success "Quiz deleted!").
Proof.
  intro H. unfold manage_quizzes_delete.
  destruct (proj1 (quizzes_join_In d q) H) as (_ & c & Hc & E).
  destruct (select_chapter d c Hc) as [Hn Hsel].
  rewrite E in Hsel. rewrite Hn, Hsel, (select_quiz_of_chapter d q H).
  reflexivity.
Qed.


(** ** Every request, handler by handler *)

Ltac break_match :=
  match goal with
  | |- context [match ?x with _ => _ end] => destruct x eqn:?
  end.

(** A property of the database that each handler keeps. *)
Definition kept_by_handlers (P : db -> Prop) : Prop :=
  (forall d ss u p now, P d -> P (fst (fst (login_page d ss u p now))))
  /\ (forall d ss u p c f e,
         P d -> P (fst (fst (register_page d ss u p c f e))))
  /\ (forall d n de, P d -> P (fst (manage_subjects_add d n de)))
  /\ (forall d c n de, P d -> P (fst (manage_subjects_update d c n de)))
  /\ (forall d c, P d -> P (fst (manage_subjects_delete d c)))
  /\ (forall d c n de, P d -> P (fst (manage_chapters_add d c n de)))
  /\ (forall d f c s n de,
         P d -> P (fst (manage_chapters_update d f c s n de)))
  /\ (forall d f c, P d -> P (fst (manage_chapters_delete d f c)))
  /\ (forall d c n de da du,
         P d -> P (fst (manage_quizzes_add d c n de da du)))
  /\ (forall d f q c n de da du a,
         P d -> P (fst (manage_quizzes_update d f q c n de da du a)))
  /\ (forall d f q, P d -> P (fst (manage_quizzes_delete d f q)))
  /\ (forall d q st o1 o2 o3 o4 c,
         P d -> P (fst (manage_questions_add d q st o1 o2 o3 o4 c)))
  /\ (forall d f n q st o1 o2 o3 o4 c,
         P d -> P (fst (manage_questions_update d f n q st o1 o2 o3 o4 c)))
  /\ (forall d f n, P d -> P (fst (manage_questions_delete d f n)))
  /\ (forall d u fn q dob e r,
         P d -> P (fst (manage_users_update d u fn q dob e r)))
  /\ (forall d u, P d -> P (fst (manage_users_delete d u)))
  /\ (forall d ss q ch sub now,
         P d -> P (fst (take_quiz d ss q ch sub now)))
  /\ (forall d ss fn q dob e pw cpw,
         P d -> P (fst (user_profile d ss fn q dob e pw cpw))).

Lemma main_keeps (P : db -> Prop) :
  kept_by_handlers P ->
  forall d ss r, P d -> P (fst (fst (main d ss r))).
Proof.
  intros (Hlogin & Hreg & Hsa & Hsu & Hsd & Hca & Hcu & Hcd & Hqa & Hqu & Hqd
          & Hna & Hnu & Hnd & Huu & Hud & Htq & Hup) d ss r HP.
  unfold main.
  destruct (match ss_page ss with Some p => p | None => "login" end
            =? "login")%string.
  { destruct r; simpl; auto. }
  destruct (match ss_page ss with Some p => p | None => "login" end
            =? "register")%string.
  { destruct r; simpl; auto. }
  destruct (match ss_page ss with Some p => p | None => "login" end
            =? "dashboard")%string.
  { destruct r; simpl; auto; destruct (is_admin d _); simpl; auto. }
  destruct (match ss_page ss with Some p => p | None => "login" end
            =? "admin_dashboard")%string.
  { destruct r; simpl; auto. }
  destruct (match ss_page ss with Some p => p | None => "login" end
            =? "user_dashboard")%string.
  { destruct r; simpl; auto. }
  simpl. exact HP.
Qed.

Lemma reachable_keeps (P : db -> Prop) :
  P (init_db None) -> kept_by_handlers P -> forall d, reachable d -> P d.
Proof.
  intros Hinit Hkept d Hd. induction Hd as [|d ss r _ IH].
  - exact Hinit.
  - apply main_keeps; assumption.
Qed.

(** ** Which table a handler writes *)

Ltac writes_only_by h :=
  intros; intros t' Ht'; destruct t'; try congruence;
  unfold h; repeat break_match; simpl; split; reflexivity.

Lemma login_page_writes d ss u p now :
  writes_only T_users d (fst (fst (login_page d ss u p now))).
Proof. writes_only_by login_page. Qed.

Lemma register_page_writes d ss u p c f e :
  writes_only T_users d (fst (fst (register_page d ss u p c f e))).
Proof.
  intros t' Ht'. unfold register_page.
  destruct (negb (p =? c)%string);
    [destruct t'; simpl; try congruence; split; reflexivity|].
  unfold insert_user.
  destruct (existsb _ (users d));
    destruct t'; simpl; try congruence; split; reflexivity.
Qed.

Lemma manage_users_update_writes d u fn q dob e r :
  writes_only T_users d (fst (manage_users_update d u fn q dob e r)).
Proof. writes_only_by manage_users_update. Qed.

Lemma manage_users_delete_writes d u :
  writes_only T_users d (fst (manage_users_delete d u)).
Proof. writes_only_by manage_users_delete. Qed.

Lemma user_profile_writes d ss fn q dob e pw cpw :
  writes_only T_users d (fst (user_profile d ss fn q dob e pw cpw)).
Proof. writes_only_by user_profile. Qed.

Lemma manage_subjects_add_writes d n de :
  writes_only T_subjects d (fst (manage_subjects_add d n de)).
Proof. writes_only_by manage_subjects_add. Qed.

Lemma manage_subjects_update_writes d c n de :
  writes_only T_subjects d (fst (manage_subjects_update d c n de)).
Proof. writes_only_by manage_subjects_update. Qed.

Lemma manage_subjects_delete_writes d c :
  writes_only T_subjects d (fst (manage_subjects_delete d c)).
Proof. writes_only_by manage_subjects_delete. Qed.

Lemma manage_chapters_add_writes d c n de :
  writes_only T_chapters d (fst (manage_chapters_add d c n de)).
Proof. writes_only_by manage_chapters_add. Qed.

Lemma manage_chapters_update_writes d f c s n de :
  writes_only T_chapters d (fst (manage_chapters_update d f c s n de)).
Proof. writes_only_by manage_chapters_update. Qed.

Lemma manage_chapters_delete_writes d f c :
  writes_only T_chapters d (fst (manage_chapters_delete d f c)).
Proof. writes_only_by manage_chapters_delete. Qed.

Lemma manage_quizzes_add_writes d c n de da du :
  writes_only T_quizzes d (fst (manage_quizzes_add d c n de da du)).
Proof. writes_only_by manage_quizzes_add. Qed.

Lemma manage_quizzes_update_writes d f q c n de da du a :
  writes_only T_quizzes d (fst (manage_quizzes_update d f q c n de da du a)).
Proof. writes_only_by manage_quizzes_update. Qed.

Lemma manage_quizzes_delete_writes d f q :
  writes_only T_quizzes d (fst (manage_quizzes_delete d f q)).
Proof. writes_only_by manage_quizzes_delete. Qed.

Lemma manage_questions_add_writes d q st o1 o2 o3 o4 c :
  writes_only T_questions d (fst (manage_questions_add d q st o1 o2 o3 o4 c)).
Proof. writes_only_by manage_questions_add. Qed.

Lemma manage_questions_update_writes d f n q st o1 o2 o3 o4 c :
  writes_only T_questions d
    (fst (manage_questions_update d f n q st o1 o2 o3 o4 c)).
Proof. writes_only_by manage_questions_update. Qed.

Lemma manage_questions_delete_writes d f n :
  writes_only T_questions d (fst (manage_questions_delete d f n)).
Proof. writes_only_by manage_questions_delete. Qed.

Lemma take_quiz_writes d ss q ch sub now :
  writes_only T_scores d (fst (take_quiz d ss q ch sub now)).
Proof. writes_only_by take_quiz. Qed.

(** A property that reads only the tables in [reads] is kept by every
    handler that writes another table; for the handlers that write one of
    them it has to be shown. *)
Lemma kept_by_footprint (P : db -> Prop) (reads : table -> bool) :
  (forall d d',
      (forall t, reads t = true -> same_table t d d') -> P d -> P d') ->
  (reads T_users = true ->
   (forall d ss u p now, P d -> P (fst (fst (login_page d ss u p now))))
   /\ (forall d ss u p c f e,
          P d -> P (fst (fst (register_page d ss u p c f e))))
   /\ (forall d u fn q dob e r,
          P d -> P (fst (manage_users_update d u fn q dob e r)))
   /\ (forall d u, P d -> P (fst (manage_users_delete d u)))
   /\ (forall d ss fn q dob e pw cpw,
          P d -> P (fst (user_profile d ss fn q dob e pw cpw)))) ->
  (reads T_subjects = true ->
   (forall d n de, P d -> P (fst (manage_subjects_add d n de)))
   /\ (forall d c n de, P d -> P (fst (manage_subjects_update d c n de)))
   /\ (forall d c, P d -> P (fst (manage_subjects_delete d c)))) ->
  (reads T_chapters = true ->
   (forall d c n de, P d -> P (fst (manage_chapters_add d c n de)))
   /\ (forall d f c s n de,
          P d -> P (fst (manage_chapters_update d f c s n de)))
   /\ (forall d f c, P d -> P (fst (manage_chapters_delete d f c)))) ->
  (reads T_quizzes = true ->
   (forall d c n de da du,
       P d -> P (fst (manage_quizzes_add d c n de da du)))
   /\ (forall d f q c n de da du a,
          P d -> P (fst (manage_quizzes_update d f q c n de da du a)))
   /\ (forall d f q, P d -> P (fst (manage_quizzes_delete d f q)))) ->
  (reads T_questions = true ->
   (forall d q st o1 o2 o3 o4 c,
       P d -> P (fst (manage_questions_add d q st o1 o2 o3 o4 c)))
   /\ (forall d f n q st o1 o2 o3 o4 c,
          P d -> P (fst (manage_questions_update d f n q st o1 o2 o3 o4 c)))
   /\ (forall d f n, P d -> P (fst (manage_questions_delete d f n)))) ->
  (reads T_scores = true ->
   forall d ss q ch sub now, P d -> P (fst (take_quiz d ss q ch sub now))) ->
  kept_by_handlers P.
Proof.
  intros Hframe Hu Hs Hc Hq Hn Ht.
  assert (Hother : forall t d d',
             reads t = false -> writes_only t d d' -> P d -> P d').
  { intros t d d' Ht' Hw. apply Hframe. intros t0 H0. apply Hw.
    intros ->. congruence. }
  unfold kept_by_handlers.
  repeat match goal with |- _ /\ _ => split end; intros.
  - destruct (reads T_users) eqn:E.
    + destruct (Hu eq_refl) as (U1 & _). apply U1. assumption.
    + eapply (Hother T_users); [exact E|apply login_page_writes|assumption].
  - destruct (reads T_users) eqn:E.
    + destruct (Hu eq_refl) as (_ & U2 & _). apply U2. assumption.
    + eapply (Hother T_users);
        [exact E|apply register_page_writes|assumption].
  - destruct (reads T_subjects) eqn:E.
    + destruct (Hs eq_refl) as (S1 & _). apply S1. assumption.
    + eapply (Hother T_subjects);
        [exact E|apply manage_subjects_add_writes|assumption].
  - destruct (reads T_subjects) eqn:E.
    + destruct (Hs eq_refl) as (_ & S2 & _). apply S2. assumption.
    + eapply (Hother T_subjects);
        [exact E|apply manage_subjects_update_writes|assumption].
  - destruct (reads T_subjects) eqn:E.
    + destruct (Hs eq_refl) as (_ & _ & S3). apply S3. assumption.
    + eapply (Hother T_subjects);
        [exact E|apply manage_subjects_delete_writes|assumption].
  - destruct (reads T_chapters) eqn:E.
    + destruct (Hc eq_refl) as (C1 & _). apply C1. assumption.
    + eapply (Hother T_chapters);
        [exact E|apply manage_chapters_add_writes|assumption].
  - destruct (reads T_chapters) eqn:E.
    + destruct (Hc eq_refl) as (_ & C2 & _). apply C2. assumption.
    + eapply (Hother T_chapters);
        [exact E|apply manage_chapters_update_writes|assumption].
  - destruct (reads T_chapters) eqn:E.
    + destruct (Hc eq_refl) as (_ & _ & C3). apply C3. assumption.
    + eapply (Hother T_chapters);
        [exact E|apply manage_chapters_delete_writes|assumption].
  - destruct (reads T_quizzes) eqn:E.
    + destruct (Hq eq_refl) as (Q1 & _). apply Q1. assumption.
    + eapply (Hother T_quizzes);
        [exact E|apply manage_quizzes_add_writes|assumption].
  - destruct (reads T_quizzes) eqn:E.
    + destruct (Hq eq_refl) as (_ & Q2 & _). apply Q2. assumption.
    + eapply (Hother T_quizzes);
        [exact E|apply manage_quizzes_update_writes|assumption].
  - destruct (reads T_quizzes) eqn:E.
    + destruct (Hq eq_refl) as (_ & _ & Q3). apply Q3. assumption.
    + eapply (Hother T_quizzes);
        [exact E|apply manage_quizzes_delete_writes|assumption].
  - destruct (reads T_questions) eqn:E.
    + destruct (Hn eq_refl) as (N1 & _). apply N1. assumption.
    + eapply (Hother T_questions);
        [exact E|apply manage_questions_add_writes|assumption].
  - destruct (reads T_questions) eqn:E.
    + destruct (Hn eq_refl) as (_ & N2 & _). apply N2. assumption.
    + eapply (Hother T_questions);
        [exact E|apply manage_questions_update_writes|assumption].
  - destruct (reads T_questions) eqn:E.
    + destruct (Hn eq_refl) as (_ & _ & N3). apply N3. assumption.
    + eapply (Hother T_questions);
        [exact E|apply manage_questions_delete_writes|assumption].
  - destruct (reads T_users) eqn:E.
    + destruct (Hu eq_refl) as (_ & _ & U3 & _). apply U3. assumption.
    + eapply (Hother T_users);
        [exact E|apply manage_users_update_writes|assumption].
  - destruct (reads T_users) eqn:E.
    + destruct (Hu eq_refl) as (_ & _ & _ & U4 & _). apply U4. assumption.
    + eapply (Hother T_users);
        [exact E|apply manage_users_delete_writes|assumption].
  - destruct (reads T_scores) eqn:E.
    + apply (Ht eq_refl). assumption.
    + eapply (Hother T_scores); [exact E|apply take_quiz_writes|assumption].
  - destruct (reads T_users) eqn:E.
    + destruct (Hu eq_refl) as (_ & _ & _ & _ & U5). apply U5. assumption.
    + eapply (Hother T_users); [exact E|apply user_profile_writes|assumption].
Qed.

(** ** The catalog keeps its references *)

Lemma selectbox_index_Some (options : list Z) (current choice x : Z) :
  selectbox_index options current choice = Some x -> In x options.
Proof.
  unfold selectbox_index. destruct (mem current options) eqn:Ec;
    [|discriminate].
  destruct (mem choice options) eqn:E; intro H; injection H as <-;
    apply mem_In; assumption.
Qed.

Lemma subject_options_In (d : db) (x : Z) :
  In x (subject_options d) ->
  exists s, In s (subjects d) /\ Subjects.id s = x.
Proof.
  intro H. unfold subject_options in H.
  apply (proj1 (In_dict_keys _ _)) in H. apply in_map_iff in H.
  destruct H as (s & E & Hs). eauto.
Qed.

Lemma chapter_options_In (d : db) (x : Z) :
  In x (chapter_options d) ->
  exists c, In c (chapters d) /\ Chapters.id c = x.
Proof.
  intro H. unfold chapter_options in H.
  apply (proj1 (In_dict_keys _ _)) in H. apply in_map_iff in H.
  destruct H as (c & E & Hc).
  apply (proj1 (chapters_join_subjects_In _ _)) in Hc.
  destruct Hc as [Hc _]. eauto.
Qed.

Lemma update_keeps_key {A : Type} (key : A -> Z) (p : A -> bool)
    (set : A -> A) (t : list A) (r : A) :
  (forall x, key (set x) = key x) ->
  In r t -> exists r', In r' (update p set t) /\ key r' = key r.
Proof.
  intros Hkey Hin. exists (if p r then set r else r). split.
  - unfold update. apply in_map_iff. exists r. split; [reflexivity|exact Hin].
  - destruct (p r); [apply Hkey|reflexivity].
Qed.

Lemma manage_subjects_cases (d : db) :
  (forall n de,
      fst (manage_subjects_add d n de) = d
      \/ exists s, fst (manage_subjects_add d n de)
                   = with_subjects d (subjects d ++ [s])
                                   (seq_subjects d + 1))
  /\ (forall c n de,
         fst (manage_subjects_update d c n de) = d
         \/ exists p set,
             (forall s, Subjects.id (set s) = Subjects.id s)
             /\ fst (manage_subjects_update d c n de)
                = with_subjects d (update p set (subjects d))
                                (seq_subjects d))
  /\ (forall c,
         fst (manage_subjects_delete d c) = d
         \/ exists subject_id,
             (forall r, In r (chapters d) ->
                        Chapters.subject_id r <> subject_id)
             /\ fst (manage_subjects_delete d c)
                = with_subjects d
                    (delete (fun s => Subjects.id s =? subject_id)
                            (subjects d))
                    (seq_subjects d)).
Proof.
  split; [|split].
  - intros n de. unfold manage_subjects_add.
    destruct (negb (Py.truthy n)); [left; reflexivity|].
    right. eexists. reflexivity.
  - intros c n de. unfold manage_subjects_update.
    repeat break_match; try (left; reflexivity).
    right. do 2 eexists. split; [|reflexivity]. reflexivity.
  - intro c. unfold manage_subjects_delete.
    destruct (selectbox (map Subjects.id (subjects d)) c) as [subject_id|];
      [|left; reflexivity].
    destruct (count (fun r => Chapters.subject_id r =? subject_id)
                    (chapters d) >? 0) eqn:E; [left; reflexivity|].
    right. exists subject_id. split; [|reflexivity].
    intros r Hr. apply Z.eqb_neq.
    exact (proj1 (count_zero _ _) E r Hr).
Qed.

Lemma manage_chapters_cases (d : db) :
  (forall c n de,
      fst (manage_chapters_add d c n de) = d
      \/ exists subject_id name description,
          In subject_id (subject_options d)
          /\ fst (manage_chapters_add d c n de)
             = with_chapters d
                 (chapters d
                  ++ [Chapters.mk (seq_chapters d + 1) subject_id name
                                  description])
                 (seq_chapters d + 1))
  /\ (forall f c s n de,
         fst (manage_chapters_update d f c s n de) = d
         \/ exists chapter_id new_subject name description,
             In new_subject (subject_options d)
             /\ fst (manage_chapters_update d f c s n de)
                = with_chapters d
                    (update (fun r => Chapters.id r =? chapter_id)
                            (fun r => Chapters.mk (Chapters.id r) new_subject
                                                  name description)
                            (chapters d))
                    (seq_chapters d))
  /\ (forall f c,
         fst (manage_chapters_delete d f c) = d
         \/ exists chapter_id,
             (forall r, In r (quizzes d) ->
                        Quizzes.chapter_id r <> chapter_id)
             /\ fst (manage_chapters_delete d f c)
                = with_chapters d
                    (delete (fun r => Chapters.id r =? chapter_id)
                            (chapters d))
                    (seq_chapters d)).
Proof.
  split; [|split].
  - intros c n de. unfold manage_chapters_add.
    destruct (is_nil (subjects d)); [left; reflexivity|].
    destruct (selectbox (subject_options d) c) as [subject_id|] eqn:Es;
      [|left; reflexivity].
    destruct (negb (Py.truthy n)); [left; reflexivity|].
    right. exists subject_id. do 2 eexists.
    split; [exact (selectbox_Some _ _ _ Es)|reflexivity].
  - intros f c s n de. unfold manage_chapters_update.
    destruct (is_nil (subjects d)); [left; reflexivity|].
    destruct (selectbox (subject_options d) f) as [selected_subject|];
      [|left; reflexivity].
    destruct (selectbox (chapters_of_subject d selected_subject) c)
      as [chapter_id|]; [|left; reflexivity].
    destruct (fetchone (fun r => Chapters.id r =? chapter_id) (chapters d))
      as [chapter|]; [|left; reflexivity].
    destruct (selectbox_index (subject_options d)
                              (Chapters.subject_id chapter) s)
      as [new_subject|] eqn:Ei; [|left; reflexivity].
    destruct (negb (Py.truthy n)); [left; reflexivity|].
    right. exists chapter_id, new_subject. do 2 eexists.
    split; [exact (selectbox_index_Some _ _ _ _ Ei)|reflexivity].
  - intros f c. unfold manage_chapters_delete.
    destruct (is_nil (subjects d)); [left; reflexivity|].
    destruct (selectbox (subject_options d) f) as [selected_subject|];
      [|left; reflexivity].
    destruct (selectbox (chapters_of_subject d selected_subject) c)
      as [chapter_id|]; [|left; reflexivity].
    destruct (count (fun r => Quizzes.chapter_id r =? chapter_id)
                    (quizzes d) >? 0) eqn:E; [left; reflexivity|].
    right. exists chapter_id. split; [|reflexivity].
    intros r Hr. apply Z.eqb_neq.
    exact (proj1 (count_zero _ _) E r Hr).
Qed.

Lemma manage_quizzes_cases (d : db) :
  (forall c n de da du,
      fst (manage_quizzes_add d c n de da du) = d
      \/ exists chapter_id name description,
          In chapter_id (chapter_options d)
          /\ check_duration n du = None
          /\ fst (manage_quizzes_add d c n de da du)
             = with_quizzes d
                 (quizzes d
                  ++ [Quizzes.mk (seq_quizzes d + 1) chapter_id name
                                 description (Some da) (Some du) 1])
                 (seq_quizzes d + 1))
  /\ (forall f q c n de da du a,
         fst (manage_quizzes_update d f q c n de da du a) = d
         \/ exists quiz_id new_chapter name description,
             In new_chapter (chapter_options d)
             /\ check_duration n du = None
             /\ fst (manage_quizzes_update d f q c n de da du a)
                = with_quizzes d
                    (update (fun r => Quizzes.id r =? quiz_id)
                            (fun r => Quizzes.mk (Quizzes.id r) new_chapter
                                                 name description (Some da)
                                                 (Some du) (Z.b2z a))
                            (quizzes d))
                    (seq_quizzes d))
  /\ (forall f q,
         fst (manage_quizzes_delete d f q) = d
         \/ exists quiz_id,
             fst (manage_quizzes_delete d f q)
             = with_quizzes d
                 (delete (fun r => Quizzes.id r =? quiz_id) (quizzes d))
                 (seq_quizzes d)).
Proof.
  split; [|split].
  - intros c n de da du. unfold manage_quizzes_add.
    destruct (is_nil (chapters_join_subjects d)); [left; reflexivity|].
    destruct (selectbox (chapter_options d) c) as [chapter_id|] eqn:Es;
      [|left; reflexivity].
    destruct (check_duration n du) eqn:Ec; [left; reflexivity|].
    right. exists chapter_id. do 2 eexists.
    split; [exact (selectbox_Some _ _ _ Es)|]. split; reflexivity.
  - intros f q c n de da du a. unfold manage_quizzes_update.
    destruct (is_nil (chapters_join_subjects d)); [left; reflexivity|].
    destruct (selectbox (chapter_options d) f) as [selected_chapter|];
      [|left; reflexivity].
    destruct (selectbox (quizzes_of_chapter d selected_chapter) q)
      as [quiz_id|]; [|left; reflexivity].
    destruct (fetchone (fun r => Quizzes.id r =? quiz_id) (quizzes d))
      as [quiz|]; [|left; reflexivity].
    destruct (selectbox_index (chapter_options d) (Quizzes.chapter_id quiz)
                              c) as [new_chapter|] eqn:Ei;
      [|left; reflexivity].
    destruct (check_duration n du) eqn:Ec; [left; reflexivity|].
    right. exists quiz_id, new_chapter. do 2 eexists.
    split; [exact (selectbox_index_Some _ _ _ _ Ei)|]. split; reflexivity.
  - intros f q. unfold manage_quizzes_delete.
    repeat break_match; try (left; reflexivity).
    right. eexists. reflexivity.
Qed.

Lemma readable_duration (name time_duration : string) :
  check_duration name time_duration = None ->
  exists hours minutes,
    Py.unpack2_int (Py.split ":" time_duration) = Some (hours, minutes).
Proof.
  intro H. apply check_duration_None in H.
  destruct H as (_ & hh & mm & h & m & Hs & Hh & Hm & _).
  exists h, m. apply unpack2_int_Some. eauto.
Qed.

Lemma catalog_ok_kept : kept_by_handlers catalog_ok.
Proof.
  apply (kept_by_footprint _ catalog_tables); try discriminate.
  - intros d d' Hsame H.
    destruct (Hsame T_subjects eq_refl) as [Es _].
    destruct (Hsame T_chapters eq_refl) as [Ec _].
    destruct (Hsame T_quizzes eq_refl) as [Eq _].
    unfold catalog_ok in *. rewrite Es, Ec, Eq. exact H.
  - intros _.
    split; [|split]; intros d; intros; destruct (manage_subjects_cases d)
      as (Hadd & Hupd & Hdel).
    + destruct (Hadd n de) as [->|(s & ->)]; [assumption|].
      destruct H as (Hc & Hq & Hd). split; [|split]; simpl; try assumption.
      intros c Hin. destruct (Hc c Hin) as (s0 & Hs0 & E).
      exists s0. split; [apply in_or_app; left; exact Hs0|exact E].
    + destruct (Hupd c n de) as [->|(p & set & Hkey & ->)]; [assumption|].
      destruct H as (Hc & Hq & Hd). split; [|split]; simpl; try assumption.
      intros c0 Hin. destruct (Hc c0 Hin) as (s0 & Hs0 & E).
      destruct (update_keeps_key Subjects.id p set (subjects d) s0 Hkey Hs0)
        as (s1 & Hs1 & E1).
      exists s1. split; [exact Hs1|congruence].
    + destruct (Hdel c) as [->|(subject_id & Hnone & ->)]; [assumption|].
      destruct H as (Hc & Hq & Hd). split; [|split]; simpl; try assumption.
      intros c0 Hin. destruct (Hc c0 Hin) as (s0 & Hs0 & E).
      exists s0. split; [|exact E]. apply delete_In. split; [exact Hs0|].
      apply Z.eqb_neq. rewrite E. exact (Hnone c0 Hin).
  - intros _.
    split; [|split]; intros d; intros; destruct (manage_chapters_cases d)
      as (Hadd & Hupd & Hdel).
    + destruct (Hadd c n de) as [->|(sid & nm & ds & Hsid & ->)];
        [assumption|].
      destruct H as (Hc & Hq & Hd). split; [|split]; simpl; try assumption.
      * intros c0 Hin. apply in_app_or in Hin.
        destruct Hin as [Hin|[<-|[]]]; [exact (Hc c0 Hin)|].
        simpl. apply subject_options_In. exact Hsid.
      * intros q Hin. destruct (Hq q Hin) as (c0 & Hc0 & E).
        exists c0. split; [apply in_or_app; left; exact Hc0|exact E].
    + destruct (Hupd f c s n de)
        as [->|(cid & new_subject & nm & ds & Hsid & ->)]; [assumption|].
      destruct H as (Hc & Hq & Hd). split; [|split]; simpl; try assumption.
      * intros c0 Hin. apply update_In in Hin.
        destruct Hin as [Hin|(c1 & Hin & _ & ->)]; [exact (Hc c0 Hin)|].
        simpl. apply subject_options_In. exact Hsid.
      * intros q Hin. destruct (Hq q Hin) as (c0 & Hc0 & E).
        destruct (update_keeps_key Chapters.id
                    (fun r => Chapters.id r =? cid)
                    (fun r => Chapters.mk (Chapters.id r) new_subject nm ds)
                    (chapters d) c0 (fun _ => eq_refl) Hc0)
          as (c1 & Hc1 & E1).
        exists c1. split; [exact Hc1|congruence].
    + destruct (Hdel f c) as [->|(cid & Hnone & ->)]; [assumption|].
      destruct H as (Hc & Hq & Hd). split; [|split]; simpl; try assumption.
      * intros c0 Hin. apply delete_In in Hin. apply Hc. tauto.
      * intros q Hin. destruct (Hq q Hin) as (c0 & Hc0 & E).
        exists c0. split; [|exact E]. apply delete_In. split; [exact Hc0|].
        apply Z.eqb_neq. rewrite E. exact (Hnone q Hin).
  - intros _.
    split; [|split]; intros d; intros; destruct (manage_quizzes_cases d)
      as (Hadd & Hupd & Hdel).
    + destruct (Hadd c n de da du)
        as [->|(cid & nm & ds & Hcid & Hcheck & ->)]; [assumption|].
      destruct H as (Hc & Hq & Hd). split; [|split]; simpl; try assumption.
      * intros q Hin. apply in_app_or in Hin.
        destruct Hin as [Hin|[<-|[]]]; [exact (Hq q Hin)|].
        simpl. apply chapter_options_In. exact Hcid.
      * intros q Hin. apply in_app_or in Hin.
        destruct Hin as [Hin|[<-|[]]]; [exact (Hd q Hin)|].
        simpl. destruct (readable_duration _ _ Hcheck) as (h & m & E).
        exists du, h, m. split; [reflexivity|exact E].
    + destruct (Hupd f q c n de da du a)
        as [->|(qid & new_chapter & nm & ds & Hcid & Hcheck & ->)];
        [assumption|].
      destruct H as (Hc & Hq & Hd). split; [|split]; simpl; try assumption.
      * intros q0 Hin. apply update_In in Hin.
        destruct Hin as [Hin|(q1 & Hin & _ & ->)]; [exact (Hq q0 Hin)|].
        simpl. apply chapter_options_In. exact Hcid.
      * intros q0 Hin. apply update_In in Hin.
        destruct Hin as [Hin|(q1 & Hin & _ & ->)]; [exact (Hd q0 Hin)|].
        simpl. destruct (readable_duration _ _ Hcheck) as (h & m & E).
        exists du, h, m. split; [reflexivity|exact E].
    + destruct (Hdel f q) as [->|(qid & ->)]; [assumption|].
      destruct H as (Hc & Hq & Hd). split; [|split]; simpl; try assumption.
      * intros q0 Hin. apply delete_In in Hin. apply Hq. tauto.
      * intros q0 Hin. apply delete_In in Hin. apply Hd. tauto.
Qed.

Lemma reachable_catalog_ok (d : db) : reachable d -> catalog_ok d.
Proof.
  apply reachable_keeps; [|exact catalog_ok_kept].
  split; [|split]; intros x [].
Qed.

Lemma run_reachable (d : db) (ss : session) (rs : list request) :
  reachable d -> reachable (fst (run d ss rs)).
Proof.
  revert d ss. induction rs as [|r rest IH]; intros d ss H; simpl.
  - exact H.
  - destruct (main d ss r) as [[d' ss'] o] eqn:E. apply IH.
    change d' with (fst (fst (d', ss', o))). rewrite <- E.
    apply reachable_step. exact H.
Qed.


(** ** One Score row per user and quiz (take_quiz) *)

Lemma quiz_options_nil (d : db) (c x : Z) :
  selectbox (quiz_options d) c = Some x ->
  is_nil (active_quizzes d) = false.
Proof.
  unfold quiz_options. destruct (active_quizzes d); [discriminate|].
  reflexivity.
Qed.

Lemma take_quiz_already_taken
    (d : db) (ss : session) (quiz_choice : Z) (choices : Z -> string)
    (submitted : bool) (now : string) (selected_quiz user_id : Z) :
  selectbox (quiz_options d) quiz_choice = Some selected_quiz ->
  get_user_id d (get_current_user ss) = Some user_id ->
  has_score d selected_quiz user_id ->
  take_quiz d ss quiz_choice choices submitted now
  = (d, st_warning "You have already taken this quiz.").
Proof.
  intros Hq Hu (s & Hs & E1 & E2). unfold take_quiz.
  rewrite (quiz_options_nil d _ _ Hq), Hq, Hu.
  assert (Hc : (count (fun s0 => (Scores.quiz_id s0 =? selected_quiz)
                                 && (Scores.user_id s0 =? user_id))
                      (scores d) >? 0) = true).
  { apply count_pos. exists s. split; [exact Hs|].
    rewrite E1, E2, !Z.eqb_refl. reflexivity. }
  rewrite Hc. reflexivity.
Qed.

Lemma take_quiz_scores
    (d : db) (ss : session) (quiz_choice : Z) (choices : Z -> string)
    (submitted : bool) (now : string) :
  fst (take_quiz d ss quiz_choice choices submitted now) = d
  \/ exists selected_quiz user_id score total,
      (forall s, In s (scores d) ->
                 (Scores.quiz_id s, Scores.user_id s)
                 <> (selected_quiz, user_id))
      /\ fst (take_quiz d ss quiz_choice choices submitted now)
         = with_scores d
             (scores d
              ++ [Scores.mk (seq_scores d + 1) selected_quiz user_id now
                            score total])
             (seq_scores d + 1).
Proof.
  unfold take_quiz.
  repeat break_match; simpl; try (left; reflexivity).
  right.
  match goal with
  | |- context [Scores.mk _ ?q ?u _ ?s ?t] => exists q, u, s, t
  end.
  split; [|reflexivity].
  match goal with
  | H : (count _ (scores d) >? 0) = false |- _ =>
      intros s0 Hs0 E; injection E as E1 E2;
      pose proof (proj1 (count_zero _ _) H s0 Hs0) as Hz;
      simpl in Hz; rewrite E1, E2, !Z.eqb_refl in Hz; discriminate
  end.
Qed.

Lemma one_score_per_pair_take_quiz
    (d : db) (ss : session) (quiz_choice : Z) (choices : Z -> string)
    (submitted : bool) (now : string) :
  one_score_per_pair d ->
  one_score_per_pair (fst (take_quiz d ss quiz_choice choices submitted now)).
Proof.
  intro H.
  destruct (take_quiz_scores d ss quiz_choice choices submitted now)
    as [->|(q & u & s & t & Hnew & ->)]; [exact H|].
  unfold one_score_per_pair in *. simpl.
  rewrite map_app. simpl.
  apply NoDup_app.
  - exact H.
  - constructor; [intros []|constructor].
  - intros p Hp [<-|[]].
    apply in_map_iff in Hp. destruct Hp as (r & Er & Hr).
    exact (Hnew r Hr Er).
Qed.

Lemma one_score_per_pair_kept : kept_by_handlers one_score_per_pair.
Proof.
  apply (kept_by_footprint _ (is_table T_scores)); try discriminate.
  - intros d d' Hsame H. destruct (Hsame T_scores eq_refl) as [Hs _].
    unfold one_score_per_pair in *. rewrite Hs. exact H.
  - intros _ d ss q ch sub now. apply one_score_per_pair_take_quiz.
Qed.

(** C2. With one request handled at a time, no database the application can
    reach holds two Score rows for the same (quiz, user) pair: the fresh
    database has none, and every request of every session keeps the
    property.  When a Score row for the selected quiz and the current user
    exists, take_quiz answers "You have already taken this quiz." whether or
    not the form was submitted, shows no question, and returns the database
    unchanged. *)
Theorem one_attempt_per_quiz :
  (forall d, reachable d -> one_score_per_pair d)
  /\ (forall d ss r,
         one_score_per_pair d ->
         one_score_per_pair (fst (fst (main d ss r))))
  /\ (forall d ss quiz_choice choices submitted now selected_quiz user_id,
         selectbox (quiz_options d) quiz_choice = Some selected_quiz ->
         get_user_id d (get_current_user ss) = Some user_id ->
         has_score d selected_quiz user_id ->
         take_quiz d ss quiz_choice choices submitted now
         = (d, st_warning "You have already taken this quiz.")).
Proof.
  split; [|split].
  - apply reachable_keeps; [|exact one_score_per_pair_kept].
    unfold one_score_per_pair. simpl. constructor.
  - apply main_keeps. exact one_score_per_pair_kept.
  - exact take_quiz_already_taken.
Qed.

(** Bob, who has taken Quiz1, submits it again: he is turned away and the
    scores table still has its one row. *)
Lemma one_attempt_per_quiz_witness :
  take_quiz db_taken bob 1 (fun _ => "4") true "2025-01-02 10:06:00"
  = (db_taken, st_warning "You have already taken this quiz.")
  /\ one_score_per_pair
       (fst (fst (main db_taken bob
                       (TakeQuiz 1 (fun _ => "4") true
                                 "2025-01-02 10:06:00")))).
Proof.
  destruct one_attempt_per_quiz as (_ & Hstep & Hblock).
  split.
  - apply (Hblock db_taken bob 1 (fun _ => "4") true "2025-01-02 10:06:00"
                  1 2); [vm_compute; reflexivity|vm_compute; reflexivity|].
    exists (Scores.mk 1 1 2 "2025-01-02 10:05:00" 1 1).
    split; [vm_compute; left; reflexivity|split; reflexivity].
  - apply Hstep. unfold one_score_per_pair. vm_compute.
    constructor; [intros []|constructor].
Defined.

(** ** Questions: what the forms check (manage_questions) *)

Lemma radio_1234_range (index choice v : Z) :
  radio_1234 index choice = Some v -> 1 <= v <= 4.
Proof.
  unfold radio_1234.
  destruct ((0 <=? index) && (index <? 4)) eqn:E; [|discriminate].
  apply andb_true_iff in E. destruct E as [E1 E2].
  apply Z.leb_le in E1. apply Z.ltb_lt in E2.
  destruct (mem choice [1; 2; 3; 4]) eqn:Em; intro H; injection H as <-.
  - apply mem_In in Em. simpl in Em. lia.
  - lia.
Qed.

Lemma radio_1234_picked (index choice : Z) :
  0 <= index < 4 -> 1 <= choice <= 4 ->
  radio_1234 index choice = Some choice.
Proof.
  intros Hi Hc. unfold radio_1234.
  assert (E : (0 <=? index) && (index <? 4) = true).
  { apply andb_true_iff. split; [apply Z.leb_le|apply Z.ltb_lt]; lia. }
  rewrite E.
  assert (Em : mem choice [1; 2; 3; 4] = true).
  { apply mem_In. simpl. lia. }
  rewrite Em. reflexivity.
Qed.


Lemma manage_questions_add_cases
    (d : db) (quiz_choice : Z) (st o1 o2 o3 o4 : string) (c : Z) :
  (fst (manage_questions_add d quiz_choice st o1 o2 o3 o4 c) = d
   /\ snd (manage_questions_add d quiz_choice st o1 o2 o3 o4 c)
      <> st_success "Question added!")
  \/ exists quiz_id correct,
      selectbox (quiz_options d) quiz_choice = Some quiz_id
      /\ radio_1234 0 c = Some correct
      /\ st <> "" /\ o1 <> "" /\ o2 <> ""
      /\ manage_questions_add d quiz_choice st o1 o2 o3 o4 c
         = (with_questions d
              (questions d
               ++ [Questions.mk (seq_questions d + 1) quiz_id (Py.strip st)
                                (Py.strip o1) (Py.strip o2)
                                (strip_or_none o3) (strip_or_none o4)
                                correct])
              (seq_questions d + 1),
            st_success "Question added!").
Proof.
  unfold manage_questions_add.
  destruct (is_nil (active_quizzes d));
    [left; split; [reflexivity|discriminate]|].
  destruct (selectbox (quiz_options d) quiz_choice) as [quiz_id|];
    [|left; split; [reflexivity|discriminate]].
  destruct (radio_1234 0 c) as [correct|];
    [|left; split; [reflexivity|discriminate]].
  destruct (negb (Py.truthy st) || negb (Py.truthy o1)
            || negb (Py.truthy o2)) eqn:E.
  - left. split; [reflexivity|discriminate].
  - right. exists quiz_id, correct.
    apply orb_false_iff in E. destruct E as [E E3].
    apply orb_false_iff in E. destruct E as [E1 E2].
    apply negb_false_iff in E1, E2, E3.
    apply truthy_true in E1, E2, E3. tauto.
Qed.

Lemma manage_questions_update_cases
    (d : db) (f n q : Z) (st o1 o2 o3 o4 : string) (c : Z) :
  (fst (manage_questions_update d f n q st o1 o2 o3 o4 c) = d
   /\ snd (manage_questions_update d f n q st o1 o2 o3 o4 c)
      <> st_success "Question updated!")
  \/ exists question_id new_quiz new_correct,
      1 <= new_correct <= 4
      /\ st <> "" /\ o1 <> "" /\ o2 <> ""
      /\ manage_questions_update d f n q st o1 o2 o3 o4 c
         = (with_questions d
              (update (fun r => Questions.id r =? question_id)
                      (fun r =>
                         Questions.mk (Questions.id r) new_quiz
                                      (Py.strip st) (Py.strip o1)
                                      (Py.strip o2) (strip_or_none o3)
                                      (strip_or_none o4) new_correct)
                      (questions d))
              (seq_questions d),
            st_success "Question updated!").
Proof.
  unfold manage_questions_update.
  destruct (is_nil (active_quizzes d));
    [left; split; [reflexivity|discriminate]|].
  destruct (selectbox (quiz_options d) f) as [selected_quiz|];
    [|left; split; [reflexivity|discriminate]].
  destruct (selectbox (map Questions.id (questions_of_quiz d selected_quiz))
                      n) as [question_id|];
    [|left; split; [reflexivity|discriminate]].
  destruct (fetchone (fun r => Questions.id r =? question_id) (questions d))
    as [question|]; [|left; split; [reflexivity|discriminate]].
  destruct (selectbox_index (quiz_options d) (Questions.quiz_id question) q)
    as [new_quiz|].
  2: { left.
       destruct (radio_1234 (Questions.correct_option question - 1) c);
         split; try reflexivity; discriminate. }
  destruct (radio_1234 (Questions.correct_option question - 1) c)
    as [new_correct|] eqn:Er; [|left; split; [reflexivity|discriminate]].
  destruct (negb (Py.truthy st) || negb (Py.truthy o1)
            || negb (Py.truthy o2)) eqn:E.
  - left. split; [reflexivity|discriminate].
  - right. exists question_id, new_quiz, new_correct.
    apply orb_false_iff in E. destruct E as [E E3].
    apply orb_false_iff in E. destruct E as [E1 E2].
    apply negb_false_iff in E1, E2, E3.
    apply truthy_true in E1, E2, E3.
    pose proof (radio_1234_range _ _ _ Er). tauto.
Qed.

Lemma manage_questions_delete_cases (d : db) (f n : Z) :
  fst (manage_questions_delete d f n) = d
  \/ exists question_id,
      fst (manage_questions_delete d f n)
      = with_questions d
          (delete (fun r => Questions.id r =? question_id) (questions d))
          (seq_questions d).
Proof.
  unfold manage_questions_delete.
  repeat break_match; simpl; eauto.
Qed.

Lemma questions_ok_kept : kept_by_handlers questions_ok.
Proof.
  apply (kept_by_footprint _ (is_table T_questions)); try discriminate.
  { intros d d' Hsame H. destruct (Hsame T_questions eq_refl) as [Hq Hs].
    unfold questions_ok in *. rewrite Hq, Hs. exact H. }
  intros _. split; [|split].
  - intros d q st o1 o2 o3 o4 c [Hnd Hall].
    destruct (manage_questions_add_cases d q st o1 o2 o3 o4 c)
      as [[-> _]|(quiz_id & correct & _ & Hr & _ & _ & _ & ->)];
      [split; assumption|].
    apply radio_1234_range in Hr.
    unfold questions_ok. simpl. split.
    + rewrite map_app. simpl. apply NoDup_app.
      * exact Hnd.
      * constructor; [intros []|constructor].
      * intros x Hx [<-|[]]. apply in_map_iff in Hx.
        destruct Hx as (r & E & Hr'). destruct (Hall r Hr') as [Hle _]. lia.
    + intros r Hin. apply in_app_or in Hin. destruct Hin as [Hin|[<-|[]]].
      * destruct (Hall r Hin). split; lia.
      * simpl. split; lia.
  - intros d f n q st o1 o2 o3 o4 c [Hnd Hall].
    destruct (manage_questions_update_cases d f n q st o1 o2 o3 o4 c)
      as [[-> _]|(question_id & new_quiz & new_correct & Hr & _ & _ & _
                  & ->)];
      [split; assumption|].
    unfold questions_ok. simpl. split.
    + rewrite map_update; [exact Hnd|reflexivity].
    + intros r Hin. apply update_In in Hin.
      destruct Hin as [Hin|(r0 & Hin & _ & ->)].
      * exact (Hall r Hin).
      * simpl. destruct (Hall r0 Hin). split; lia.
  - intros d f n [Hnd Hall].
    destruct (manage_questions_delete_cases d f n) as [->|(question_id & ->)];
      [split; assumption|].
    unfold questions_ok. simpl. split.
    + apply NoDup_map_delete. exact Hnd.
    + intros r Hin. apply delete_In in Hin. apply Hall. tauto.
Qed.

Lemma reachable_questions_ok (d : db) : reachable d -> questions_ok d.
Proof.
  apply reachable_keeps; [|exact questions_ok_kept].
  split; [constructor|intros q []].
Qed.

Lemma manage_questions_update_accepted
    (d : db) (f n q : Z) (st o1 o2 o3 o4 : string) (c : Z)
    (selected_quiz question_id new_quiz : Z) (question : Questions.row) :
  is_nil (active_quizzes d) = false ->
  selectbox (quiz_options d) f = Some selected_quiz ->
  selectbox (map Questions.id (questions_of_quiz d selected_quiz)) n
  = Some question_id ->
  fetchone (fun r => Questions.id r =? question_id) (questions d)
  = Some question ->
  selectbox_index (quiz_options d) (Questions.quiz_id question) q
  = Some new_quiz ->
  1 <= Questions.correct_option question <= 4 ->
  st <> "" -> o1 <> "" -> o2 <> "" -> 1 <= c <= 4 ->
  manage_questions_update d f n q st o1 o2 o3 o4 c
  = (with_questions d
       (update (fun r => Questions.id r =? question_id)
               (fun r =>
                  Questions.mk (Questions.id r) new_quiz (Py.strip st)
                               (Py.strip o1) (Py.strip o2)
                               (strip_or_none o3) (strip_or_none o4) c)
               (questions d))
       (seq_questions d),
     st_success "Question updated!").
Proof.
  intros Hn Hf Hq Hr Hi Hc Hst H1 H2 Hcc. unfold manage_questions_update.
  rewrite Hn, Hf, Hq, Hr, Hi.
  rewrite radio_1234_picked by lia.
  apply truthy_true in Hst, H1, H2. rewrite Hst, H1, H2. reflexivity.
Qed.

(** C4 (as amended). Every question row of a database the application can
    reach has its correct_option among 1, 2, 3, 4.  Both question forms
    write nothing when the statement, option 1 or option 2 is submitted
    empty, and check nothing else: with those three filled in, the add form
    and the edit form store the row with whatever correct_option from 1 to 4
    was picked and whatever was typed as option 3 and option 4, an empty
    one being stored as NULL. *)
Theorem question_correct_option :
  (forall d, reachable d ->
             forall q, In q (questions d) ->
                       1 <= Questions.correct_option q <= 4)
  /\ (forall d f n q st o1 o2 o3 o4 c,
         st = "" \/ o1 = "" \/ o2 = "" ->
         fst (manage_questions_add d q st o1 o2 o3 o4 c) = d
         /\ snd (manage_questions_add d q st o1 o2 o3 o4 c)
            <> st_success "Question added!"
         /\ fst (manage_questions_update d f n q st o1 o2 o3 o4 c) = d
         /\ snd (manage_questions_update d f n q st o1 o2 o3 o4 c)
            <> st_success "Question updated!")
  /\ (forall d q st o1 o2 o3 o4 c,
         is_nil (active_quizzes d) = false ->
         st <> "" -> o1 <> "" -> o2 <> "" -> 1 <= c <= 4 ->
         exists quiz_id,
           manage_questions_add d q st o1 o2 o3 o4 c
           = (with_questions d
                (questions d
                 ++ [Questions.mk (seq_questions d + 1) quiz_id
                                  (Py.strip st) (Py.strip o1) (Py.strip o2)
                                  (strip_or_none o3) (strip_or_none o4) c])
                (seq_questions d + 1),
              st_success "Question added!"))
  /\ (forall d f n q st o1 o2 o3 o4 c selected_quiz question_id new_quiz
             question,
         is_nil (active_quizzes d) = false ->
         selectbox (quiz_options d) f = Some selected_quiz ->
         selectbox (map Questions.id (questions_of_quiz d selected_quiz)) n
         = Some question_id ->
         fetchone (fun r => Questions.id r =? question_id) (questions d)
         = Some question ->
         selectbox_index (quiz_options d) (Questions.quiz_id question) q
         = Some new_quiz ->
         1 <= Questions.correct_option question <= 4 ->
         st <> "" -> o1 <> "" -> o2 <> "" -> 1 <= c <= 4 ->
         manage_questions_update d f n q st o1 o2 o3 o4 c
         = (with_questions d
              (update (fun r => Questions.id r =? question_id)
                      (fun r =>
                         Questions.mk (Questions.id r) new_quiz (Py.strip st)
                                      (Py.strip o1) (Py.strip o2)
                                      (strip_or_none o3) (strip_or_none o4)
                                      c)
                      (questions d))
              (seq_questions d),
            st_success "Question updated!"))
  /\ strip_or_none "" = None.
Proof.
  split; [|split; [|split; [|split]]].
  - intros d Hd q Hq. destruct (reachable_questions_ok d Hd) as [_ Hall].
    apply Hall. exact Hq.
  - intros d f n q st o1 o2 o3 o4 c Hempty.
    destruct (manage_questions_add_cases d q st o1 o2 o3 o4 c)
      as [[Ha1 Ha2]|(x & y & _ & _ & Hst & H1 & H2 & _)]; [|tauto].
    destruct (manage_questions_update_cases d f n q st o1 o2 o3 o4 c)
      as [[Hu1 Hu2]|(x & y & z & _ & Hst & H1 & H2 & _)]; [|tauto].
    tauto.
  - intros d q st o1 o2 o3 o4 c Hn Hst H1 H2 Hc.
    destruct (manage_questions_add_cases d q st o1 o2 o3 o4 c)
      as [[Ha1 Ha2]|(quiz_id & correct & _ & Hr & _ & _ & _ & E)].
    + exfalso. revert Ha2. unfold manage_questions_add. rewrite Hn.
      destruct (selectbox (quiz_options d) q) as [x|] eqn:Es.
      * rewrite radio_1234_picked by lia.
        apply truthy_true in Hst, H1, H2. rewrite Hst, H1, H2. simpl.
        intro H. apply H. reflexivity.
      * unfold quiz_options in Es.
        destruct (active_quizzes d); [discriminate|]. simpl in Es.
        discriminate.
    + exists quiz_id. rewrite radio_1234_picked in Hr by lia.
      injection Hr as <-. exact E.
  - exact manage_questions_update_accepted.
  - reflexivity.
Qed.

(** With option 3 left empty and 3 picked as the correct option, the add
    form on the sample database stores the question. *)
Lemma question_correct_option_witness :
  exists quiz_id,
    manage_questions_add db_quiz 1 "2+2=?" "3" "4" "" "" 3
    = (with_questions db_quiz
         (questions db_quiz
          ++ [Questions.mk (seq_questions db_quiz + 1) quiz_id
                           (Py.strip "2+2=?") (Py.strip "3") (Py.strip "4")
                           (strip_or_none "") (strip_or_none "") 3])
         (seq_questions db_quiz + 1),
       st_success "Question added!").
Proof.
  destruct question_correct_option as (_ & _ & Hadd & _).
  apply (Hadd db_quiz 1 "2+2=?" "3" "4" "" "" 3);
    [reflexivity|discriminate|discriminate|discriminate|lia].
Defined.

(** C4 (counterexample). A question whose correct_option names an empty
    slot is not refused: the add form stores correct_option 3 with option 3
    NULL, the edit form stores correct_option 4 with option 4 NULL, and both
    report success. *)
Lemma correct_option_may_name_empty_slot :
  manage_questions_add db_quiz 1 "2+2=?" "3" "4" "" "" 3
  = (with_questions db_quiz
       [Questions.mk 1 1 "2+2=?" "3" "4" None None 3] 1,
     st_success "Question added!")
  /\ names_populated_slot (Questions.mk 1 1 "2+2=?" "3" "4" None None 3)
     = false
  /\ manage_questions_update db_scenario 1 1 1 "2+2=?" "3" "4" "5" "" 4
     = (with_questions db_scenario
          [Questions.mk 1 1 "2+2=?" "3" "4" (Some "5") None 4] 1,
        st_success "Question updated!")
  /\ names_populated_slot
       (Questions.mk 1 1 "2+2=?" "3" "4" (Some "5") None 4) = false.
Proof. repeat split; reflexivity. Qed.

(** ** Grading (take_quiz) *)

Lemma option_matches_true (opt : option string) (a : string) :
  option_matches opt a = true <-> opt = Some a /\ a <> "".
Proof.
  destruct opt as [o|]; simpl.
  - rewrite andb_true_iff, truthy_true, String.eqb_eq. split.
    + intros [Hne ->]. split; [reflexivity|exact Hne].
    + intros [E Hne]. injection E as ->. split; [exact Hne|reflexivity].
  - split; [discriminate|intros [E _]; discriminate].
Qed.

Lemma selected_option_from_Some
    (options : list (option string)) (i : Z) (a : string) (j : Z) :
  selected_option_from i options a = Some j
  <-> exists k : nat,
      j = i + Z.of_nat k
      /\ nth_error options k = Some (Some a) /\ a <> ""
      /\ forall k' : nat, (k' < k)%nat ->
                          nth_error options k' <> Some (Some a).
Proof.
  revert i. induction options as [|opt rest IH]; intro i; simpl.
  - split; [discriminate|].
    intros (k & _ & Hk & _). destruct k; discriminate.
  - destruct (option_matches opt a) eqn:Em.
    + apply option_matches_true in Em. destruct Em as [-> Hne]. split.
      * intro H. injection H as <-. exists 0%nat.
        split; [lia|]. split; [reflexivity|]. split; [exact Hne|].
        intros k' Hk'. lia.
      * intros (k & -> & Hk & _ & Hfirst). destruct k as [|k].
        -- f_equal. lia.
        -- elim (Hfirst 0%nat); [lia|reflexivity].
    + rewrite IH. split.
      * intros (k & -> & Hk & Hne & Hfirst). exists (S k).
        split; [lia|]. split; [exact Hk|]. split; [exact Hne|].
        intros [|k'] Hk'; simpl.
        -- intro E. injection E as ->.
           assert (Ht : option_matches (Some a) a = true)
             by (apply option_matches_true; auto).
           congruence.
        -- apply Hfirst. lia.
      * intros (k & -> & Hk & Hne & Hfirst). destruct k as [|k].
        -- simpl in Hk. injection Hk as ->.
           assert (Ht : option_matches (Some a) a = true)
             by (apply option_matches_true; auto).
           congruence.
        -- exists k. split; [lia|]. split; [exact Hk|]. split; [exact Hne|].
           intros k' Hk'. apply (Hfirst (S k')). lia.
Qed.

Lemma selected_option_Some (q : Questions.row) (a : string) (i : Z) :
  selected_option q a = Some i
  <-> slot_holds q i a /\ forall j, 1 <= j < i -> ~ slot_holds q j a.
Proof.
  unfold selected_option, slot_holds. rewrite selected_option_from_Some.
  split.
  - intros (k & -> & Hk & Hne & Hfirst).
    replace (Z.to_nat (1 + Z.of_nat k - 1)) with k by lia.
    split; [split; [exact Hk|split; [lia|exact Hne]]|].
    intros j Hj (Hn & _ & _).
    apply (Hfirst (Z.to_nat (j - 1))); [lia|exact Hn].
  - intros ((Hk & Hi & Hne) & Hfirst). exists (Z.to_nat (i - 1)).
    split; [lia|]. split; [exact Hk|]. split; [exact Hne|].
    intros k' Hk' Hn.
    apply (Hfirst (Z.of_nat k' + 1)); [lia|].
    replace (Z.to_nat (Z.of_nat k' + 1 - 1)) with k' by lia.
    split; [exact Hn|split; [lia|exact Hne]].
Qed.

Lemma is_correct_true (q : Questions.row) (a : string) :
  is_correct q a = true
  <-> selected_option q a = Some (Questions.correct_option q).
Proof.
  unfold is_correct. destruct (selected_option q a) as [i|].
  - rewrite Z.eqb_eq. split; [intros ->; reflexivity|].
    intro H. injection H as ->. reflexivity.
  - split; discriminate.
Qed.

Lemma radio_rendered (choices : Z -> string) (q : Questions.row) :
  radio (rendered_options q) (choices (Questions.id q))
  = Some (answer_of choices q)
  /\ In (answer_of choices q) (rendered_options q).
Proof.
  unfold answer_of.
  assert (H : exists o l, rendered_options q = o :: l)
    by (unfold rendered_options; simpl; eauto).
  destruct H as (o & l & ->). unfold radio.
  destruct (mem_str (choices (Questions.id q)) (o :: l)) eqn:E.
  - split; [reflexivity|].
    unfold mem_str in E. apply existsb_exists in E.
    destruct E as (x & Hx & E). apply String.eqb_eq in E. subst x.
    exact Hx.
  - split; [reflexivity|left; reflexivity].
Qed.

Lemma dict_set_fresh (answers : list (Z * string)) (k : Z) (v : string) :
  ~ In k (map fst answers) -> dict_set answers k v = answers ++ [(k, v)].
Proof.
  induction answers as [|[k' v'] rest IH]; simpl; intro H.
  - reflexivity.
  - destruct (Z.eqb_spec k' k) as [->|Hne].
    + elim H. left. reflexivity.
    + rewrite IH; [reflexivity|]. intro Hin. apply H. right. exact Hin.
Qed.

Lemma collect_answers_distinct
    (choices : Z -> string) (questions : list Questions.row)
    (answers : list (Z * string)) :
  NoDup (map fst answers ++ map Questions.id questions) ->
  collect_answers questions choices answers
  = Some (answers
          ++ map (fun q => (Questions.id q, answer_of choices q)) questions).
Proof.
  revert answers. induction questions as [|q rest IH]; intros answers H.
  - simpl. rewrite app_nil_r. reflexivity.
  - cbn [collect_answers map]. destruct (radio_rendered choices q) as [-> _].
    rewrite dict_set_fresh.
    + rewrite IH.
      * rewrite <- app_assoc. reflexivity.
      * rewrite map_app. simpl. rewrite <- app_assoc. exact H.
    + intro Hin. simpl in H. apply NoDup_remove_2 in H.
      apply H. apply in_or_app. left. exact Hin.
Qed.

Lemma fetchone_by_id {A : Type} (id : A -> Z) (t : list A) (r : A) :
  NoDup (map id t) -> In r t ->
  fetchone (fun x => id x =? id r) t = Some r.
Proof.
  induction t as [|x l IH]; simpl; intros Hnd Hin; [contradiction|].
  inversion Hnd as [|y l' Hx Hl]; subst.
  destruct Hin as [->|Hin].
  - rewrite Z.eqb_refl. reflexivity.
  - destruct (Z.eqb_spec (id x) (id r)) as [E|_].
    + elim Hx. rewrite E. apply in_map. exact Hin.
    + exact (IH Hl Hin).
Qed.

Lemma count_cons {A : Type} (p : A -> bool) (x : A) (l : list A) :
  count p (x :: l) = (if p x then 1 else 0) + count p l.
Proof.
  unfold count. cbn [filter]. destruct (p x); [|lia].
  cbn [List.length]. rewrite Nat2Z.inj_succ. lia.
Qed.

Lemma calculate_score_points
    (d : db) (choices : Z -> string) (qs : list Questions.row) (score : Z) :
  NoDup (map Questions.id (questions d)) ->
  incl qs (questions d) ->
  calculate_score d
    (map (fun q => (Questions.id q, answer_of choices q)) qs) score
  = Some (score + points choices qs).
Proof.
  intros Hnd. revert score. induction qs as [|q rest IH]; intros score Hin.
  - simpl. f_equal. unfold points, count. simpl. lia.
  - simpl. rewrite (fetchone_by_id Questions.id (questions d) q Hnd)
      by (apply Hin; left; reflexivity).
    rewrite IH by (intros x Hx; apply Hin; right; exact Hx).
    f_equal. unfold points. rewrite count_cons.
    destruct (is_correct q (answer_of choices q)); lia.
Qed.

Lemma take_quiz_submitted
    (d : db) (ss : session) (quiz_choice : Z) (choices : Z -> string)
    (now : string) (selected_quiz user_id : Z) (quiz : Quizzes.row)
    (duration : string) (hours minutes : Z) :
  NoDup (map Questions.id (questions d)) ->
  selectbox (quiz_options d) quiz_choice = Some selected_quiz ->
  get_user_id d (get_current_user ss) = Some user_id ->
  (forall s, In s (scores d) ->
             Scores.quiz_id s = selected_quiz -> Scores.user_id s <> user_id) ->
  fetchone (fun r => Quizzes.id r =? selected_quiz) (quizzes d) = Some quiz ->
  Quizzes.time_duration quiz = Some duration ->
  Py.unpack2_int (Py.split ":" duration) = Some (hours, minutes) ->
  questions_of_quiz d selected_quiz <> [] ->
  take_quiz d ss quiz_choice choices true now
  = (with_scores d
       (scores d
        ++ [Scores.mk (seq_scores d + 1) selected_quiz user_id now
                      (points choices (questions_of_quiz d selected_quiz))
                      (Z.of_nat
                         (List.length (questions_of_quiz d selected_quiz)))])
       (seq_scores d + 1),
     st_score (points choices (questions_of_quiz d selected_quiz))
              (Z.of_nat (List.length (questions_of_quiz d selected_quiz)))).
Proof.
  intros Hnd Hq Hu Hnone Hquiz Hdur Hparse Hqs. unfold take_quiz.
  rewrite (quiz_options_nil d _ _ Hq), Hq, Hu.
  assert (Hc : (count (fun s => (Scores.quiz_id s =? selected_quiz)
                                && (Scores.user_id s =? user_id))
                      (scores d) >? 0) = false).
  { apply count_zero. intros s Hs. apply andb_false_iff.
    destruct (Z.eqb_spec (Scores.quiz_id s) selected_quiz) as [E|_];
      [|left; reflexivity].
    right. apply Z.eqb_neq. exact (Hnone s Hs E). }
  rewrite Hc, Hquiz, Hdur, Hparse.
  destruct (questions_of_quiz d selected_quiz) as [|q0 rest] eqn:Eqs;
    [contradiction|].
  cbn [is_nil]. rewrite <- Eqs.
  assert (Hsub : incl (questions_of_quiz d selected_quiz) (questions d)).
  { intros x Hx. unfold questions_of_quiz in Hx. apply filter_In in Hx.
    tauto. }
  assert (Hnd' : NoDup (map Questions.id (questions_of_quiz d selected_quiz))).
  { unfold questions_of_quiz.
    pose proof (NoDup_map_delete Questions.id
                  (fun r => negb (Questions.quiz_id r =? selected_quiz))
                  (questions d) Hnd) as H.
    unfold delete in H.
    erewrite filter_ext; [exact H|].
    intro r. simpl. rewrite negb_involutive. reflexivity. }
  rewrite (collect_answers_distinct choices _ [] Hnd'). simpl.
  rewrite (calculate_score_points d choices _ 0 Hnd Hsub). reflexivity.
Qed.

Lemma selected_quiz_readable (d : db) (quiz_choice selected_quiz : Z) :
  reachable d ->
  selectbox (quiz_options d) quiz_choice = Some selected_quiz ->
  exists quiz duration hours minutes,
    fetchone (fun r => Quizzes.id r =? selected_quiz) (quizzes d) = Some quiz
    /\ Quizzes.time_duration quiz = Some duration
    /\ Py.unpack2_int (Py.split ":" duration) = Some (hours, minutes).
Proof.
  intros Hd Hs. apply selectbox_Some in Hs. unfold quiz_options in Hs.
  apply (proj1 (In_dict_keys _ _)) in Hs. apply in_map_iff in Hs.
  destruct Hs as (q & E & Hq). unfold active_quizzes in Hq.
  apply filter_In in Hq. destruct Hq as [Hq _].
  apply (proj1 (quizzes_join_In _ _)) in Hq. destruct Hq as [Hq _].
  destruct (fetchone_In (fun r => Quizzes.id r =? selected_quiz)
                        (quizzes d) q Hq) as [quiz Hquiz].
  { apply Z.eqb_eq. exact E. }
  exists quiz.
  destruct (reachable_catalog_ok d Hd) as (_ & _ & Hdur).
  destruct (Hdur quiz (proj1 (fetchone_Some _ _ _ Hquiz)))
    as (duration & h & m & E1 & E2).
  exists duration, h, m. auto.
Qed.

Lemma take_quiz_graded
    (d : db) (ss : session) (quiz_choice : Z) (choices : Z -> string)
    (now : string) (selected_quiz user_id : Z) :
  reachable d ->
  selectbox (quiz_options d) quiz_choice = Some selected_quiz ->
  get_user_id d (get_current_user ss) = Some user_id ->
  ~ has_score d selected_quiz user_id ->
  questions_of_quiz d selected_quiz <> [] ->
  take_quiz d ss quiz_choice choices true now
  = (with_scores d
       (scores d
        ++ [Scores.mk (seq_scores d + 1) selected_quiz user_id now
                      (points choices (questions_of_quiz d selected_quiz))
                      (Z.of_nat
                         (List.length (questions_of_quiz d selected_quiz)))])
       (seq_scores d + 1),
     st_score (points choices (questions_of_quiz d selected_quiz))
              (Z.of_nat (List.length (questions_of_quiz d selected_quiz)))).
Proof.
  intros Hd Hs Hu Hnone Hqs.
  destruct (selected_quiz_readable d quiz_choice selected_quiz Hd Hs)
    as (quiz & duration & h & m & Hquiz & Hdur & Hparse).
  apply (take_quiz_submitted d ss quiz_choice choices now selected_quiz
                             user_id quiz duration h m);
    try assumption.
  - exact (proj1 (reachable_questions_ok d Hd)).
  - intros s Hin E1 E2. apply Hnone. exists s. auto.
Qed.

(** C1. Grading looks every answered question up again and compares the
    radio's text with the four option slots in order, counted from 1,
    passing over slots that hold no text: the recovered index is the first
    slot holding the selected text, also when a later slot holds the same
    text, and there is none when no slot does.  A question earns one point
    exactly when the recovered index equals its correct_option.  In every
    database the application can reach, a submission for a selected quiz
    with at least one question, by a known user without an earlier attempt,
    is graded: the score is the number of questions that earn a point, the
    total is the number of questions of the quiz, and one Score row with
    both is appended.  With the one question A, B, C, D and correct_option
    3, submitting C scores 1 of 1 and submitting A scores 0 of 1. *)
Theorem grading :
  (forall q a i,
      selected_option q a = Some i
      <-> slot_holds q i a /\ forall j, 1 <= j < i -> ~ slot_holds q j a)
  /\ (forall q a,
         is_correct q a = true
         <-> selected_option q a = Some (Questions.correct_option q))
  /\ (forall d ss quiz_choice choices now selected_quiz user_id,
         reachable d ->
         selectbox (quiz_options d) quiz_choice = Some selected_quiz ->
         get_user_id d (get_current_user ss) = Some user_id ->
         ~ has_score d selected_quiz user_id ->
         questions_of_quiz d selected_quiz <> [] ->
         take_quiz d ss quiz_choice choices true now
         = (with_scores d
              (scores d
               ++ [Scores.mk (seq_scores d + 1) selected_quiz user_id now
                     (points choices (questions_of_quiz d selected_quiz))
                     (Z.of_nat
                        (List.length (questions_of_quiz d selected_quiz)))])
              (seq_scores d + 1),
            st_score (points choices (questions_of_quiz d selected_quiz))
                     (Z.of_nat
                        (List.length (questions_of_quiz d selected_quiz)))))
  /\ (forall choices qs,
         points choices qs
         = count (fun q => is_correct q (answer_of choices q)) qs)
  /\ (forall choices q,
         radio (rendered_options q) (choices (Questions.id q))
         = Some (answer_of choices q))
  /\ map option_slots (questions db_abcd_bob)
     = [[Some "A"; Some "B"; Some "C"; Some "D"]]
  /\ map Questions.correct_option (questions db_abcd_bob) = [3]
  /\ snd (take_quiz db_abcd_bob bob 1 (fun _ => "C") true
                    "2025-01-02 10:05:00")
     = st_score 1 1
  /\ snd (take_quiz db_abcd_bob bob 1 (fun _ => "A") true
                    "2025-01-02 10:05:00")
     = st_score 0 1
  /\ selected_option (Questions.mk 1 1 "Which?" "X" "X" (Some "X") None 2)
                     "X"
     = Some 1.
Proof.
  split; [exact selected_option_Some|].
  split; [exact is_correct_true|].
  split; [exact take_quiz_graded|].
  split; [reflexivity|].
  split; [intros choices q; exact (proj1 (radio_rendered choices q))|].
  repeat split; vm_compute; reflexivity.
Qed.

Lemma db_abcd_bob_reachable : reachable db_abcd_bob.
Proof.
  unfold db_abcd_bob, db_abcd, db_quiz.
  repeat apply run_reachable. apply reachable_init.
Qed.

(** Bob submits C for the A, B, C, D question: one Score row, 1 of 1. *)
Lemma grading_witness :
  take_quiz db_abcd_bob bob 1 (fun _ => "C") true "2025-01-02 10:05:00"
  = (with_scores db_abcd_bob
       (scores db_abcd_bob
        ++ [Scores.mk (seq_scores db_abcd_bob + 1) 1 2 "2025-01-02 10:05:00"
              (points (fun _ => "C") (questions_of_quiz db_abcd_bob 1))
              (Z.of_nat (List.length (questions_of_quiz db_abcd_bob 1)))])
       (seq_scores db_abcd_bob + 1),
     st_score (points (fun _ => "C") (questions_of_quiz db_abcd_bob 1))
              (Z.of_nat (List.length (questions_of_quiz db_abcd_bob 1))))
  /\ points (fun _ => "C") (questions_of_quiz db_abcd_bob 1) = 1.
Proof.
  destruct grading as (_ & _ & Hsubmit & _).
  split; [|vm_compute; reflexivity].
  apply (Hsubmit db_abcd_bob bob 1 (fun _ => "C") "2025-01-02 10:05:00" 1 2).
  - exact db_abcd_bob_reachable.
  - vm_compute. reflexivity.
  - vm_compute. reflexivity.
  - intros (s & Hs & _). vm_compute in Hs. destruct Hs.
  - vm_compute. discriminate.
Defined.

(** ** The delete guards *)



Lemma manage_quizzes_delete_ignores_scores (d : db) (q : Quizzes.row) :
  In q (quizzes_join d) ->
  (forall n, In n (questions d) -> Questions.quiz_id n <> Quizzes.id q) ->
  manage_quizzes_delete d (Quizzes.chapter_id q) (Quizzes.id q)
  = (with_quizzes d
       (delete (fun r => Quizzes.id r =? Quizzes.id q) (quizzes d))
       (seq_quizzes d),
     st_success "Quiz deleted!")
  /\ scores (fst (manage_quizzes_delete d (Quizzes.chapter_id q)
                                        (Quizzes.id q)))
     = scores d.
Proof.
  intros Hq Hn. rewrite (manage_quizzes_delete_selected d q Hq).
  destruct (count_children Questions.quiz_id (Quizzes.id q) (questions d))
    as [_ Hzero].
  rewrite (Hzero Hn). split; reflexivity.
Qed.

(** C6 (the code departs from the claim). After Bob has taken Quiz1 and the
    admin has deleted its only question, Quiz1 has no question and one Score
    row.  Deleting Quiz1 is then not blocked: it reports success, the
    quizzes table is empty afterwards, and Bob's Score row is still there,
    pointing at a quiz that no longer exists. *)
Theorem quiz_with_scores_is_deleted :
  map Quizzes.id (quizzes db_emptied) = [1]
  /\ questions db_emptied = []
  /\ scores db_emptied = [Scores.mk 1 1 2 "2025-01-02 10:05:00" 1 1]
  /\ snd (manage_quizzes_delete db_emptied 1 1) = st_success "Quiz deleted!"
  /\ quizzes (fst (manage_quizzes_delete db_emptied 1 1)) = []
  /\ scores (fst (manage_quizzes_delete db_emptied 1 1))
     = [Scores.mk 1 1 2 "2025-01-02 10:05:00" 1 1]
  /\ fst (fst (main db_emptied an_admin (DeleteQuiz 1 1)))
     = fst (manage_quizzes_delete db_emptied 1 1).
Proof. repeat split; reflexivity. Qed.

(** * Further properties of the handlers *)

(** ** Keys: one insert, update or delete at a time *)

Lemma main_related (R : db -> db -> Prop) :
  (forall d, R d d) -> related_by_handlers R ->
  forall d ss r, R d (fst (fst (main d ss r))).
Proof.
  intros Hrefl
         (Hlogin & Hreg & Hsa & Hsu & Hsd & Hca & Hcu & Hcd & Hqa & Hqu & Hqd
          & Hna & Hnu & Hnd & Huu & Hud & Htq & Hup) d ss r.
  unfold main.
  destruct (match ss_page ss with Some p => p | None => "login" end
            =? "login")%string.
  { destruct r; simpl; auto. }
  destruct (match ss_page ss with Some p => p | None => "login" end
            =? "register")%string.
  { destruct r; simpl; auto. }
  destruct (match ss_page ss with Some p => p | None => "login" end
            =? "dashboard")%string.
  { destruct r; simpl; auto; destruct (is_admin d _); simpl; auto. }
  destruct (match ss_page ss with Some p => p | None => "login" end
            =? "admin_dashboard")%string.
  { destruct r; simpl; auto. }
  destruct (match ss_page ss with Some p => p | None => "login" end
            =? "user_dashboard")%string.
  { destruct r; simpl; auto. }
  simpl. apply Hrefl.
Qed.

Ltac table_steps :=
  repeat match goal with |- _ /\ _ => split end;
  first [ apply step_same
        | apply step_insert; reflexivity
        | apply step_update; intro; reflexivity
        | apply step_delete ].

Ltac db_step_by h :=
  intros; unfold db_step, h; repeat break_match; simpl; table_steps.

Lemma db_step_refl (d : db) : db_step d d.
Proof. unfold db_step. table_steps. Qed.

Lemma db_step_handlers : related_by_handlers db_step.
Proof.
  unfold related_by_handlers.
  repeat match goal with |- _ /\ _ => split end.
  - db_step_by login_page.
  - intros. unfold db_step, register_page.
    destruct (negb (p =? c)%string); [simpl; table_steps|].
    unfold insert_user.
    destruct (existsb _ (users d)); simpl; table_steps.
  - db_step_by manage_subjects_add.
  - db_step_by manage_subjects_update.
  - db_step_by manage_subjects_delete.
  - db_step_by manage_chapters_add.
  - db_step_by manage_chapters_update.
  - db_step_by manage_chapters_delete.
  - db_step_by manage_quizzes_add.
  - db_step_by manage_quizzes_update.
  - db_step_by manage_quizzes_delete.
  - db_step_by manage_questions_add.
  - db_step_by manage_questions_update.
  - db_step_by manage_questions_delete.
  - db_step_by manage_users_update.
  - db_step_by manage_users_delete.
  - db_step_by take_quiz.
  - db_step_by user_profile.
Qed.

Lemma main_db_step (d : db) (ss : session) (r : request) :
  db_step d (fst (fst (main d ss r))).
Proof. apply main_related; [exact db_step_refl|exact db_step_handlers]. Qed.

Lemma table_step_keys {A : Type} (id : A -> Z) (t t' : list A) (sq sq' : Z) :
  table_step id t sq t' sq' -> keys_ok id t sq -> keys_ok id t' sq'.
Proof.
  intros Hstep (Hnd & Hsq & Hall). destruct Hstep as [|r Hr|p set Hid|p].
  - exact (conj Hnd (conj Hsq Hall)).
  - split; [|split; [lia|]].
    + rewrite map_app. simpl. apply NoDup_app.
      * exact Hnd.
      * constructor; [intros []|constructor].
      * intros x Hx [<-|[]]. apply in_map_iff in Hx.
        destruct Hx as (r0 & E & Hr0). pose proof (Hall r0 Hr0). lia.
    + intros r0 Hin. apply in_app_or in Hin.
      destruct Hin as [Hin|[<-|[]]]; [pose proof (Hall r0 Hin)|]; lia.
  - split; [|split; [exact Hsq|]].
    + rewrite map_update; assumption.
    + intros r0 Hin. apply update_In in Hin.
      destruct Hin as [Hin|(r1 & Hin & _ & ->)]; [exact (Hall r0 Hin)|].
      rewrite Hid. exact (Hall r1 Hin).
  - split; [|split; [exact Hsq|]].
    + apply NoDup_map_delete. exact Hnd.
    + intros r0 Hin. apply delete_In in Hin. apply Hall. tauto.
Qed.

Lemma table_step_fresh {A : Type} (id : A -> Z) (t t' : list A)
    (sq sq' : Z) :
  table_step id t sq t' sq' -> fresh_keys id t sq t' sq'.
Proof.
  intros [|r Hr|p set Hid|p]; (split; [lia|]); intros r' Hin.
  - left. apply in_map. exact Hin.
  - apply in_app_or in Hin. destruct Hin as [Hin|[<-|[]]].
    + left. apply in_map. exact Hin.
    + right. lia.
  - left. apply update_In in Hin.
    destruct Hin as [Hin|(r1 & Hin & _ & ->)].
    + apply in_map. exact Hin.
    + rewrite Hid. apply in_map. exact Hin.
  - left. apply delete_In in Hin. apply in_map. tauto.
Qed.

Lemma primary_keys_ok_kept : kept_by_handlers primary_keys_ok.
Proof.
  assert (H : forall d d', db_step d d' ->
                           primary_keys_ok d -> primary_keys_ok d').
  { intros d d' (S1 & S2 & S3 & S4 & S5 & S6) (K1 & K2 & K3 & K4 & K5 & K6).
    unfold primary_keys_ok.
    repeat match goal with |- _ /\ _ => split end;
      eapply table_step_keys; eassumption. }
  destruct db_step_handlers
    as (Hlogin & Hreg & Hsa & Hsu & Hsd & Hca & Hcu & Hcd & Hqa & Hqu & Hqd
        & Hna & Hnu & Hnd & Huu & Hud & Htq & Hup).
  unfold kept_by_handlers.
  repeat match goal with |- _ /\ _ => split end;
    intros; (eapply H; [|eassumption]); auto.
Qed.

Lemma reachable_primary_keys_ok (d : db) :
  reachable d -> primary_keys_ok d.
Proof.
  apply reachable_keeps; [|exact primary_keys_ok_kept].
  unfold primary_keys_ok, keys_ok. simpl.
  repeat match goal with |- _ /\ _ => split end;
    first [ lia
          | solve [constructor; [intros []|constructor]]
          | solve [constructor]
          | solve [intros r []]
          | intros r [<-|[]]; simpl; lia ].
Qed.

(** X1. In every database the application can reach, the ids of each of the
    six tables are distinct, positive and not above the table's counter. *)
Theorem primary_keys :
  forall d, reachable d -> primary_keys_ok d.
Proof. exact reachable_primary_keys_ok. Qed.

Lemma db_taken_reachable : reachable db_taken.
Proof.
  unfold db_taken, db_scenario, db_quiz.
  repeat apply run_reachable. apply reachable_init.
Qed.

(** The database on which Bob has taken Quiz1 is one of them. *)
Lemma primary_keys_witness :
  primary_keys_ok db_taken.
Proof. apply primary_keys. exact db_taken_reachable. Defined.

(** X2. Whatever the request, session and database: no counter goes down,
    and a row of the database after the request has the id of a row that
    was there before or an id above the old counter.  With X1, the id of a
    deleted row is never given out again. *)
Theorem keys_never_reused :
  forall d ss r, db_fresh_keys d (fst (fst (main d ss r))).
Proof.
  intros d ss r.
  destruct (main_db_step d ss r) as (S1 & S2 & S3 & S4 & S5 & S6).
  unfold db_fresh_keys.
  repeat match goal with |- _ /\ _ => split end;
    apply table_step_fresh; assumption.
Qed.

(** ** Users: names, lookups and logins *)

Lemma login_page_cases (d : db) (ss : session) (u p now : string) :
  (login_page d ss u p now = (d, ss, st_error "Invalid credentials")
   /\ forall role, validate_login d u p = Some role -> role = "")
  \/ exists role,
      validate_login d u p = Some role /\ role <> ""
      /\ login_page d ss u p now
         = (with_users d
              (update (username_is (Some u)) (set_last_login now) (users d))
              (seq_users d),
            mksession (Some u) (Some role) (Some "dashboard"),
            no_message).
Proof.
  unfold login_page. destruct (validate_login d u p) as [role|].
  - destruct (Py.truthy role) eqn:E.
    + right. exists role. apply truthy_true in E. auto.
    + left. apply truthy_false in E. split; [reflexivity|].
      intros r H. injection H as <-. exact E.
  - left. split; [reflexivity|discriminate].
Qed.

Lemma register_page_cases
    (d : db) (ss : session) (u p c f e : string) :
  fst (fst (register_page d ss u p c f e)) = d
  \/ ((forall x, In x (users d) -> Users.username x <> u)
      /\ p = c
      /\ fst (fst (register_page d ss u p c f e))
         = with_users d
             (users d
              ++ [Users.mk (seq_users d + 1) u p (Some f) None None
                           (Some "user") (Some e) None])
             (seq_users d + 1)).
Proof.
  unfold register_page.
  destruct (String.eqb_spec p c) as [E|E]; simpl; [|left; reflexivity].
  destruct (existsb (fun x => (Users.username x =? u)%string) (users d))
    eqn:Ex.
  - left. apply existsb_exists in Ex. destruct Ex as (x & Hx & Ex).
    apply String.eqb_eq in Ex.
    rewrite insert_user_taken by eauto. reflexivity.
  - right.
    assert (Hnone : forall x, In x (users d) -> Users.username x <> u).
    { intros x Hx Hu.
      assert (Ht : existsb (fun x => (Users.username x =? u)%string)
                           (users d) = true).
      { apply existsb_exists. exists x. split; [exact Hx|].
        apply String.eqb_eq. exact Hu. }
      congruence. }
    split; [exact Hnone|]. split; [exact E|].
    rewrite (insert_user_free _ _ _ _ _ _ Hnone). reflexivity.
Qed.

Lemma manage_users_delete_cases (d : db) (c : Z) :
  fst (manage_users_delete d c) = d
  \/ exists user_id,
      (forall s, In s (scores d) -> Scores.user_id s <> user_id)
      /\ fst (manage_users_delete d c)
         = with_users d
             (delete (fun u => Users.id u =? user_id) (users d))
             (seq_users d).
Proof.
  unfold manage_users_delete.
  destruct (selectbox (map Users.id (users d)) c) as [user_id|];
    [|left; reflexivity].
  destruct (fetchone (fun u => Users.id u =? user_id) (users d)) as [user|];
    [|left; reflexivity].
  destruct (role_is_admin (Users.role user)); [left; reflexivity|].
  destruct (count (fun s => Scores.user_id s =? user_id) (scores d) >? 0)
    eqn:E; [left; reflexivity|].
  right. exists user_id. split; [|reflexivity].
  intros s Hs. apply Z.eqb_neq. exact (proj1 (count_zero _ _) E s Hs).
Qed.

Lemma NoDup_map_filter {A B : Type} (f : A -> B) (p : A -> bool)
    (t : list A) :
  NoDup (map f t) -> NoDup (map f (filter p t)).
Proof.
  induction t as [|x l IH]; simpl; intro H.
  - constructor.
  - inversion H as [|y l' Hx Hl]; subst.
    destruct (p x); simpl.
    + constructor; [|exact (IH Hl)].
      intro Hin. apply Hx. apply in_map_iff in Hin.
      destruct Hin as (r & E & Hr). apply filter_In in Hr.
      apply in_map_iff. exists r. tauto.
    + exact (IH Hl).
Qed.

Lemma users_ok_update (d : db) (p : Users.row -> bool)
    (set : Users.row -> Users.row) :
  (forall x, Users.username (set x) = Users.username x) ->
  (forall x, In x (users d) ->
             Users.role (set x) = Some "user"
             \/ Users.role (set x) = Some "admin") ->
  users_ok d ->
  users_ok (with_users d (update p set (users d)) (seq_users d)).
Proof.
  intros Hname Hrole [Hnd Hroles]. split; simpl.
  - rewrite map_update; assumption.
  - intros x Hin. apply update_In in Hin.
    destruct Hin as [Hin|(x0 & Hin & _ & ->)]; auto.
Qed.

Lemma users_ok_kept : kept_by_handlers users_ok.
Proof.
  apply (kept_by_footprint _ (is_table T_users)); try discriminate.
  { intros d d' Hsame H. destruct (Hsame T_users eq_refl) as [Hu _].
    unfold users_ok in *. rewrite Hu. exact H. }
  intros _. split; [|split; [|split; [|split]]].
  - intros d ss u p now H.
    destruct (login_page_cases d ss u p now)
      as [[-> _]|(role & _ & _ & ->)]; [exact H|].
    apply users_ok_update; [reflexivity| |exact H].
    intros x Hx. exact (proj2 H x Hx).
  - intros d ss u p c f e H.
    destruct (register_page_cases d ss u p c f e)
      as [->|(Hfree & _ & ->)]; [exact H|].
    destruct H as [Hnd Hroles]. split; simpl.
    + rewrite map_app. simpl. apply NoDup_app.
      * exact Hnd.
      * constructor; [intros []|constructor].
      * intros n Hn [<-|[]]. apply in_map_iff in Hn.
        destruct Hn as (x & E & Hx). exact (Hfree x Hx E).
    + intros x Hin. apply in_app_or in Hin.
      destruct Hin as [Hin|[<-|[]]]; [exact (Hroles x Hin)|].
      left. reflexivity.
  - intros d u fn q dob e r H.
    destruct (manage_users_update_cases d u fn q dob e r)
      as [->|(user_id & role & _ & Hrole & ->)]; [exact H|].
    apply users_ok_update; [reflexivity| |exact H].
    intros x _. simpl. destruct Hrole as [->| ->]; auto.
  - intros d u H.
    destruct (manage_users_delete_cases d u) as [->|(user_id & _ & ->)];
      [exact H|].
    destruct H as [Hnd Hroles]. split; simpl.
    + apply NoDup_map_filter. exact Hnd.
    + intros x Hin. apply delete_In in Hin. apply Hroles. tauto.
  - intros d ss fn q dob e pw cpw H.
    destruct (user_profile_cases d ss fn q dob e pw cpw) as [->|(_ & ->)];
      [exact H|].
    apply users_ok_update; [reflexivity| |exact H].
    intros x Hx. exact (proj2 H x Hx).
Qed.

Lemma reachable_users_ok (d : db) : reachable d -> users_ok d.
Proof.
  apply reachable_keeps; [|exact users_ok_kept].
  split; simpl.
  - constructor; [intros []|constructor].
  - intros x [<-|[]]. right. reflexivity.
Qed.

(** With distinct usernames, a row is the one its username fetches. *)
Lemma fetchone_username (t : list Users.row) (x : Users.row) :
  NoDup (map Users.username t) -> In x t ->
  fetchone (username_is (Some (Users.username x))) t = Some x.
Proof.
  induction t as [|y l IH]; simpl; intros Hnd Hin; [contradiction|].
  inversion Hnd as [|n l' Hy Hl]; subst.
  destruct Hin as [->|Hin].
  - rewrite String.eqb_refl. reflexivity.
  - destruct (String.eqb_spec (Users.username y) (Users.username x))
      as [E|_].
    + elim Hy. rewrite E. apply in_map. exact Hin.
    + exact (IH Hl Hin).
Qed.

Lemma fetchone_username_None (t : list Users.row) (n : string) :
  (forall x, In x t -> Users.username x <> n) ->
  fetchone (username_is (Some n)) t = None.
Proof.
  intro H. unfold fetchone. destruct (find _ t) as [x|] eqn:E;
    [|reflexivity].
  apply find_some in E. destruct E as [Hin E]. simpl in E.
  apply String.eqb_eq in E. elim (H x Hin E).
Qed.

Lemma validate_login_row (d : db) (x : Users.row) (p : string) :
  users_ok d -> In x (users d) ->
  validate_login d (Users.username x) p
  = if (Users.password x =? p)%string then Users.role x else None.
Proof.
  intros [Hnd _] Hin. unfold validate_login.
  rewrite (fetchone_username _ x Hnd Hin). reflexivity.
Qed.

Lemma validate_login_unknown (d : db) (u p : string) :
  (forall x, In x (users d) -> Users.username x <> u) ->
  validate_login d u p = None.
Proof.
  intro H. unfold validate_login.
  rewrite (fetchone_username_None _ _ H). reflexivity.
Qed.

Lemma login_refused (d : db) (ss : session) (u p now : string) :
  users_ok d ->
  (forall x, In x (users d) -> Users.username x = u ->
             Users.password x <> p) ->
  login_page d ss u p now = (d, ss, st_error "Invalid credentials").
Proof.
  intros Hok Hwrong.
  assert (Hv : validate_login d u p = None).
  { unfold validate_login.
    destruct (fetchone (username_is (Some u)) (users d)) as [x|] eqn:E;
      [|reflexivity].
    apply fetchone_Some in E. destruct E as [Hin E]. simpl in E.
    apply String.eqb_eq in E. apply (Hwrong x Hin) in E.
    apply String.eqb_neq in E. rewrite E. reflexivity. }
  unfold login_page. rewrite Hv. reflexivity.
Qed.

Lemma login_accepted (d : db) (ss : session) (x : Users.row) (now : string) :
  users_ok d -> In x (users d) ->
  exists role,
    Users.role x = Some role
    /\ login_page d ss (Users.username x) (Users.password x) now
       = (with_users d
            (update (username_is (Some (Users.username x)))
                    (set_last_login now) (users d))
            (seq_users d),
          mksession (Some (Users.username x)) (Some role) (Some "dashboard"),
          no_message).
Proof.
  intros Hok Hin.
  pose proof (validate_login_row d x (Users.password x) Hok Hin) as Hv.
  rewrite String.eqb_refl in Hv.
  destruct (proj2 Hok x Hin) as [Hr|Hr]; rewrite Hr in Hv;
    eexists; (split; [exact Hr|]); unfold login_page; rewrite Hv;
    reflexivity.
Qed.

(** X3. In every database the application can reach: logging in with the
    username and password of a stored user row succeeds, whatever the
    session; the session then holds that username, the stored role and the
    page "dashboard", and the only write is last_login of the rows with
    that username.  When no row has both the username and the password
    (unknown user or wrong password), the login shows "Invalid credentials"
    and database and session stay as they were. *)
Theorem login_outcome :
  forall d ss now,
    reachable d ->
    (forall x,
        In x (users d) ->
        exists role,
          Users.role x = Some role
          /\ login_page d ss (Users.username x) (Users.password x) now
             = (with_users d
                  (update (username_is (Some (Users.username x)))
                          (set_last_login now) (users d))
                  (seq_users d),
                mksession (Some (Users.username x)) (Some role)
                          (Some "dashboard"),
                no_message))
    /\ (forall u p,
           (forall x, In x (users d) -> Users.username x = u ->
                      Users.password x <> p) ->
           login_page d ss u p now = (d, ss, st_error "Invalid credentials")).
Proof.
  intros d ss now Hd. pose proof (reachable_users_ok d Hd) as Hok. split.
  - intros x Hin. exact (login_accepted d ss x now Hok Hin).
  - intros u p H. exact (login_refused d ss u p now Hok H).
Qed.

(** On the database where Bob has signed up: his password lets him in, a
    wrong one does not. *)
Lemma login_outcome_witness :
  (exists role,
      login_page db_abcd_bob new_session "bob" "secret" "2025-01-03 08:00:00"
      = (with_users db_abcd_bob
           (update (username_is (Some "bob"))
                   (set_last_login "2025-01-03 08:00:00")
                   (users db_abcd_bob))
           (seq_users db_abcd_bob),
         mksession (Some "bob") (Some role) (Some "dashboard"),
         no_message))
  /\ login_page db_abcd_bob new_session "bob" "Secret" "2025-01-03 08:00:00"
     = (db_abcd_bob, new_session, st_error "Invalid credentials").
Proof.
  destruct (login_outcome db_abcd_bob new_session "2025-01-03 08:00:00")
    as [Hin Hout].
  { unfold db_abcd_bob, db_abcd, db_quiz.
    repeat apply run_reachable. apply reachable_init. }
  split.
  - destruct (Hin (Users.mk 2 "bob" "secret" (Some "Bob") None None
                            (Some "user") (Some "bob@example.org")
                            (Some "2025-01-02 10:00:00")))
      as (role & _ & E).
    + vm_compute. right. left. reflexivity.
    + exists role. exact E.
  - apply Hout. intros x Hx. vm_compute in Hx.
    destruct Hx as [<-|[<-|[]]]; simpl; intros E; discriminate.
Defined.

Lemma fetchone_app {A : Type} (p : A -> bool) (t t' : list A) :
  fetchone p (t ++ t')
  = match fetchone p t with
    | Some r => Some r
    | None => fetchone p t'
    end.
Proof.
  unfold fetchone. induction t as [|x l IH]; simpl; [reflexivity|].
  destruct (p x); [reflexivity|exact IH].
Qed.

Lemma NoDup_map_inj {A B : Type} (f : A -> B) (t : list A) (a b : A) :
  NoDup (map f t) -> In a t -> In b t -> f a = f b -> a = b.
Proof.
  induction t as [|x l IH]; simpl; intros Hnd Ha Hb E; [contradiction|].
  inversion Hnd as [|y l' Hx Hl]; subst.
  destruct Ha as [->|Ha], Hb as [->|Hb].
  - reflexivity.
  - elim Hx. rewrite E. apply in_map. exact Hb.
  - elim Hx. rewrite <- E. apply in_map. exact Ha.
  - exact (IH Hl Ha Hb E).
Qed.

Lemma is_admin_row (d : db) (ss : session) (x : Users.row) :
  users_ok d -> In x (users d) -> session_of (Users.username x) ss ->
  is_admin d ss = role_is_admin (Users.role x).
Proof.
  intros [Hnd _] Hin Hss. unfold is_admin, session_of in *. rewrite Hss.
  rewrite (fetchone_username _ x Hnd Hin). reflexivity.
Qed.

Lemma is_admin_true (d : db) (ss : session) :
  users_ok d ->
  (is_admin d ss = true
   <-> exists x, In x (users d) /\ session_of (Users.username x) ss
                 /\ Users.role x = Some "admin").
Proof.
  intro Hok. split.
  - unfold is_admin.
    destruct (ss_username ss) as [n|] eqn:En; [|discriminate].
    destruct (fetchone (username_is (Some n)) (users d)) as [x|] eqn:E;
      [|discriminate].
    apply fetchone_Some in E. destruct E as [Hin E]. simpl in E.
    apply String.eqb_eq in E.
    destruct (Users.role x) as [r|] eqn:Er; [|discriminate].
    intro H. apply String.eqb_eq in H. subst r.
    exists x. unfold session_of. rewrite En, E. auto.
  - intros (x & Hin & Hss & Hr).
    rewrite (is_admin_row d ss x Hok Hin Hss), Hr. reflexivity.
Qed.

Lemma registered_row (d : db) (ss : session) (u p f e : string) :
  (forall x, In x (users d) -> Users.username x <> u) ->
  fst (fst (register_page d ss u p p f e))
  = with_users d
      (users d
       ++ [Users.mk (seq_users d + 1) u p (Some f) None None (Some "user")
                    (Some e) None])
      (seq_users d + 1).
Proof.
  intro H. destruct (register_page_cases d ss u p p f e)
    as [E|(_ & _ & E)]; [|exact E].
  exfalso. revert E. unfold register_page. rewrite String.eqb_refl. simpl.
  rewrite (insert_user_free _ _ _ _ _ _ H). simpl. intro E.
  assert (Hl : List.length (users (with_users d
                 (users d
                  ++ [Users.mk (seq_users d + 1) u p (Some f) None None
                               (Some "user") (Some e) None])
                 (seq_users d + 1))) = List.length (users d))
    by (rewrite E; reflexivity).
  simpl in Hl. rewrite length_app in Hl. simpl in Hl. lia.
Qed.

(** X4. A registration with a free username and matching passwords can be
    used at once: on the database it leaves, the new username and password
    pass validate_login with the role "user" and log in from any session,
    any other password for that username is refused, and the new user is
    not an admin. *)
Theorem register_then_login :
  forall d ss u p f e,
    (forall x, In x (users d) -> Users.username x <> u) ->
    validate_login (fst (fst (register_page d ss u p p f e))) u p
    = Some "user"
    /\ (forall p', p' <> p ->
                   validate_login (fst (fst (register_page d ss u p p f e)))
                                  u p' = None)
    /\ (forall ss' now,
           snd (fst (login_page (fst (fst (register_page d ss u p p f e)))
                                ss' u p now))
           = mksession (Some u) (Some "user") (Some "dashboard"))
    /\ (forall ss', session_of u ss' ->
                    is_admin (fst (fst (register_page d ss u p p f e))) ss'
                    = false).
Proof.
  intros d ss u p f e Hfree. rewrite (registered_row d ss u p f e Hfree).
  assert (Hfetch : fetchone (username_is (Some u))
                     (users d
                      ++ [Users.mk (seq_users d + 1) u p (Some f) None None
                                   (Some "user") (Some e) None])
                   = Some (Users.mk (seq_users d + 1) u p (Some f) None None
                                    (Some "user") (Some e) None)).
  { rewrite fetchone_app, (fetchone_username_None _ _ Hfree). simpl.
    rewrite String.eqb_refl. reflexivity. }
  assert (Hv : forall p',
             validate_login
               (with_users d
                  (users d
                   ++ [Users.mk (seq_users d + 1) u p (Some f) None None
                                (Some "user") (Some e) None])
                  (seq_users d + 1)) u p'
             = if (p =? p')%string then Some "user" else None).
  { intro p'. unfold validate_login. simpl users. rewrite Hfetch.
    reflexivity. }
  split; [|split; [|split]].
  - rewrite Hv, String.eqb_refl. reflexivity.
  - intros p' Hp. rewrite Hv.
    destruct (String.eqb_spec p p') as [E|_]; [congruence|reflexivity].
  - intros ss' now. unfold login_page. rewrite Hv, String.eqb_refl.
    reflexivity.
  - intros ss' Hss. unfold is_admin, session_of in *. rewrite Hss.
    simpl users. rewrite Hfetch. reflexivity.
Qed.

(** "carol" is free on the sample database. *)
Lemma register_then_login_witness :
  validate_login
    (fst (fst (register_page db_quiz new_session "carol" "pw" "pw" "Carol"
                             "carol@example.org")))
    "carol" "pw"
  = Some "user".
Proof.
  apply (register_then_login db_quiz new_session "carol" "pw" "Carol"
                             "carol@example.org").
  intros x Hx. vm_compute in Hx. destruct Hx as [<-|[]]. discriminate.
Defined.

Lemma manage_users_update_selected
    (d : db) (x : Users.row) (fn q dob e role_choice : string) :
  In x (users d) ->
  role_choice = "user" \/ role_choice = "admin" ->
  fst (manage_users_update d (Users.id x) fn q dob e role_choice)
  = with_users d
      (update (fun u => Users.id u =? Users.id x)
              (fun u =>
                 Users.mk (Users.id u) (Users.username u) (Users.password u)
                          (Some (Py.strip fn)) (Some (Py.strip q)) (Some dob)
                          (Some role_choice) (Some (Py.strip e))
                          (Users.last_login u))
              (users d))
      (seq_users d).
Proof.
  intros Hin Hrole. unfold manage_users_update.
  rewrite (selected_user d x Hin).
  destruct (fetchone_In (fun u => Users.id u =? Users.id x) (users d) x Hin
                        (Z.eqb_refl _)) as [x' ->].
  unfold role_selectbox.
  destruct Hrole as [-> | ->]; reflexivity.
Qed.

Lemma In_update_set {A : Type} (p : A -> bool) (set : A -> A) (t : list A)
    (r : A) :
  In r t -> p r = true -> In (set r) (update p set t).
Proof.
  intros Hin Hp. unfold update. apply in_map_iff. exists r.
  rewrite Hp. auto.
Qed.

(** X5. In every database the application can reach, is_admin holds for a
    session exactly when the user row with the session's username has the
    role admin.  It reads the stored role at each call: once the admin's
    edit form has stored the role "user" for a user, is_admin is false for
    that user's sessions, and once it has stored "admin" it is true. *)
Theorem is_admin_follows_stored_role :
  forall d,
    reachable d ->
    (forall ss,
        is_admin d ss = true
        <-> exists x, In x (users d) /\ session_of (Users.username x) ss
                      /\ Users.role x = Some "admin")
    /\ (forall x ss fn q dob e,
           In x (users d) -> session_of (Users.username x) ss ->
           is_admin (fst (manage_users_update d (Users.id x) fn q dob e
                                              "user")) ss = false
           /\ is_admin (fst (manage_users_update d (Users.id x) fn q dob e
                                                 "admin")) ss = true).
Proof.
  intros d Hd. pose proof (reachable_users_ok d Hd) as Hok.
  split; [intro ss; exact (is_admin_true d ss Hok)|].
  intros x ss fn q dob e Hin Hss.
  assert (Hrow : forall role,
             role = "user" \/ role = "admin" ->
             is_admin (fst (manage_users_update d (Users.id x) fn q dob e
                                                role)) ss
             = role_is_admin (Some role)).
  { intros role Hrole.
    assert (Hok' : users_ok (fst (manage_users_update d (Users.id x) fn q
                                                      dob e role))).
    { destruct users_ok_kept
        as (_ & _ & _ & _ & _ & _ & _ & _ & _ & _ & _ & _ & _ & _ & Huu & _).
      apply Huu. exact Hok. }
    rewrite (manage_users_update_selected d x fn q dob e role Hin Hrole)
      in *.
    pose (x' := Users.mk (Users.id x) (Users.username x) (Users.password x)
                         (Some (Py.strip fn)) (Some (Py.strip q)) (Some dob)
                         (Some role) (Some (Py.strip e))
                         (Users.last_login x)).
    rewrite (is_admin_row _ ss x' Hok'); [reflexivity| |exact Hss].
    simpl users.
    apply (In_update_set
             (fun u => Users.id u =? Users.id x)
             (fun u =>
                Users.mk (Users.id u) (Users.username u) (Users.password u)
                         (Some (Py.strip fn)) (Some (Py.strip q)) (Some dob)
                         (Some role) (Some (Py.strip e))
                         (Users.last_login u))
             (users d) x Hin (Z.eqb_refl _)). }
  split; [rewrite Hrow by auto|rewrite Hrow by auto]; reflexivity.
Qed.

(** The seeded admin, demoted by the edit form, is no admin any more. *)
Lemma is_admin_follows_stored_role_witness :
  is_admin db_quiz an_admin = true
  /\ is_admin (fst (manage_users_update db_quiz 1 "Admin User" ""
                                        "2025-01-01" "" "user")) an_admin
     = false.
Proof.
  assert (Hd : reachable db_quiz).
  { unfold db_quiz. apply run_reachable. apply reachable_init. }
  destruct (is_admin_follows_stored_role db_quiz Hd) as [Hiff Hset].
  pose (admin := Users.mk 1 "admin" "admin123" (Some "Admin User") None None
                          (Some "admin") None (Some "2025-01-01 09:00:00")).
  split.
  - apply Hiff. exists admin. split; [vm_compute; left; reflexivity|].
    split; reflexivity.
  - apply (proj1 (Hset admin an_admin "Admin User" "" "2025-01-01" ""
                       (or_introl eq_refl) eq_refl)).
Defined.




(** ** Pages: who can write what *)

Lemma login_page_accounts (d : db) (ss : session) (u p now : string) :
  map account (users (fst (fst (login_page d ss u p now))))
  = map account (users d).
Proof.
  destruct (login_page_cases d ss u p now)
    as [[-> _]|(role & _ & _ & ->)]; [reflexivity|].
  simpl. apply map_update. reflexivity.
Qed.

Lemma register_page_accounts (d : db) (ss : session) (u p c f e : string) :
  map account (users (fst (fst (register_page d ss u p c f e))))
  = map account (users d)
  \/ map account (users (fst (fst (register_page d ss u p c f e))))
     = map account (users d) ++ [(seq_users d + 1, u, Some "user")].
Proof.
  destruct (register_page_cases d ss u p c f e) as [->|(_ & _ & ->)];
    [left; reflexivity|].
  right. simpl. rewrite map_app. reflexivity.
Qed.

Lemma user_profile_accounts (d : db) (ss : session)
    (fn q dob e pw cpw : string) :
  map account (users (fst (user_profile d ss fn q dob e pw cpw)))
  = map account (users d).
Proof.
  destruct (user_profile_cases d ss fn q dob e pw cpw) as [->|(_ & ->)];
    [reflexivity|].
  simpl. apply map_update. reflexivity.
Qed.

Lemma page_of_goto (ss : session) :
  ss_page ss <> Some "admin_dashboard" ->
  (page_of ss =? "admin_dashboard")%string = false.
Proof.
  intro H. apply String.eqb_neq. unfold page_of.
  destruct (ss_page ss) as [p|]; [|discriminate].
  intro E. apply H. rewrite E. reflexivity.
Qed.

Lemma page_of_not (ss : session) (page : string) :
  page <> "login" -> ss_page ss <> Some page ->
  (page_of ss =? page)%string = false.
Proof.
  intros Hl H. apply String.eqb_neq. unfold page_of.
  destruct (ss_page ss) as [p|].
  - intro E. apply H. rewrite E. reflexivity.
  - intro E. apply Hl. symmetry. exact E.
Qed.

Lemma main_unfold (d : db) (ss : session) (r : request) :
  main d ss r
  = let ss0 := goto ss (page_of ss) in
    if (page_of ss =? "login")%string then
      match r with
      | Login u p now => login_page d ss0 u p now
      | RegisterNewUser => (d, goto ss0 "register", no_message)
      | _ => (d, ss0, no_message)
      end
    else if (page_of ss =? "register")%string then
      match r with
      | Register u p c f e => register_page d ss0 u p c f e
      | BackToLogin => (d, goto ss0 "login", no_message)
      | _ => (d, ss0, no_message)
      end
    else if (page_of ss =? "dashboard")%string then dashboard d ss0 r
    else if (page_of ss =? "admin_dashboard")%string
         then admin_dashboard d ss0 r
    else if (page_of ss =? "user_dashboard")%string
         then user_dashboard d ss0 r
    else (d, ss0, no_message).
Proof. reflexivity. Qed.

Lemma same_table_refl (t : table) (d : db) : same_table t d d.
Proof. destruct t; split; reflexivity. Qed.

Lemma kept_refl (d : db) : catalog_and_accounts_kept d d.
Proof.
  unfold catalog_and_accounts_kept.
  refine (conj _ (conj _ (conj _ (conj _ _))));
    try apply same_table_refl.
  left. reflexivity.
Qed.

Lemma kept_by_users_writer (d d' : db) :
  writes_only T_users d d' ->
  (map account (users d') = map account (users d)
   \/ exists id username,
       map account (users d')
       = map account (users d) ++ [(id, username, Some "user")]) ->
  catalog_and_accounts_kept d d'.
Proof.
  intros Hw Hacc. unfold catalog_and_accounts_kept.
  refine (conj _ (conj _ (conj _ (conj _ Hacc))));
    apply Hw; discriminate.
Qed.

Lemma kept_by_scores_writer (d d' : db) :
  writes_only T_scores d d' -> catalog_and_accounts_kept d d'.
Proof.
  intros Hw. unfold catalog_and_accounts_kept.
  refine (conj _ (conj _ (conj _ (conj _ _))));
    try (apply Hw; discriminate).
  left. destruct (Hw T_users) as [-> _]; [discriminate|reflexivity].
Qed.

(** X7. Only a session on the admin dashboard writes the catalog or manages
    users, and only a session on the user dashboard records scores.  A
    request from a session whose page is not 'admin_dashboard' leaves
    subjects, chapters, quizzes and questions as they were, and the
    accounts (id, username, role) of the users table are the same, or the
    same followed by one new account with the role "user"; a request from a
    session whose page is not 'user_dashboard' leaves scores as they
    were. *)
Theorem page_gate :
  forall d ss r,
    (ss_page ss <> Some "admin_dashboard" ->
     catalog_and_accounts_kept d (fst (fst (main d ss r))))
    /\ (ss_page ss <> Some "user_dashboard" ->
        same_table T_scores d (fst (fst (main d ss r)))).
Proof.
  intros d ss r. rewrite main_unfold. cbv zeta. split.
  - intro Hpage.
    rewrite (page_of_not ss "admin_dashboard")
      by (discriminate || exact Hpage).
    destruct (page_of ss =? "login")%string.
    { destruct r; try apply kept_refl.
      apply kept_by_users_writer; [apply login_page_writes|].
      left. apply login_page_accounts. }
    destruct (page_of ss =? "register")%string.
    { destruct r; try apply kept_refl.
      apply kept_by_users_writer; [apply register_page_writes|].
      destruct (register_page_accounts d (goto ss (page_of ss)) username
                  password confirm_password full_name email) as [E|E].
      - left. exact E.
      - right. eauto. }
    destruct (page_of ss =? "dashboard")%string.
    { destruct r; simpl; try destruct (is_admin d _); apply kept_refl. }
    destruct (page_of ss =? "user_dashboard")%string;
      [|apply kept_refl].
    destruct r; try apply kept_refl.
    + apply kept_by_scores_writer. apply take_quiz_writes.
    + apply kept_by_users_writer; [apply user_profile_writes|].
      left. apply user_profile_accounts.
  - intro Hpage.
    rewrite (page_of_not ss "user_dashboard")
      by (discriminate || exact Hpage).
    destruct (page_of ss =? "login")%string.
    { destruct r; try exact (same_table_refl T_scores d).
      apply login_page_writes. discriminate. }
    destruct (page_of ss =? "register")%string.
    { destruct r; try exact (same_table_refl T_scores d).
      apply register_page_writes. discriminate. }
    destruct (page_of ss =? "dashboard")%string.
    { destruct r; simpl; try destruct (is_admin d _);
        exact (same_table_refl T_scores d). }
    destruct (page_of ss =? "admin_dashboard")%string;
      [|exact (same_table_refl T_scores d)].
    destruct r; try exact (same_table_refl T_scores d).
    + apply manage_subjects_add_writes. discriminate.
    + apply manage_subjects_update_writes. discriminate.
    + apply manage_subjects_delete_writes. discriminate.
    + apply manage_chapters_add_writes. discriminate.
    + apply manage_chapters_update_writes. discriminate.
    + apply manage_chapters_delete_writes. discriminate.
    + apply manage_quizzes_add_writes. discriminate.
    + apply manage_quizzes_update_writes. discriminate.
    + apply manage_quizzes_delete_writes. discriminate.
    + apply manage_questions_add_writes. discriminate.
    + apply manage_questions_update_writes. discriminate.
    + apply manage_questions_delete_writes. discriminate.
    + apply manage_users_update_writes. discriminate.
    + apply manage_users_delete_writes. discriminate.
Qed.

(** Bob's session on the user dashboard asks for a subject to be added:
    nothing is added. *)
Lemma page_gate_witness :
  catalog_and_accounts_kept
    db_abcd_bob (fst (fst (main db_abcd_bob bob (AddSubject "Physics" "")))).
Proof.
  apply (proj1 (page_gate db_abcd_bob bob (AddSubject "Physics" ""))).
  discriminate.
Defined.

Lemma goto_same (ss : session) (page : string) :
  ss_page ss = Some page -> goto ss page = ss.
Proof. destruct ss as [u r p]. simpl. intros ->. reflexivity. Qed.

Lemma page_of_Some (ss : session) (page : string) :
  ss_page ss = Some page -> page_of ss = page.
Proof. unfold page_of. intros ->. reflexivity. Qed.

Lemma login_page_session (d : db) (ss : session) (u p now : string) :
  snd (fst (login_page d ss u p now)) = ss
  \/ exists role,
      validate_login d u p = Some role
      /\ snd (fst (login_page d ss u p now))
         = mksession (Some u) (Some role) (Some "dashboard").
Proof.
  destruct (login_page_cases d ss u p now)
    as [[-> _]|(role & Hv & _ & ->)]; [left; reflexivity|].
  right. exists role. split; [exact Hv|reflexivity].
Qed.

Lemma register_page_session (d : db) (ss : session) (u p c f e : string) :
  ss_page (snd (fst (register_page d ss u p c f e))) = ss_page ss
  \/ ss_page (snd (fst (register_page d ss u p c f e))) = Some "login".
Proof.
  unfold register_page.
  destruct (negb (p =? c)%string); [left; reflexivity|].
  destruct (insert_user d u p (Some f) (Some "user") (Some e));
    [right|left]; reflexivity.
Qed.

(** X8. How a session moves between pages: every request leaves the page
    as it is, or goes from 'login' to 'register' and back, from 'login' to
    'dashboard' by a login that validate_login accepts, from 'dashboard' to
    'login' (logout), from 'dashboard' to 'admin_dashboard' when is_admin
    holds at that moment, or from 'dashboard' to 'user_dashboard' when it
    does not.  A session on the admin dashboard or on the user dashboard
    stays as it is, whatever it requests: neither offers a way back or a
    logout, and the role is not looked at again. *)
Theorem page_transitions :
  forall d ss r,
    (ss_page ss = Some "admin_dashboard"
     \/ ss_page ss = Some "user_dashboard" ->
     snd (fst (main d ss r)) = ss)
    /\ (ss_page (snd (fst (main d ss r))) = Some (page_of ss)
        \/ (page_of ss = "login"
            /\ ss_page (snd (fst (main d ss r))) = Some "register")
        \/ (page_of ss = "login"
            /\ exists u p now role,
                r = Login u p now /\ validate_login d u p = Some role
                /\ snd (fst (main d ss r))
                   = mksession (Some u) (Some role) (Some "dashboard"))
        \/ (page_of ss = "register"
            /\ ss_page (snd (fst (main d ss r))) = Some "login")
        \/ (page_of ss = "dashboard"
            /\ snd (fst (main d ss r)) = mksession None None (Some "login"))
        \/ (page_of ss = "dashboard" /\ is_admin d ss = true
            /\ ss_page (snd (fst (main d ss r))) = Some "admin_dashboard")
        \/ (page_of ss = "dashboard" /\ is_admin d ss = false
            /\ ss_page (snd (fst (main d ss r))) = Some "user_dashboard")).
Proof.
  intros d ss r. split.
  - intros [H|H]; rewrite main_unfold; cbv zeta;
      rewrite (page_of_Some ss _ H); simpl; rewrite (goto_same ss _ H);
      destruct r; reflexivity.
  - rewrite main_unfold. cbv zeta.
    destruct (String.eqb_spec (page_of ss) "login") as [El|_].
    { destruct r; try (left; reflexivity).
      - destruct (login_page_session d (goto ss (page_of ss)) username
                    password now) as [E|(role & Hv & E)].
        + left. rewrite E. reflexivity.
        + right. right. left. split; [exact El|].
          exists username, password, now, role. auto.
      - right. left. split; [exact El|reflexivity]. }
    destruct (String.eqb_spec (page_of ss) "register") as [Er|_].
    { destruct r; try (left; reflexivity).
      - destruct (register_page_session d (goto ss (page_of ss)) username
                    password confirm_password full_name email) as [E|E].
        + left. rewrite E. reflexivity.
        + right. right. right. left. split; [exact Er|exact E].
      - right. right. right. left. split; [exact Er|reflexivity]. }
    destruct (String.eqb_spec (page_of ss) "dashboard") as [Ed|_].
    { destruct r; try (left; reflexivity).
      - unfold dashboard.
        destruct (is_admin d (goto ss (page_of ss))) eqn:Ea;
          [|left; reflexivity].
        do 5 right. left. split; [exact Ed|]. split; [exact Ea|reflexivity].
      - unfold dashboard.
        destruct (is_admin d (goto ss (page_of ss))) eqn:Ea;
          [left; reflexivity|].
        do 6 right. split; [exact Ed|]. split; [exact Ea|reflexivity].
      - do 4 right. left. split; [exact Ed|reflexivity]. }
    destruct (String.eqb_spec (page_of ss) "admin_dashboard") as [Ea|_].
    { left. destruct r; reflexivity. }
    destruct (String.eqb_spec (page_of ss) "user_dashboard") as [Eu|_].
    { left. destruct r; reflexivity. }
    left. reflexivity.
Qed.

(** Bob, on the user dashboard, asks for the admin dashboard and for a
    logout: his session does not move. *)
Lemma page_transitions_witness :
  snd (fst (main db_abcd_bob bob GoToAdminDashboard)) = bob
  /\ snd (fst (main db_abcd_bob bob Logout)) = bob.
Proof.
  split.
  - apply (proj1 (page_transitions db_abcd_bob bob GoToAdminDashboard)).
    right. reflexivity.
  - apply (proj1 (page_transitions db_abcd_bob bob Logout)).
    right. reflexivity.
Defined.

(** ** Scores: what take_quiz records *)

Lemma dict_set_length (answers : list (Z * string)) (k : Z) (v : string) :
  (List.length (dict_set answers k v) <= S (List.length answers))%nat.
Proof.
  induction answers as [|[k' v'] rest IH]; simpl; [lia|].
  destruct (k' =? k); simpl; lia.
Qed.

Lemma dict_set_keys (answers : list (Z * string)) (k : Z) (v : string)
    (k0 : Z) :
  In k0 (map fst (dict_set answers k v)) ->
  k0 = k \/ In k0 (map fst answers).
Proof.
  induction answers as [|[k' v'] rest IH]; simpl.
  - intros [<-|[]]. left. reflexivity.
  - destruct (Z.eqb_spec k' k) as [->|Hne]; simpl.
    + intros [<-|H]; auto.
    + intros [<-|H]; auto. destruct (IH H); auto.
Qed.

Lemma collect_answers_Some
    (choices : Z -> string) (qs : list Questions.row)
    (answers : list (Z * string)) :
  exists collected,
    collect_answers qs choices answers = Some collected
    /\ (List.length collected <= List.length answers + List.length qs)%nat
    /\ forall k, In k (map fst collected) ->
                 In k (map fst answers) \/ In k (map Questions.id qs).
Proof.
  revert answers. induction qs as [|q rest IH]; intro answers.
  - exists answers. simpl. split; [reflexivity|]. split; [lia|auto].
  - cbn [collect_answers]. destruct (radio_rendered choices q) as [-> _].
    destruct (IH (dict_set answers (Questions.id q) (answer_of choices q)))
      as (collected & E & Hlen & Hkeys).
    exists collected. split; [exact E|]. split.
    + pose proof (dict_set_length answers (Questions.id q)
                                  (answer_of choices q)).
      simpl. lia.
    + intros k Hk. destruct (Hkeys k Hk) as [H|H].
      * apply dict_set_keys in H. destruct H as [->|H]; auto.
        right. left. reflexivity.
      * right. right. exact H.
Qed.

Lemma calculate_score_Some
    (d : db) (answers : list (Z * string)) (score : Z) :
  (forall k, In k (map fst answers) ->
             exists q, In q (questions d) /\ Questions.id q = k) ->
  exists total,
    calculate_score d answers score = Some total
    /\ score <= total <= score + Z.of_nat (List.length answers).
Proof.
  revert score. induction answers as [|[k v] rest IH]; intros score Hkeys.
  - exists score. simpl. split; [reflexivity|lia].
  - cbn [calculate_score].
    destruct (Hkeys k (or_introl eq_refl)) as (q & Hq & E).
    destruct (fetchone_In (fun r => Questions.id r =? k) (questions d) q Hq)
      as [q' ->]; [apply Z.eqb_eq; exact E|].
    destruct (IH (if is_correct q' v then score + 1 else score))
      as (total & Et & Hb).
    { intros k0 Hk0. apply Hkeys. right. exact Hk0. }
    exists total. split; [exact Et|].
    cbn [List.length]. rewrite Nat2Z.inj_succ.
    destruct (is_correct q' v); lia.
Qed.

Lemma calculate_score_bounds
    (d : db) (answers : list (Z * string)) (score total : Z) :
  calculate_score d answers score = Some total ->
  score <= total <= score + Z.of_nat (List.length answers).
Proof.
  revert score. induction answers as [|[k v] rest IH]; intros score.
  - simpl. intro H. injection H as <-. lia.
  - cbn [calculate_score].
    destruct (fetchone (fun r => Questions.id r =? k) (questions d))
      as [q|]; [|discriminate].
    intro H. apply IH in H. cbn [List.length]. rewrite Nat2Z.inj_succ.
    destruct (is_correct q v); lia.
Qed.

Lemma get_user_id_Some (d : db) (name : option string) (user_id : Z) :
  get_user_id d name = Some user_id ->
  exists u, In u (users d) /\ Users.id u = user_id
            /\ name = Some (Users.username u).
Proof.
  unfold get_user_id.
  destruct (fetchone (username_is name) (users d)) as [u|] eqn:E;
    [|discriminate].
  simpl. intro H. injection H as <-.
  apply fetchone_Some in E. destruct E as [Hin E].
  exists u. split; [exact Hin|]. split; [reflexivity|].
  destruct name as [n|]; [|discriminate]. simpl in E.
  apply String.eqb_eq in E. rewrite E. reflexivity.
Qed.

Lemma quiz_options_In (d : db) (x : Z) :
  In x (quiz_options d) ->
  exists q, In q (quizzes d) /\ Quizzes.id q = x /\ Quizzes.is_active q = 1.
Proof.
  intro H. unfold quiz_options in H.
  apply (proj1 (In_dict_keys _ _)) in H. apply in_map_iff in H.
  destruct H as (q & E & Hq). unfold active_quizzes in Hq.
  apply filter_In in Hq. destruct Hq as [Hq Ha].
  apply (proj1 (quizzes_join_In _ _)) in Hq. destruct Hq as [Hq _].
  apply Z.eqb_eq in Ha. eauto.
Qed.

(** What take_quiz writes, when it writes. *)
Lemma take_quiz_cases
    (d : db) (ss : session) (quiz_choice : Z) (choices : Z -> string)
    (submitted : bool) (now : string) :
  fst (take_quiz d ss quiz_choice choices submitted now) = d
  \/ exists selected_quiz user_id score,
      submitted = true
      /\ selectbox (quiz_options d) quiz_choice = Some selected_quiz
      /\ get_user_id d (get_current_user ss) = Some user_id
      /\ ~ has_score d selected_quiz user_id
      /\ questions_of_quiz d selected_quiz <> []
      /\ 0 <= score
         <= Z.of_nat (List.length (questions_of_quiz d selected_quiz))
      /\ take_quiz d ss quiz_choice choices submitted now
         = (with_scores d
              (scores d
               ++ [Scores.mk (seq_scores d + 1) selected_quiz user_id now
                     score
                     (Z.of_nat
                        (List.length (questions_of_quiz d selected_quiz)))])
              (seq_scores d + 1),
            st_score score
                     (Z.of_nat
                        (List.length (questions_of_quiz d selected_quiz)))).
Proof.
  unfold take_quiz.
  destruct (is_nil (active_quizzes d)); [left; reflexivity|].
  destruct (selectbox (quiz_options d) quiz_choice) as [selected_quiz|];
    [|left; reflexivity].
  destruct (get_user_id d (get_current_user ss)) as [user_id|];
    [|left; reflexivity].
  destruct (count (fun s => (Scores.quiz_id s =? selected_quiz)
                            && (Scores.user_id s =? user_id))
                  (scores d) >? 0) eqn:Ec; [left; reflexivity|].
  destruct (fetchone (fun q => Quizzes.id q =? selected_quiz) (quizzes d))
    as [quiz|]; [|left; reflexivity].
  destruct (Quizzes.time_duration quiz) as [duration|]; [|left; reflexivity].
  destruct (Py.unpack2_int (Py.split ":" duration)); [|left; reflexivity].
  destruct (questions_of_quiz d selected_quiz) as [|q0 rest] eqn:Eq;
    [left; reflexivity|].
  cbn [is_nil]. rewrite <- Eq.
  destruct (collect_answers_Some choices (questions_of_quiz d selected_quiz)
                                 []) as (answers & -> & Hlen & _).
  destruct submitted; [|left; reflexivity]. cbn [negb].
  destruct (calculate_score d answers 0) as [score|] eqn:Es;
    [|left; reflexivity].
  right. exists selected_quiz, user_id, score.
  apply calculate_score_bounds in Es. simpl in Hlen.
  split; [reflexivity|]. split; [reflexivity|]. split; [reflexivity|].
  split.
  { intros (s & Hs & E1 & E2).
    pose proof (proj1 (count_zero _ _) Ec s Hs) as Hz. simpl in Hz.
    rewrite E1, E2, !Z.eqb_refl in Hz. discriminate. }
  split; [rewrite Eq; discriminate|]. split; [lia|reflexivity].
Qed.

Lemma scores_ok_kept : kept_by_handlers scores_ok.
Proof.
  apply (kept_by_footprint _ (is_table T_scores)); try discriminate.
  - intros d d' Hsame H. destruct (Hsame T_scores eq_refl) as [Hs _].
    unfold scores_ok in *. rewrite Hs. exact H.
  - intros _ d ss q ch sub now H.
    destruct (take_quiz_cases d ss q ch sub now)
      as [->|(sq & uid & score & _ & _ & _ & _ & Hne & Hb & ->)];
      [exact H|].
    intros s Hin. simpl in Hin. apply in_app_or in Hin.
    destruct Hin as [Hin|[<-|[]]]; [exact (H s Hin)|]. simpl.
    destruct (questions_of_quiz d sq) as [|q0 rest]; [contradiction|].
    cbn [List.length] in *. lia.
Qed.

Lemma reachable_scores_ok (d : db) : reachable d -> scores_ok d.
Proof.
  apply reachable_keeps; [|exact scores_ok_kept]. intros s [].
Qed.

(** X9. In every database the application can reach, every Score row counts
    at least one question and a score between 0 and that number: the
    divisor of total_scored * 100.0 / total_questions in My Scores and the
    reports is never zero, and the quotient is a share of the whole. *)
Theorem score_rows_are_shares :
  forall d s,
    reachable d -> In s (scores d) ->
    1 <= Scores.total_questions s
    /\ 0 <= Scores.total_scored s <= Scores.total_questions s.
Proof.
  intros d s Hd Hs. exact (reachable_scores_ok d Hd s Hs).
Qed.

(** Bob's Score row: 1 of 1. *)
Lemma score_rows_are_shares_witness :
  1 <= Scores.total_questions
         (Scores.mk 1 1 2 "2025-01-02 10:05:00" 1 1)
  /\ 0 <= Scores.total_scored (Scores.mk 1 1 2 "2025-01-02 10:05:00" 1 1)
     <= Scores.total_questions (Scores.mk 1 1 2 "2025-01-02 10:05:00" 1 1).
Proof.
  apply (score_rows_are_shares
           db_taken (Scores.mk 1 1 2 "2025-01-02 10:05:00" 1 1)).
  - exact db_taken_reachable.
  - vm_compute. left. reflexivity.
Defined.

Lemma main_scores_append (d : db) (ss : session) (r : request) :
  scores (fst (fst (main d ss r))) = scores d
  \/ exists s, scores (fst (fst (main d ss r))) = scores d ++ [s].
Proof.
  apply (main_related
           (fun d d' => scores d' = scores d
                        \/ exists s, scores d' = scores d ++ [s])).
  - intro d0. left. reflexivity.
  - unfold related_by_handlers.
    repeat match goal with |- _ /\ _ => split end; intros;
      try (left;
           first [ apply (login_page_writes d0 ss0 u p now T_scores)
                 | apply (register_page_writes d0 ss0 u p c f e T_scores)
                 | apply (manage_subjects_add_writes d0 n de T_scores)
                 | apply (manage_subjects_update_writes d0 c n de T_scores)
                 | apply (manage_subjects_delete_writes d0 c T_scores)
                 | apply (manage_chapters_add_writes d0 c n de T_scores)
                 | apply (manage_chapters_update_writes d0 f c s n de
                                                        T_scores)
                 | apply (manage_chapters_delete_writes d0 f c T_scores)
                 | apply (manage_quizzes_add_writes d0 c n de da du T_scores)
                 | apply (manage_quizzes_update_writes d0 f q c n de da du a
                                                       T_scores)
                 | apply (manage_quizzes_delete_writes d0 f q T_scores)
                 | apply (manage_questions_add_writes d0 q st o1 o2 o3 o4 c
                                                      T_scores)
                 | apply (manage_questions_update_writes d0 f n q st o1 o2
                                                         o3 o4 c T_scores)
                 | apply (manage_questions_delete_writes d0 f n T_scores)
                 | apply (manage_users_update_writes d0 u fn q dob e r0
                                                     T_scores)
                 | apply (manage_users_delete_writes d0 u T_scores)
                 | apply (user_profile_writes d0 ss0 fn q dob e pw cpw
                                              T_scores) ];
           discriminate).
    destruct (take_quiz_cases d0 ss0 q ch sub now)
      as [->|(sq & uid & score & _ & _ & _ & _ & _ & _ & ->)];
      [left; reflexivity|].
    right. eexists. reflexivity.
Qed.

(** X10. Score rows are never changed or removed: whatever requests a
    session makes, the scores table afterwards is the one before followed
    by the rows added meanwhile, at most one per request. *)
Theorem scores_are_append_only :
  forall d ss rs,
    exists added,
      scores (fst (run d ss rs)) = scores d ++ added
      /\ (List.length added <= List.length rs)%nat.
Proof.
  intros d ss rs. revert d ss.
  induction rs as [|r rest IH]; intros d ss.
  - exists []. simpl. rewrite app_nil_r. split; [reflexivity|lia].
  - cbn [run]. destruct (main d ss r) as [[d' ss'] o] eqn:E.
    destruct (IH d' ss') as (added & -> & Hlen).
    pose proof (main_scores_append d ss r) as H. rewrite E in H.
    simpl in H. destruct H as [->|[s ->]].
    + exists added. split; [reflexivity|]. simpl. lia.
    + exists (s :: added). rewrite <- app_assoc. split; [reflexivity|].
      simpl. lia.
Qed.

(** ** take_quiz: when the page fails *)

Lemma fetchone_None {A : Type} (p : A -> bool) (t : list A) :
  fetchone p t = None <-> forall r, In r t -> p r = false.
Proof.
  unfold fetchone. split.
  - intros H r Hin. exact (find_none p t H r Hin).
  - intro H. induction t as [|x rest IH]; [reflexivity|]. simpl.
    rewrite (H x (or_introl eq_refl)). apply IH.
    intros r Hin. apply H. right. exact Hin.
Qed.

Lemma get_user_id_None (d : db) (ss : session) :
  get_user_id d (get_current_user ss) = None <-> user_row_gone d ss.
Proof.
  unfold get_user_id, get_current_user, user_row_gone. split.
  - intros H u Hin E.
    destruct (fetchone (username_is (ss_username ss)) (users d)) eqn:Ef;
      [discriminate|].
    pose proof (proj1 (fetchone_None _ _) Ef u Hin) as Hf.
    rewrite E in Hf. simpl in Hf. rewrite String.eqb_refl in Hf.
    discriminate.
  - intro H.
    replace (fetchone (username_is (ss_username ss)) (users d))
      with (@None Users.row); [reflexivity|].
    symmetry. apply fetchone_None. intros u Hin.
    destruct (ss_username ss) as [n|] eqn:En; [|reflexivity]. simpl.
    apply String.eqb_neq. intro E. apply (H u Hin). rewrite E. reflexivity.
Qed.

Lemma dict_keys_nonempty (ids : list Z) :
  ids <> [] -> exists k rest, dict_keys ids [] = k :: rest.
Proof.
  destruct ids as [|k r]; [contradiction|]. intros _. simpl. eauto.
Qed.

Lemma selectbox_nonempty (options : list Z) (choice : Z) :
  options <> [] -> exists x, selectbox options choice = Some x.
Proof.
  destruct options as [|first rest]; [contradiction|]. intros _.
  simpl. eauto.
Qed.

Lemma quiz_options_selected (d : db) (quiz_choice : Z) :
  is_nil (active_quizzes d) = false ->
  exists selected_quiz,
    selectbox (quiz_options d) quiz_choice = Some selected_quiz.
Proof.
  intro H. apply selectbox_nonempty. unfold quiz_options.
  destruct (active_quizzes d) as [|q rest]; [discriminate|].
  simpl. discriminate.
Qed.

Lemma questions_of_quiz_In (d : db) (selected_quiz : Z) (n : Questions.row) :
  In n (questions_of_quiz d selected_quiz)
  <-> In n (questions d) /\ Questions.quiz_id n = selected_quiz.
Proof.
  unfold questions_of_quiz. rewrite filter_In, Z.eqb_eq. reflexivity.
Qed.

(** A session whose user row is there never makes take_quiz fail. *)
Lemma take_quiz_known_user
    (d : db) (ss : session) (quiz_choice : Z) (choices : Z -> string)
    (submitted : bool) (now : string) (user_id : Z) :
  reachable d ->
  get_user_id d (get_current_user ss) = Some user_id ->
  is_raised (snd (take_quiz d ss quiz_choice choices submitted now)) = false.
Proof.
  intros Hd Hu. unfold take_quiz.
  destruct (is_nil (active_quizzes d)) eqn:En; [reflexivity|].
  destruct (quiz_options_selected d quiz_choice En) as [selected_quiz Hs].
  rewrite Hs, Hu.
  destruct (count _ (scores d) >? 0); [reflexivity|].
  destruct (selected_quiz_readable d quiz_choice selected_quiz Hd Hs)
    as (quiz & duration & h & m & -> & -> & ->).
  destruct (is_nil (questions_of_quiz d selected_quiz)); [reflexivity|].
  destruct (collect_answers_Some choices (questions_of_quiz d selected_quiz)
                                 []) as (answers & -> & _ & Hkeys).
  destruct submitted; [|reflexivity]. cbn [negb].
  destruct (calculate_score_Some d answers 0) as (total & -> & _);
    [|reflexivity].
  intros k Hk. destruct (Hkeys k Hk) as [[]|Hin].
  apply in_map_iff in Hin. destruct Hin as (n & E & Hn).
  apply questions_of_quiz_In in Hn. exists n. tauto.
Qed.

Lemma take_quiz_unknown_user
    (d : db) (ss : session) (quiz_choice : Z) (choices : Z -> string)
    (submitted : bool) (now : string) :
  is_nil (active_quizzes d) = false ->
  get_user_id d (get_current_user ss) = None ->
  take_quiz d ss quiz_choice choices submitted now = (d, raised "TypeError").
Proof.
  intros En Hu. unfold take_quiz. rewrite En.
  destruct (quiz_options_selected d quiz_choice En) as [selected_quiz ->].
  rewrite Hu. reflexivity.
Qed.

(** X11. In every database the application can reach, the page Take Quiz
    fails exactly when an active quiz is listed and no row of users carries
    the session's username (the account was deleted under the session, or
    the session has no user): get_user_id then raises TypeError on
    fetchone()[0], and nothing is written.  For every other session the
    page ends in a warning, the form or the score; in particular the
    duration of the selected quiz is always readable and every answered
    question is found again when the score is calculated. *)
Theorem take_quiz_failure :
  forall d ss quiz_choice choices submitted now,
    reachable d ->
    (is_raised (snd (take_quiz d ss quiz_choice choices submitted now))
     = true
     <-> is_nil (active_quizzes d) = false /\ user_row_gone d ss)
    /\ (is_raised (snd (take_quiz d ss quiz_choice choices submitted now))
        = true ->
        take_quiz d ss quiz_choice choices submitted now
        = (d, raised "TypeError")).
Proof.
  intros d ss quiz_choice choices submitted now Hd.
  assert (Hfail :
            is_raised (snd (take_quiz d ss quiz_choice choices submitted now))
            = true ->
            is_nil (active_quizzes d) = false
            /\ get_user_id d (get_current_user ss) = None).
  { intro H. split.
    - destruct (is_nil (active_quizzes d)) eqn:En; [|reflexivity].
      unfold take_quiz in H. rewrite En in H. discriminate.
    - destruct (get_user_id d (get_current_user ss)) as [user_id|] eqn:Eu;
        [|reflexivity].
      rewrite (take_quiz_known_user d ss quiz_choice choices submitted now
                                    user_id Hd Eu) in H.
      discriminate. }
  split; [split|].
  - intro H. destruct (Hfail H) as [En Hu]. split; [exact En|].
    apply get_user_id_None. exact Hu.
  - intros [En Hgone]. apply get_user_id_None in Hgone.
    rewrite (take_quiz_unknown_user d ss quiz_choice choices submitted now
                                    En Hgone).
    reflexivity.
  - intro H. destruct (Hfail H) as [En Hu].
    apply take_quiz_unknown_user; assumption.
Qed.

(** On the database with Quiz1 active, a session named ghost, who has no
    row, makes the page fail with TypeError. *)
Lemma take_quiz_failure_witness :
  take_quiz db_taken
            (mksession (Some "ghost") (Some "user") (Some "user_dashboard"))
            1 (fun _ => "C") true "2025-01-03 08:00:00"
  = (db_taken, raised "TypeError").
Proof.
  apply (take_quiz_failure
           db_taken
           (mksession (Some "ghost") (Some "user") (Some "user_dashboard"))
           1 (fun _ => "C") true "2025-01-03 08:00:00"
           db_taken_reachable).
  vm_compute. reflexivity.
Defined.

(** ** Foreign keys *)

Lemma manage_quizzes_delete_guarded (d : db) (f q : Z) :
  fst (manage_quizzes_delete d f q) = d
  \/ exists quiz_id,
      (forall n, In n (questions d) -> Questions.quiz_id n <> quiz_id)
      /\ fst (manage_quizzes_delete d f q)
         = with_quizzes d
             (delete (fun r => Quizzes.id r =? quiz_id) (quizzes d))
             (seq_quizzes d).
Proof.
  unfold manage_quizzes_delete.
  destruct (is_nil (chapters_join_subjects d)); [left; reflexivity|].
  destruct (selectbox (chapter_options d) f) as [selected_chapter|];
    [|left; reflexivity].
  destruct (selectbox (quizzes_of_chapter d selected_chapter) q)
    as [quiz_id|]; [|left; reflexivity].
  destruct (count (fun n => Questions.quiz_id n =? quiz_id) (questions d)
            >? 0) eqn:E; [left; reflexivity|].
  right. exists quiz_id. split; [|reflexivity].
  intros n Hn. apply Z.eqb_neq. exact (proj1 (count_zero _ _) E n Hn).
Qed.

Lemma manage_questions_update_quiz
    (d : db) (f n q : Z) (st o1 o2 o3 o4 : string) (c : Z) :
  fst (manage_questions_update d f n q st o1 o2 o3 o4 c) = d
  \/ exists question_id new_quiz set,
      In new_quiz (quiz_options d)
      /\ (forall r, Questions.id (set r) = Questions.id r
                    /\ Questions.quiz_id (set r) = new_quiz)
      /\ fst (manage_questions_update d f n q st o1 o2 o3 o4 c)
         = with_questions d
             (update (fun r => Questions.id r =? question_id) set
                     (questions d))
             (seq_questions d).
Proof.
  unfold manage_questions_update.
  destruct (is_nil (active_quizzes d)); [left; reflexivity|].
  destruct (selectbox (quiz_options d) f) as [selected_quiz|];
    [|left; reflexivity].
  destruct (selectbox (map Questions.id (questions_of_quiz d selected_quiz))
                      n) as [question_id|]; [|left; reflexivity].
  destruct (fetchone (fun r => Questions.id r =? question_id) (questions d))
    as [question|]; [|left; reflexivity].
  destruct (selectbox_index (quiz_options d) (Questions.quiz_id question) q)
    as [new_quiz|] eqn:Ei.
  2: { left.
       destruct (radio_1234 (Questions.correct_option question - 1) c);
         reflexivity. }
  destruct (radio_1234 (Questions.correct_option question - 1) c)
    as [new_correct|]; [|left; reflexivity].
  destruct (negb (Py.truthy st) || negb (Py.truthy o1)
            || negb (Py.truthy o2)); [left; reflexivity|].
  right. exists question_id, new_quiz. eexists.
  split; [exact (selectbox_index_Some _ _ _ _ Ei)|].
  split; [|reflexivity]. intro r. split; reflexivity.
Qed.

Lemma refs_ok_users (d : db) (t : list Users.row) (sq : Z) :
  (forall s u, In s (scores d) -> In u (users d) ->
               Users.id u = Scores.user_id s ->
               exists u', In u' t /\ Users.id u' = Users.id u) ->
  refs_ok d -> refs_ok (with_users d t sq).
Proof.
  intros H [Hs Hn]. split; [|exact Hn]. simpl. intros s Hin.
  destruct (Hs s Hin) as (u & Hu & E).
  destruct (H s u Hin Hu E) as (u' & Hu' & E').
  exists u'. split; [exact Hu'|]. congruence.
Qed.

Lemma refs_ok_users_update
    (d : db) (p : Users.row -> bool) (set : Users.row -> Users.row) :
  (forall u, Users.id (set u) = Users.id u) ->
  refs_ok d -> refs_ok (with_users d (update p set (users d)) (seq_users d)).
Proof.
  intros Hset. apply refs_ok_users. intros s u _ Hu _.
  exact (update_keeps_key Users.id p set (users d) u Hset Hu).
Qed.

Lemma refs_ok_quizzes (d : db) (t : list Quizzes.row) (sq : Z) :
  (forall n q, In n (questions d) -> In q (quizzes d) ->
               Quizzes.id q = Questions.quiz_id n ->
               exists q', In q' t /\ Quizzes.id q' = Quizzes.id q) ->
  refs_ok d -> refs_ok (with_quizzes d t sq).
Proof.
  intros H [Hs Hn]. split; [exact Hs|]. simpl. intros n Hin.
  destruct (Hn n Hin) as (q & Hq & E).
  destruct (H n q Hin Hq E) as (q' & Hq' & E').
  exists q'. split; [exact Hq'|]. congruence.
Qed.

Lemma refs_ok_kept : kept_by_handlers refs_ok.
Proof.
  apply (kept_by_footprint _ refs_tables); try discriminate.
  - intros d d' Hsame [Hs Hn].
    destruct (Hsame T_users eq_refl) as [Eu _].
    destruct (Hsame T_quizzes eq_refl) as [Eq _].
    destruct (Hsame T_questions eq_refl) as [En _].
    destruct (Hsame T_scores eq_refl) as [Es _].
    unfold refs_ok. rewrite Eu, Eq, En, Es. split; assumption.
  - intros _. repeat match goal with |- _ /\ _ => split end.
    + intros d ss u p now H.
      destruct (login_page_cases d ss u p now)
        as [[-> _]|(role & _ & _ & ->)]; [exact H|].
      apply refs_ok_users_update; [reflexivity|exact H].
    + intros d ss u p c f e H.
      destruct (register_page_cases d ss u p c f e) as [->|(_ & _ & ->)];
        [exact H|].
      apply refs_ok_users; [|exact H]. intros s x _ Hx _.
      exists x. split; [apply in_or_app; left; exact Hx|reflexivity].
    + intros d u fn q dob e r H.
      destruct (manage_users_update_cases d u fn q dob e r)
        as [->|(user_id & new_role & _ & _ & ->)]; [exact H|].
      apply refs_ok_users_update; [reflexivity|exact H].
    + intros d u H.
      destruct (manage_users_delete_cases d u) as [->|(user_id & Hg & ->)];
        [exact H|].
      apply refs_ok_users; [|exact H]. intros s x Hs Hx E.
      exists x. split; [|reflexivity]. apply delete_In. split; [exact Hx|].
      apply Z.eqb_neq. rewrite E. exact (Hg s Hs).
    + intros d ss fn q dob e pw cpw H.
      destruct (user_profile_cases d ss fn q dob e pw cpw) as [->|[_ ->]];
        [exact H|].
      apply refs_ok_users_update; [reflexivity|exact H].
  - intros _. repeat match goal with |- _ /\ _ => split end.
    + intros d c n de da du H.
      destruct (proj1 (manage_quizzes_cases d) c n de da du)
        as [->|(chapter_id & name & description & _ & _ & ->)]; [exact H|].
      apply refs_ok_quizzes; [|exact H]. intros x q _ Hq _.
      exists q. split; [apply in_or_app; left; exact Hq|reflexivity].
    + intros d f q c n de da du a H.
      destruct (proj1 (proj2 (manage_quizzes_cases d)) f q c n de da du a)
        as [->|(quiz_id & new_chapter & name & description & _ & _ & ->)];
        [exact H|].
      apply refs_ok_quizzes; [|exact H]. intros x y _ Hy _.
      apply update_keeps_key; [reflexivity|exact Hy].
    + intros d f q H.
      destruct (manage_quizzes_delete_guarded d f q)
        as [->|(quiz_id & Hg & ->)]; [exact H|].
      apply refs_ok_quizzes; [|exact H]. intros x y Hx Hy E.
      exists y. split; [|reflexivity]. apply delete_In. split; [exact Hy|].
      apply Z.eqb_neq. rewrite E. exact (Hg x Hx).
  - intros _. repeat match goal with |- _ /\ _ => split end.
    + intros d q st o1 o2 o3 o4 c [Hs Hn].
      destruct (manage_questions_add_cases d q st o1 o2 o3 o4 c)
        as [[-> _]|(quiz_id & correct & Hsel & _ & _ & _ & _ & ->)];
        [split; assumption|].
      split; [exact Hs|]. simpl. intros n Hin. apply in_app_or in Hin.
      destruct Hin as [Hin|[<-|[]]]; [exact (Hn n Hin)|]. simpl.
      destruct (quiz_options_In d quiz_id (selectbox_Some _ _ _ Hsel))
        as (x & Hx & E & _).
      exists x. split; assumption.
    + intros d f n q st o1 o2 o3 o4 c [Hs Hn].
      destruct (manage_questions_update_quiz d f n q st o1 o2 o3 o4 c)
        as [->|(question_id & new_quiz & set & Hin & Hset & ->)];
        [split; assumption|].
      split; [exact Hs|]. simpl. intros r Hr. apply update_In in Hr.
      destruct Hr as [Hr|(r0 & Hr0 & _ & ->)]; [exact (Hn r Hr)|].
      destruct (quiz_options_In d new_quiz Hin) as (x & Hx & E & _).
      exists x. split; [exact Hx|]. rewrite (proj2 (Hset r0)). exact E.
    + intros d f n [Hs Hn].
      destruct (manage_questions_delete_cases d f n)
        as [->|(question_id & ->)]; [split; assumption|].
      split; [exact Hs|]. simpl. intros r Hr. apply delete_In in Hr.
      apply Hn. tauto.
  - intros _ d ss q ch sub now [Hs Hn].
    destruct (take_quiz_cases d ss q ch sub now)
      as [->|(sq & uid & score & _ & _ & Hu & _ & _ & _ & ->)];
      [split; assumption|].
    split; [|exact Hn]. simpl. intros s Hin. apply in_app_or in Hin.
    destruct Hin as [Hin|[<-|[]]]; [exact (Hs s Hin)|]. simpl.
    destruct (get_user_id_Some d _ uid Hu) as (u & Hin & E & _).
    exists u. split; assumption.
Qed.

Lemma reachable_refs_ok (d : db) : reachable d -> refs_ok d.
Proof.
  apply reachable_keeps; [|exact refs_ok_kept].
  split; intros x [].
Qed.

(** X12. In every database the application can reach, four of the five
    foreign keys always find their row: every chapter has its subject,
    every quiz its chapter, every question its quiz and every Score row
    its user.  The schema declares the keys, but the connection never
    turns the foreign_keys pragma on: it is the forms' selectboxes and the
    delete guards that keep them.  (The fifth, scores.quiz_id, is not
    kept: a quiz with Score rows can be deleted.) *)
Theorem foreign_keys_kept :
  forall d, reachable d -> parents_ok d /\ refs_ok d.
Proof.
  intros d Hd. split.
  - destruct (reachable_catalog_ok d Hd) as (H1 & H2 & _).
    split; assumption.
  - exact (reachable_refs_ok d Hd).
Qed.

(** The database on which Bob has taken Quiz1 is one of them. *)
Lemma foreign_keys_kept_witness :
  parents_ok db_taken /\ refs_ok db_taken.
Proof. apply foreign_keys_kept. exact db_taken_reachable. Defined.

(** ** Edit forms: the current value is always an option *)

Lemma selectbox_index_current (options : list Z) (current choice : Z) :
  In current options ->
  exists x, selectbox_index options current choice = Some x.
Proof.
  intro H. unfold selectbox_index.
  rewrite (proj2 (mem_In current options) H). eauto.
Qed.

Lemma selected_row {A : Type} (id : A -> Z) (p : A -> bool) (t listed : list A)
    (choice x : Z) :
  NoDup (map id t) ->
  (forall r, In r listed -> In r t) ->
  selectbox (map id (filter p listed)) choice = Some x ->
  exists r, In r t /\ p r = true
            /\ fetchone (fun y => id y =? x) t = Some r.
Proof.
  intros Hnd Hsub Hs. apply selectbox_Some in Hs. apply in_map_iff in Hs.
  destruct Hs as (r & <- & Hr). apply filter_In in Hr.
  destruct Hr as [Hr Hp]. exists r. split; [exact (Hsub r Hr)|].
  split; [exact Hp|]. apply fetchone_by_id; [exact Hnd|exact (Hsub r Hr)].
Qed.

Lemma manage_chapters_update_index
    (d : db) (f c s : Z) (n de : string) :
  reachable d ->
  raises "ValueError" (snd (manage_chapters_update d f c s n de)) = false.
Proof.
  intro Hd. unfold manage_chapters_update.
  destruct (is_nil (subjects d)); [reflexivity|].
  destruct (selectbox (subject_options d) f) as [selected_subject|] eqn:Ef;
    [|reflexivity].
  destruct (selectbox (chapters_of_subject d selected_subject) c)
    as [chapter_id|] eqn:Ec; [|reflexivity].
  destruct (reachable_primary_keys_ok d Hd) as (_ & _ & (Hnd & _) & _).
  unfold chapters_of_subject in Ec.
  destruct (selected_row Chapters.id
                         (fun r => Chapters.subject_id r =? selected_subject)
                         (chapters d) (chapters_join_subjects d)
                         c chapter_id Hnd)
    as (chapter & _ & Hp & ->); [|exact Ec|].
  { intros r Hr. apply chapters_join_subjects_In in Hr. tauto. }
  apply Z.eqb_eq in Hp. rewrite Hp.
  destruct (selectbox_index_current (subject_options d) selected_subject s
                                    (selectbox_Some _ _ _ Ef)) as [x ->].
  destruct (negb (Py.truthy n)); reflexivity.
Qed.

Lemma manage_quizzes_update_index
    (d : db) (f q c : Z) (n de da du : string) (a : bool) :
  reachable d ->
  raises "ValueError" (snd (manage_quizzes_update d f q c n de da du a))
  = false.
Proof.
  intro Hd. unfold manage_quizzes_update.
  destruct (is_nil (chapters_join_subjects d)); [reflexivity|].
  destruct (selectbox (chapter_options d) f) as [selected_chapter|] eqn:Ef;
    [|reflexivity].
  destruct (selectbox (quizzes_of_chapter d selected_chapter) q)
    as [quiz_id|] eqn:Eq; [|reflexivity].
  destruct (reachable_primary_keys_ok d Hd) as (_ & _ & _ & (Hnd & _) & _).
  unfold quizzes_of_chapter in Eq.
  destruct (selected_row Quizzes.id
                         (fun r => Quizzes.chapter_id r =? selected_chapter)
                         (quizzes d) (quizzes_join d) q quiz_id Hnd)
    as (quiz & _ & Hp & ->); [|exact Eq|].
  { intros r Hr. apply quizzes_join_In in Hr. tauto. }
  apply Z.eqb_eq in Hp. rewrite Hp.
  destruct (selectbox_index_current (chapter_options d) selected_chapter c
                                    (selectbox_Some _ _ _ Ef)) as [x ->].
  destruct (check_duration n du) as [message|] eqn:Ec; [|reflexivity].
  destruct message; try reflexivity.
  apply check_duration_error in Ec. destruct Ec; discriminate.
Qed.

Lemma manage_questions_update_index
    (d : db) (f n q : Z) (st o1 o2 o3 o4 : string) (c : Z) :
  reachable d ->
  is_raised (snd (manage_questions_update d f n q st o1 o2 o3 o4 c)) = false.
Proof.
  intro Hd. unfold manage_questions_update.
  destruct (is_nil (active_quizzes d)) eqn:En; [reflexivity|].
  destruct (quiz_options_selected d f En) as [selected_quiz Ef].
  rewrite Ef.
  destruct (selectbox (map Questions.id (questions_of_quiz d selected_quiz))
                      n) as [question_id|] eqn:Eq; [|reflexivity].
  destruct (reachable_questions_ok d Hd) as [Hnd Hall].
  unfold questions_of_quiz in Eq.
  destruct (selected_row Questions.id
                         (fun r => Questions.quiz_id r =? selected_quiz)
                         (questions d) (questions d) n question_id Hnd)
    as (question & Hin & Hp & ->); [auto|exact Eq|].
  apply Z.eqb_eq in Hp. rewrite Hp.
  destruct (selectbox_index_current (quiz_options d) selected_quiz q
                                    (selectbox_Some _ _ _ Ef)) as [x ->].
  destruct (Hall question Hin) as [_ Hc].
  unfold radio_1234.
  replace ((0 <=? Questions.correct_option question - 1)
           && (Questions.correct_option question - 1 <? 4)) with true
    by (symmetry; apply andb_true_iff; split;
        [apply Z.leb_le|apply Z.ltb_lt]; lia).
  destruct (negb (Py.truthy st) || negb (Py.truthy o1)
            || negb (Py.truthy o2)); reflexivity.
Qed.

(** X13. In every database the application can reach, an edit form always
    finds the current parent of the row it edits among the options of its
    parent selectbox: list(options.keys()).index(row[1]) never raises
    ValueError in Edit Chapter, Edit Quiz and Edit Question, whatever the
    filter and the row selected.  For Edit Question, where the only options
    are the active quizzes, the radio's index correct_option - 1 is within
    its four options as well, so the model of the form raises nothing. *)
Theorem edit_forms_find_current_parent :
  forall d, reachable d ->
    (forall f c s n de,
        raises "ValueError" (snd (manage_chapters_update d f c s n de))
        = false)
    /\ (forall f q c n de da du a,
           raises "ValueError"
                  (snd (manage_quizzes_update d f q c n de da du a))
           = false)
    /\ (forall f n q st o1 o2 o3 o4 c,
           is_raised (snd (manage_questions_update d f n q st o1 o2 o3 o4 c))
           = false).
Proof.
  intros d Hd. split; [|split]; intros.
  - apply manage_chapters_update_index. exact Hd.
  - apply manage_quizzes_update_index. exact Hd.
  - apply manage_questions_update_index. exact Hd.
Qed.

(** On the database with Quiz1, its question and Bob's attempt, the three
    edit forms open on the first row. *)
Lemma edit_forms_find_current_parent_witness :
  raises "ValueError"
         (snd (manage_chapters_update db_taken 1 1 1 "Algebra" "")) = false
  /\ raises "ValueError"
            (snd (manage_quizzes_update db_taken 1 1 1 "Quiz1" ""
                                        "2025-01-02" "00:10" true)) = false
  /\ is_raised
       (snd (manage_questions_update db_taken 1 1 1 "2+2=?" "3" "4" "5" "6"
                                     2)) = false.
Proof.
  destruct (edit_forms_find_current_parent db_taken db_taken_reachable)
    as (H1 & H2 & H3).
  exact (conj (H1 1 1 1 "Algebra" "")
              (conj (H2 1 1 1 "Quiz1" "" "2025-01-02" "00:10" true)
                    (H3 1 1 1 "2+2=?" "3" "4" "5" "6" 2))).
Defined.

(** ** Grading: a correct_option that names an empty slot *)

Lemma is_correct_populated (q : Questions.row) (a : string) :
  is_correct q a = true -> names_populated_slot q = true.
Proof.
  intro H. apply is_correct_true in H. apply selected_option_Some in H.
  destruct H as [(Hn & Hi & Hne) _]. unfold names_populated_slot.
  unfold option_slots in Hn.
  remember (Questions.correct_option q) as c eqn:Ec. clear Ec.
  destruct (Z.to_nat (c - 1)) as [|[|[|[|k]]]] eqn:Ek; simpl in Hn.
  - replace c with 1 by lia. injection Hn as ->.
    apply truthy_true. exact Hne.
  - replace c with 2 by lia. injection Hn as ->.
    apply truthy_true. exact Hne.
  - replace c with 3 by lia. injection Hn as ->. simpl.
    apply truthy_true. exact Hne.
  - replace c with 4 by lia. injection Hn as ->. simpl.
    apply truthy_true. exact Hne.
  - destruct k; discriminate.
Qed.

Lemma count_le_length {A : Type} (p : A -> bool) (l : list A) :
  count p l <= Z.of_nat (List.length l).
Proof.
  unfold count. apply Nat2Z.inj_le. apply filter_length_le.
Qed.

Lemma count_missed {A : Type} (p : A -> bool) (l : list A) (x : A) :
  In x l -> p x = false -> count p l < Z.of_nat (List.length l).
Proof.
  induction l as [|y rest IH]; [intros []|].
  intros [->|Hin] Hp; rewrite count_cons; cbn [List.length];
    rewrite Nat2Z.inj_succ.
  - rewrite Hp. pose proof (count_le_length p rest). lia.
  - specialize (IH Hin Hp). destruct (p y); lia.
Qed.

(** What the page has established when it shows a score. *)
Lemma take_quiz_score_shown
    (d : db) (ss : session) (quiz_choice : Z) (choices : Z -> string)
    (submitted : bool) (now : string) (score total : Z) :
  snd (take_quiz d ss quiz_choice choices submitted now)
  = st_score score total ->
  exists selected_quiz user_id,
    submitted = true
    /\ selectbox (quiz_options d) quiz_choice = Some selected_quiz
    /\ get_user_id d (get_current_user ss) = Some user_id
    /\ ~ has_score d selected_quiz user_id
    /\ questions_of_quiz d selected_quiz <> [].
Proof.
  unfold take_quiz.
  destruct (is_nil (active_quizzes d)); [discriminate|].
  destruct (selectbox (quiz_options d) quiz_choice) as [selected_quiz|];
    [|discriminate].
  destruct (get_user_id d (get_current_user ss)) as [user_id|];
    [|discriminate].
  destruct (count (fun s => (Scores.quiz_id s =? selected_quiz)
                            && (Scores.user_id s =? user_id))
                  (scores d) >? 0) eqn:Ec; [discriminate|].
  destruct (fetchone (fun q => Quizzes.id q =? selected_quiz) (quizzes d))
    as [quiz|]; [|discriminate].
  destruct (Quizzes.time_duration quiz) as [duration|]; [|discriminate].
  destruct (Py.unpack2_int (Py.split ":" duration)); [|discriminate].
  destruct (questions_of_quiz d selected_quiz) as [|q0 rest] eqn:Eq;
    [discriminate|].
  cbn [is_nil].
  destruct (collect_answers (q0 :: rest) choices []); [|discriminate].
  destruct submitted; [|discriminate]. intros _.
  exists selected_quiz, user_id.
  split; [reflexivity|]. split; [reflexivity|]. split; [reflexivity|].
  split; [|rewrite Eq; discriminate].
  intros (s & Hs & E1 & E2).
  pose proof (proj1 (count_zero _ _) Ec s Hs) as Hz. simpl in Hz.
  rewrite E1, E2, !Z.eqb_refl in Hz. discriminate.
Qed.

(** X14. A question whose correct_option names a slot without text (an
    option3 or option4 left empty, which the forms accept) is never answered
    correctly: the grading loop skips empty slots, so no answer is matched
    to that slot.  In every database the application can reach, a
    submission for a quiz holding such a question is therefore scored below
    the number of questions, whatever was selected. *)
Theorem empty_correct_slot_costs_a_point :
  forall d ss quiz_choice choices submitted now q score total,
    reachable d ->
    In q (questions d) ->
    names_populated_slot q = false ->
    selectbox (quiz_options d) quiz_choice = Some (Questions.quiz_id q) ->
    snd (take_quiz d ss quiz_choice choices submitted now)
    = st_score score total ->
    (forall a, is_correct q a = false) /\ score < total.
Proof.
  intros d ss quiz_choice choices submitted now q score total
         Hd Hq Hgap Hsel Hshown.
  assert (Hnever : forall a, is_correct q a = false).
  { intro a. destruct (is_correct q a) eqn:E; [|reflexivity].
    apply is_correct_populated in E. congruence. }
  split; [exact Hnever|].
  destruct (take_quiz_score_shown d ss quiz_choice choices submitted now
                                  score total Hshown)
    as (selected_quiz & user_id & -> & Hs & Hu & Hnone & Hqs).
  rewrite Hsel in Hs. injection Hs as <-.
  rewrite (take_quiz_graded d ss quiz_choice choices now
                            (Questions.quiz_id q) user_id
                            Hd Hsel Hu Hnone Hqs) in Hshown.
  simpl in Hshown. injection Hshown as <- <-.
  unfold points. apply (count_missed _ _ q).
  - apply questions_of_quiz_In. split; [exact Hq|reflexivity].
  - apply Hnever.
Qed.

Lemma db_gap_reachable : reachable db_gap.
Proof.
  unfold db_gap, db_quiz. repeat apply run_reachable. apply reachable_init.
Qed.

(** Bob answers A to the question with A, B and an empty third slot that
    correct_option names: 0 of 1. *)
Lemma empty_correct_slot_costs_a_point_witness :
  is_correct (Questions.mk 1 1 "Which?" "A" "B" None None 3) "A" = false
  /\ 0 < 1.
Proof.
  refine (let H :=
            empty_correct_slot_costs_a_point
              db_gap bob 1 (fun _ => "A") true "2025-01-02 10:05:00"
              (Questions.mk 1 1 "Which?" "A" "B" None None 3) 0 1
              db_gap_reachable _ _ _ _ in
          conj (proj1 H "A") (proj2 H)).
  - vm_compute. left. reflexivity.
  - reflexivity.
  - vm_compute. reflexivity.
  - vm_compute. reflexivity.
Defined.
